(** * TouchDSODisplay: the display functions of the DSO

    A shallow embedding of [src/TouchDSODisplay.cpp]: the raw <-> display
    value conversions, the bulk renderer [drawDataBuffer], the incremental
    renderer [drawRemainingDataBufferValues], the spectrum bar update
    [draw128FFTValuesFast], the trigger / min-max line helpers, the grid
    with its labels and the raw to voltage conversions.

    Conventions.
    - A C [int] is a [Z] kept in the signed 32 bit range by [wrap32] after
      every arithmetic operation (two's complement wrap-around, as the
      Cortex-M target computes it).  [uint8_t] and [uint16_t] stores go
      through [to_uint8] and [to_uint16].
    - The constants of [TouchDSO.h] and the colours are kept abstract: they
      are the fields of [DSOConstants] and every definition takes them as a
      parameter, as it takes the table [ScaleFactorRawToDisplayShift18].
    - Calls to the display are collected in a trace of [DrawCall]s, in the
      order of issue.
    - Floating point is not modelled: the spectrum values reach
      [draw128FFTValuesFast] as the integers they are converted to, and the
      voltages and the label texts are the results of abstract functions. *)

From Stdlib Require Import ZArith Lia Bool.
From stdpp Require Import base list strings.

Local Open Scope Z_scope.

(** ** Machine integers *)

Definition wrap32 (z : Z) : Z := (z + 2 ^ 31) mod 2 ^ 32 - 2 ^ 31.
Definition to_uint8 (z : Z) : Z := z mod 2 ^ 8.
Definition to_uint16 (z : Z) : Z := z mod 2 ^ 16.
Definition to_uint32 (z : Z) : Z := z mod 2 ^ 32.

Definition int_range (z : Z) : Prop := - 2 ^ 31 <= z < 2 ^ 31.

(** C integer division truncates towards zero. *)
Definition cdiv (a b : Z) : Z := wrap32 (Z.quot a b).

(** ** Constants and global state *)

Definition Color_t := Z.

Record DSOConstants := {
  DSO_DISPLAY_WIDTH : Z;
  DSO_DISPLAY_HEIGHT : Z;
  DISPLAY_VALUE_FOR_ZERO : Z;
  TIMING_GRID_WIDTH : Z;
  HORIZONTAL_GRID_HEIGHT : Z;
  DSO_SCALE_FACTOR_SHIFT : Z;
  DATABUFFER_INVISIBLE_RAW_VALUE : Z;
  DISPLAYBUFFER_INVISIBLE_VALUE : Z;
  DATABUFFER_DISPLAY_END : Z;
  DATABUFFER_PRE_TRIGGER_SIZE : Z;
  DATABUFFER_MIN_OFFSET : Z;
  FFT_SIZE : Z;
  TRIGGER_HIGH_DISPLAY_OFFSET : Z;
  TRIGGER_MODE_OFF : Z;
  (* the macro LOCAL_DISPLAY_EXISTS: true when the code inside
     #ifdef LOCAL_DISPLAY_EXISTS is compiled *)
  LOCAL_DISPLAY_EXISTS : bool;
  COLOR_BACKGROUND_DSO : Color_t;
  COLOR_GRID_LINES : Color_t;
  COLOR_TRIGGER_LINE : Color_t;
  COLOR_MAX_MIN_LINE : Color_t;
  COLOR_DATA_HOLD : Color_t;
  COLOR_DATA_TRIGGER : Color_t;
  COLOR_DATA_RUN_CLIPPING : Color_t;
  COLOR_FFT_DATA : Color_t
}.

(** The fields of [MeasurementControl] the display code reads, all of them
    flags and integers.  Its [float] fields are not in the record:
    [actualDSORawToVoltFactor], which [getFloatFromRawValue] reads, is passed
    to it as an argument, and [MaxFFTValue] and [FrequencyHertzAtMaxFFTBin],
    which [draw128FFTValuesFast] assigns from the result of the transform and
    which only the info line prints, are not modelled. *)
Record MeasurementControlStruct := {
  isRunning : bool;
  ChannelIsACMode : bool;
  isEffectiveMinMaxMode : bool;
  TriggerPhaseJustEnded : bool;
  TriggerMode : Z;
  RawDSOReadingACZero : Z;
  RawOffsetValueForDisplayRange : Z;
  DisplayRangeIndex : Z;
  RawTriggerLevel : Z;
  RawValueMax : Z;
  RawValueMin : Z
}.

(** What the constants must satisfy for the display code to make sense:
    the zero row and the sentinel are bytes, the sentinel is no row. *)
Record constants_ok (K : DSOConstants) : Prop := {
  zero_row_range : 0 <= DISPLAY_VALUE_FOR_ZERO K < DISPLAYBUFFER_INVISIBLE_VALUE K;
  sentinel_byte : DISPLAYBUFFER_INVISIBLE_VALUE K < 2 ^ 8;
  shift_range : 0 <= DSO_SCALE_FACTOR_SHIFT K < 31;
  width_pos : 0 < DSO_DISPLAY_WIDTH K < 2 ^ 30;
  grid_pos : 0 < TIMING_GRID_WIDTH K < 2 ^ 30
}.

Section Conversions.

Variable K : DSOConstants.
(** [ScaleFactorRawToDisplayShift18], the per range fixed point factors. *)
Variable ScaleFactorRawToDisplayShift18 : Z -> Z.
Variable MeasurementControl : MeasurementControlStruct.

(** The sample after step 1 and 2 of [getDisplayFrowRawInputValue]. *)
Definition offsetAdjusted (aAdcValue : Z) : Z :=
  let a1 := if ChannelIsACMode MeasurementControl
            then wrap32 (aAdcValue - RawDSOReadingACZero MeasurementControl)
            else aAdcValue in
  wrap32 (a1 - RawOffsetValueForDisplayRange MeasurementControl).

(** The value after step 3, multiplication and shift. *)
Definition scaledValue (aAdjusted : Z) : Z :=
  Z.shiftr
    (wrap32 (aAdjusted
             * ScaleFactorRawToDisplayShift18 (DisplayRangeIndex MeasurementControl)))
    (DSO_SCALE_FACTOR_SHIFT K).

Definition getDisplayFrowRawInputValue (aAdcValue : Z) : Z :=
  if aAdcValue =? DATABUFFER_INVISIBLE_RAW_VALUE K
  then DISPLAYBUFFER_INVISIBLE_VALUE K
  else
    let aAdcValue := offsetAdjusted aAdcValue in
    if aAdcValue <? 0 then DISPLAY_VALUE_FOR_ZERO K
    else
      let aAdcValue := scaledValue aAdcValue in
      if aAdcValue >? DISPLAY_VALUE_FOR_ZERO K then 0
      else wrap32 (DISPLAY_VALUE_FOR_ZERO K - aAdcValue).

Definition getInputRawFromDisplayValue (aValue : Z) : Z :=
  let aValue := wrap32 (DISPLAY_VALUE_FOR_ZERO K - aValue) in
  let aValue := wrap32 (Z.shiftl aValue (DSO_SCALE_FACTOR_SHIFT K)) in
  let aValue :=
    cdiv aValue (ScaleFactorRawToDisplayShift18 (DisplayRangeIndex MeasurementControl)) in
  let aValue := wrap32 (aValue + RawOffsetValueForDisplayRange MeasurementControl) in
  if ChannelIsACMode MeasurementControl
  then wrap32 (aValue + RawDSOReadingACZero MeasurementControl)
  else aValue.

End Conversions.

(** ** Display calls *)

Inductive Display := BlueDisplay1 | LocalDisplay.

Inductive DrawCall :=
| drawPixel (d : Display) (x y : Z) (c : Color_t)
| drawLineRel (d : Display) (x y dx dy : Z) (c : Color_t)
| drawLineFastOneX (d : Display) (x y0 y1 : Z) (c : Color_t)
| fillRect (d : Display) (x0 y0 x1 y1 : Z) (c : Color_t)
| drawChartByteBuffer (x y : Z) (c cClear : Color_t) (chartIndex : Z)
    (doDrawDirect : bool) (buffer : list Z) (len : Z).

(** The rows a call takes from a display buffer entry: the row of a pixel,
    the two end rows of a line segment. *)
Definition rowsOf (c : DrawCall) : list Z :=
  match c with
  | drawPixel _ _ y _ => [y]
  | drawLineFastOneX _ _ y0 y1 _ => [y0; y1]
  | _ => []
  end.

(** ** The remaining global state *)

Record DisplayControlStruct := {
  TriggerLevelDisplayValue : Z;
  XScale : Z;
  showTriggerInfoLine : bool;
  drawPixelMode : bool;
  EraseColor : Color_t;
  ShowFFT : bool
}.

(** [DataBuffer] is the sample memory, read through element indices; the
    pointers into it are such indices. *)
Record DataBufferControlStruct := {
  DataBuffer : Z -> Z;
  DataBufferNextDrawPointer : Z;
  DataBufferNextInPointer : Z;
  NextDrawXValue : Z;
  DataBufferPreTriggerAreaWrapAround : bool
}.

Record Globals := {
  MeasurementControl : MeasurementControlStruct;
  DisplayControl : DisplayControlStruct;
  DataBufferControl : DataBufferControlStruct;
  DisplayBuffer : list Z;
  DisplayBufferMin : list Z;
  DisplayBuffer2 : list Z;
  DisplayBufferFFT : list Z
}.

Inductive DrawMode := DRAW_MODE_REGULAR | DRAW_MODE_CLEAR_OLD | DRAW_MODE_CLEAR_OLD_MIN.

Definition isRegular (m : DrawMode) : bool :=
  match m with DRAW_MODE_REGULAR => true | _ => false end.

(** Array access [a[i]] and store [a[i] = v] into a byte buffer. *)
Definition readAt (a : list Z) (i : Z) : Z := a !!! Z.to_nat i.
Definition storeAt (a : list Z) (i v : Z) : list Z := <[Z.to_nat i := to_uint8 v]> a.

(** A [while] loop that records the states in which its body ran.  [before k]
    is what happens to the state ahead of the [k]-th evaluation of the
    condition (nothing, in a sequential run).  [None] is fuel exhaustion. *)
Fixpoint whileLoop {S : Type} (before : nat -> S -> S) (cond : S -> bool)
    (body : S -> option S) (fuel k : nat) (s : S) : option (list S * S) :=
  match fuel with
  | O => None
  | Datatypes.S fuel' =>
    let s := before k s in
    if cond s
    then s1 ← body s;
         r ← whileLoop before cond body fuel' (Datatypes.S k) s1;
         Some (s :: r.1, r.2)
    else Some ([], s)
  end.

Definition set_DisplayBufferFFT (g : Globals) (b : list Z) : Globals :=
  {| MeasurementControl := MeasurementControl g; DisplayControl := DisplayControl g;
     DataBufferControl := DataBufferControl g; DisplayBuffer := DisplayBuffer g;
     DisplayBufferMin := DisplayBufferMin g; DisplayBuffer2 := DisplayBuffer2 g;
     DisplayBufferFFT := b |}.

Definition set_DisplayBuffers (g : Globals) (b bMin : list Z) : Globals :=
  {| MeasurementControl := MeasurementControl g; DisplayControl := DisplayControl g;
     DataBufferControl := DataBufferControl g; DisplayBuffer := b;
     DisplayBufferMin := bMin; DisplayBuffer2 := DisplayBuffer2 g;
     DisplayBufferFFT := DisplayBufferFFT g |}.

Definition set_bulkBuffers (g : Globals) (b bMin b2 : list Z) : Globals :=
  {| MeasurementControl := MeasurementControl g; DisplayControl := DisplayControl g;
     DataBufferControl := DataBufferControl g; DisplayBuffer := b;
     DisplayBufferMin := bMin; DisplayBuffer2 := b2;
     DisplayBufferFFT := DisplayBufferFFT g |}.

Definition set_drawCursor (g : Globals) (nextDrawX nextDrawPointer : Z) : Globals :=
  {| MeasurementControl := MeasurementControl g; DisplayControl := DisplayControl g;
     DataBufferControl :=
       {| DataBuffer := DataBuffer (DataBufferControl g);
          DataBufferNextDrawPointer := nextDrawPointer;
          DataBufferNextInPointer := DataBufferNextInPointer (DataBufferControl g);
          NextDrawXValue := nextDrawX;
          DataBufferPreTriggerAreaWrapAround :=
            DataBufferPreTriggerAreaWrapAround (DataBufferControl g) |};
     DisplayBuffer := DisplayBuffer g; DisplayBufferMin := DisplayBufferMin g;
     DisplayBuffer2 := DisplayBuffer2 g; DisplayBufferFFT := DisplayBufferFFT g |}.

(** ** The display functions *)

Section Display.

Variable K : DSOConstants.
Variable ScaleFactorRawToDisplayShift18 : Z -> Z.
(** [fftDisplayValue dbc k]: the [uint16_t] that
    [tYDisplayScaleFactor * tInputValue] is converted to for the [k]-th value
    of [computeFFT(DataBufferControl.DataBufferDisplayStart)]. *)
Variable fftDisplayValue : DataBufferControlStruct -> Z -> Z.

Local Abbreviation W := (DSO_DISPLAY_WIDTH K).
Local Abbreviation INVISIBLE := (DISPLAYBUFFER_INVISIBLE_VALUE K).
Local Abbreviation toDisplay := (getDisplayFrowRawInputValue K ScaleFactorRawToDisplayShift18).

(** *** Trigger line and min / max lines *)

Fixpoint restoreGrid (fuel : nat) (tXPos y : Z) : option (list DrawCall) :=
  match fuel with
  | O => None
  | S fuel' =>
    if tXPos <? W - 1
    then cons (drawPixel BlueDisplay1 tXPos y (COLOR_GRID_LINES K))
           <$> restoreGrid fuel' (wrap32 (tXPos + TIMING_GRID_WIDTH K)) y
    else Some []
  end.

Fixpoint restoreGraph (n : nat) (i : Z) (buffer : list Z) (y : Z) : list DrawCall :=
  match n with
  | O => []
  | S n' =>
    let tValueByte := readAt buffer i in
    (if tValueByte =? y
     then [drawPixel BlueDisplay1 i tValueByte (COLOR_DATA_HOLD K)] else [])
    ++ restoreGraph n' (i + 1) buffer y
  end.

Definition clearTriggerLine (fuel : nat) (g : Globals) (aTriggerLevelDisplayValue : Z)
  : option (list DrawCall) :=
  let y := to_uint8 aTriggerLevelDisplayValue in
  grid ← restoreGrid fuel (TIMING_GRID_WIDTH K - 1) y;
  Some (drawLineRel BlueDisplay1 0 y W 0 (COLOR_BACKGROUND_DSO K)
        :: grid
        ++ (if isRunning (MeasurementControl g) then []
            else restoreGraph (Z.to_nat W) 0 (DisplayBuffer g) y)).

Definition drawTriggerLine (g : Globals) : list DrawCall :=
  if negb (TriggerLevelDisplayValue (DisplayControl g) =? 0)
     && negb (TriggerMode (MeasurementControl g) =? TRIGGER_MODE_OFF K)
  then [drawLineRel BlueDisplay1 0 (TriggerLevelDisplayValue (DisplayControl g)) W 0
          (COLOR_TRIGGER_LINE K)]
  else [].

Definition drawMinMaxLines (g : Globals) : list DrawCall :=
  let mc := MeasurementControl g in
  let tValueDisplay := toDisplay mc (RawValueMax mc) in
  (if negb (tValueDisplay =? 0)
   then [drawLineRel BlueDisplay1 0 tValueDisplay W 0 (COLOR_MAX_MIN_LINE K)] else [])
  ++
  let tValueDisplay := toDisplay mc (RawValueMin mc) in
  (if negb (tValueDisplay =? DISPLAY_VALUE_FOR_ZERO K)
   then [drawLineRel BlueDisplay1 0 tValueDisplay W 0 (COLOR_MAX_MIN_LINE K)] else []).

(** *** Averaging several raw values *)

Fixpoint sumRawValues (n : nat) (data : Z -> Z) (aAdcValuePtr tAdcValue : Z) : Z :=
  match n with
  | O => tAdcValue
  | S n' => sumRawValues n' data (aAdcValuePtr + 1) (wrap32 (tAdcValue + data aAdcValuePtr))
  end.

Definition getDisplayFrowMultipleRawValues (mc : MeasurementControlStruct)
    (data : Z -> Z) (aAdcValuePtr aCount : Z) : Z :=
  toDisplay mc (cdiv (sumRawValues (Z.to_nat aCount) data aAdcValuePtr 0) aCount).

(** *** Spectrum bars *)

Definition fftBar (aColor : Color_t) (tDisplayX tDisplayY DisplayYOld : Z) : list DrawCall :=
  if tDisplayY <? DisplayYOld
  then [fillRect BlueDisplay1 tDisplayX tDisplayY (tDisplayX + 2) DisplayYOld aColor]
  else if tDisplayY >? DisplayYOld
  then [fillRect BlueDisplay1 tDisplayX DisplayYOld (tDisplayX + 2) tDisplayY
          (COLOR_BACKGROUND_DSO K)]
  else [].

(** The height the [k]-th bar gets: [DSO_DISPLAY_HEIGHT - tDisplayY]. *)
Definition fftBarTop (dbc : DataBufferControlStruct) (k : Z) : Z :=
  to_uint16 (DSO_DISPLAY_HEIGHT K - to_uint16 (fftDisplayValue dbc k)).

Fixpoint fftLoop (fuel : nat) (aColor : Color_t) (dbc : DataBufferControlStruct)
    (tDisplayX k : Z) (buffer : list Z) (out : list DrawCall)
  : option (list Z * list DrawCall) :=
  match fuel with
  | O => None
  | S fuel' =>
    if tDisplayX <? W
    then
      let tDisplayY := fftBarTop dbc k in
      let DisplayYOld := readAt buffer k in
      fftLoop fuel' aColor dbc (wrap32 (tDisplayX + 3)) (k + 1)
        (storeAt buffer k tDisplayY)
        (out ++ fftBar aColor tDisplayX tDisplayY DisplayYOld)
    else Some (buffer, out)
  end.

(** The bars and [DisplayBufferFFT]; the peak value and the peak frequency
    that the function also notes in two [float] fields of [MeasurementControl]
    are left out with these fields. *)
Definition draw128FFTValuesFast (fuel : nat) (aColor : Color_t) (g : Globals)
  : option (Globals * list DrawCall) :=
  if ShowFFT (DisplayControl g)
  then r ← fftLoop fuel aColor (DataBufferControl g) 0 0 (DisplayBufferFFT g) [];
       Some (set_DisplayBufferFFT g r.1, r.2)
  else Some (g, []).

(** *** The incremental renderer *)

(** Condition of the [while] loop of [drawRemainingDataBufferValues]. *)
Definition moreToDraw (g : Globals) : bool :=
  let dbc := DataBufferControl g in
  (DataBufferNextDrawPointer dbc <? DataBufferNextInPointer dbc)
  && (DataBufferNextDrawPointer dbc <=? DATABUFFER_DISPLAY_END K)
  && negb (TriggerPhaseJustEnded (MeasurementControl g))
  && negb (DataBufferPreTriggerAreaWrapAround dbc).

(** A call for the main track, followed in min / max mode by the same call
    for the minimum track. *)
Definition bothTracks (g : Globals) (main minimum : DrawCall) : list DrawCall :=
  main :: (if isEffectiveMinMaxMode (MeasurementControl g) then [minimum] else []).

(** "clear old pixel / line" for column [tDisplayX]. *)
Definition clearOldValue (g : Globals) (tDisplayX : Z) : list DrawCall :=
  let tValue := readAt (DisplayBuffer g) tDisplayX in
  let tValueMin := readAt (DisplayBufferMin g) tDisplayX in
  if LOCAL_DISPLAY_EXISTS K && drawPixelMode (DisplayControl g)
  then
    let tColor :=
      if Z.rem tDisplayX (TIMING_GRID_WIDTH K) =? TIMING_GRID_WIDTH K - 1
      then COLOR_GRID_LINES K else EraseColor (DisplayControl g) in
    if negb (tValue =? INVISIBLE)
    then bothTracks g (drawPixel BlueDisplay1 tDisplayX tValue tColor)
                      (drawPixel BlueDisplay1 tDisplayX tValueMin tColor)
    else []
  else
    if tDisplayX <? W - 1
    then
      let tNextValue := readAt (DisplayBuffer g) (tDisplayX + 1) in
      let tNextValueMin := readAt (DisplayBufferMin g) (tDisplayX + 1) in
      let tColor := EraseColor (DisplayControl g) in
      if negb (tNextValue =? INVISIBLE)
      then
        if negb (tValue =? INVISIBLE)
        then bothTracks g (drawLineFastOneX BlueDisplay1 tDisplayX tValue tNextValue tColor)
                          (drawLineFastOneX BlueDisplay1 tDisplayX tValueMin tNextValueMin tColor)
        else bothTracks g (drawPixel BlueDisplay1 (tDisplayX + 1) tNextValue tColor)
                          (drawPixel BlueDisplay1 (tDisplayX + 1) tNextValueMin tColor)
      else []
    else [].

(** Drawing of the new values [tValue], [tValueMin] of column [tDisplayX];
    [g] already holds them in its display buffers. *)
Definition drawNewValue (aDrawColor : Color_t) (g : Globals) (tDisplayX tValue tValueMin : Z)
  : list DrawCall :=
  if LOCAL_DISPLAY_EXISTS K && drawPixelMode (DisplayControl g)
  then
    if negb (tValue =? INVISIBLE)
    then bothTracks g (drawPixel BlueDisplay1 tDisplayX tValue aDrawColor)
                      (drawPixel BlueDisplay1 tDisplayX tValueMin aDrawColor)
    else []
  else
    if negb (tDisplayX =? 0) && (tDisplayX <=? W - 1)
    then
      if negb (tValue =? INVISIBLE)
      then
        let tLastValue := readAt (DisplayBuffer g) (tDisplayX - 1) in
        if negb (tLastValue =? INVISIBLE)
        then bothTracks g
               (drawLineFastOneX BlueDisplay1 (tDisplayX - 1) tLastValue tValue aDrawColor)
               (drawLineFastOneX BlueDisplay1 (tDisplayX - 1)
                  (readAt (DisplayBufferMin g) (tDisplayX - 1)) tValueMin aDrawColor)
        else bothTracks g (drawPixel BlueDisplay1 tDisplayX tValue aDrawColor)
                          (drawPixel BlueDisplay1 tDisplayX tValueMin aDrawColor)
      else []
    else [].

(** The column the body of the loop works on: the cursor, wrapped. *)
Definition columnOf (g : Globals) : Z :=
  let tDisplayX := NextDrawXValue (DataBufferControl g) in
  if tDisplayX >=? W then 0 else tDisplayX.

(** One run of the body of the [while] loop. *)
Definition drawRemainingColumn (fuel : nat) (aDrawColor : Color_t)
    (s : Globals * list DrawCall) : option (Globals * list DrawCall) :=
  let '(g0, out) := s in
  let pointer := DataBufferNextDrawPointer (DataBufferControl g0) in
  fft ← (if pointer =? DATABUFFER_PRE_TRIGGER_SIZE K + FFT_SIZE K - 1
         then draw128FFTValuesFast fuel (COLOR_FFT_DATA K) g0
         else Some (g0, []));
  let g := fft.1 in
  let mc := MeasurementControl g in
  let data := DataBuffer (DataBufferControl g) in
  let tDisplayX := columnOf g in
  let cleared := clearOldValue g tDisplayX in
  let tValue := to_uint32 (toDisplay mc (data pointer)) in
  let tValueMin :=
    if isEffectiveMinMaxMode mc
    then to_uint32 (toDisplay mc (data (pointer + DATABUFFER_MIN_OFFSET K)))
    else readAt (DisplayBufferMin g) tDisplayX in
  let g1 :=
    set_DisplayBuffers g
      (storeAt (DisplayBuffer g) tDisplayX tValue)
      (if isEffectiveMinMaxMode mc
       then storeAt (DisplayBufferMin g) tDisplayX tValueMin
       else DisplayBufferMin g) in
  let drawn := drawNewValue aDrawColor g1 tDisplayX tValue tValueMin in
  Some (set_drawCursor g1 (wrap32 (tDisplayX + 1)) (pointer + 1),
        out ++ fft.2 ++ cleared ++ drawn).

(** [drawRemainingDataBufferValues] with the acquisition changing the state
    ahead of the [k]-th evaluation of the loop condition by [acquisition k]. *)
Definition drawRemainingDuringAcquisition (acquisition : nat -> Globals -> Globals)
    (fuel : nat) (aDrawColor : Color_t) (g : Globals)
  : option (list (Globals * list DrawCall) * (Globals * list DrawCall)) :=
  whileLoop (fun k s => (acquisition k s.1, s.2)) (fun s => moreToDraw s.1)
    (drawRemainingColumn fuel aDrawColor) fuel 0%nat (g, []).

Definition drawRemainingDataBufferValues (fuel : nat) (aDrawColor : Color_t) (g : Globals)
  : option (Globals * list DrawCall) :=
  snd <$> drawRemainingDuringAcquisition (fun _ g => g) fuel aDrawColor g.

(** *** The bulk renderer *)

(** The local variables of [drawDataBuffer] that live across columns.  The
    screen buffer pointers are indices into [trackBuffer], the display buffer
    of the track in work; [ScreenBufferWritePointer2] is an index into
    [DisplayBuffer2]. *)
Record BulkLocals := {
  tDataBufferPointer : Z;
  tXScaleCounter : Z;
  ScreenBufferReadPointer : Z;
  ScreenBufferWritePointer1 : Z;
  ScreenBufferWritePointer2 : Z;
  tCounterForTimingGridRestore : Z;
  tLastValue : Z;
  tLastValueClear : Z;
  trackBuffer : list Z;
  triggerStateBuffer : list Z;
  bulkOut : list DrawCall
}.

Section Bulk.

Variable mc : MeasurementControlStruct.
Variable dc : DisplayControlStruct.
Variable data : Z -> Z.
Variables (aColor aClearBeforeColor : Color_t) (aDrawMode : DrawMode).

(** "get data from data buffer and perform X scaling": the value of the
    column, the data pointer and the scale counter after it. *)
Definition scaledColumnValue (tXScale tDataBufferPointer tXScaleCounter : Z) : Z * Z * Z :=
  let tValue := toDisplay mc (data tDataBufferPointer) in
  if tXScale =? 0 then (tValue, tDataBufferPointer + 1, tXScaleCounter)
  else if tXScale <? -1 then
    (getDisplayFrowMultipleRawValues mc data tDataBufferPointer tXScaleCounter,
     tDataBufferPointer + tXScaleCounter, tXScaleCounter)
  else if tXScale =? -1 then
    let tDataBufferPointer := tDataBufferPointer + 1 in
    let tXScaleCounter := wrap32 (tXScaleCounter - 1) in
    if tXScaleCounter <? 0
    then
      if negb (tValue =? INVISIBLE)
      then (cdiv (wrap32 (tValue + toDisplay mc (data tDataBufferPointer))) 2,
            tDataBufferPointer + 1, 1)
      else (tValue, tDataBufferPointer, 1)
    else (tValue, tDataBufferPointer, tXScaleCounter)
  else if tXScale =? 1 then
    let tDataBufferPointer := tDataBufferPointer + 1 in
    let tXScaleCounter := wrap32 (tXScaleCounter - 1) in
    if tXScaleCounter <? 0
    then (tValue, tDataBufferPointer - 1, 2)
    else (tValue, tDataBufferPointer, tXScaleCounter)
  else
    let '(tDataBufferPointer, tXScaleCounter) :=
      if tXScaleCounter =? 0 then (tDataBufferPointer + 1, tXScale)
      else (tDataBufferPointer, tXScaleCounter) in
    (tValue, tDataBufferPointer, wrap32 (tXScaleCounter - 1)).

(** "draw trigger state line": the new [DisplayBuffer2], its write pointer
    and the calls. *)
Definition triggerStateLine (tTriggerValue i tValue : Z) (l : BulkLocals)
  : list Z * Z * list DrawCall :=
  let buffer2 := triggerStateBuffer l in
  let pointer2 := ScreenBufferWritePointer2 l in
  if showTriggerInfoLine dc
  then
    let erased :=
      if LOCAL_DISPLAY_EXISTS K && (aClearBeforeColor >? 0)
      then [drawPixel LocalDisplay i (readAt buffer2 pointer2) aClearBeforeColor] else [] in
    if tValue >? tTriggerValue
    then
      let y := wrap32 (tTriggerValue - TRIGGER_HIGH_DISPLAY_OFFSET K) in
      (storeAt buffer2 pointer2 y, pointer2 + 1,
       erased ++ (if LOCAL_DISPLAY_EXISTS K
                  then [drawPixel LocalDisplay i y (COLOR_DATA_TRIGGER K)] else []))
    else (buffer2, pointer2, erased)
  else (buffer2, pointer2, []).

(** The part of the loop body inside [#ifdef LOCAL_DISPLAY_EXISTS]: the new
    [tCounterForTimingGridRestore], [ScreenBufferReadPointer] and
    [tLastValueClear], and the calls. *)
Definition localColumn (i tValue : Z) (l : BulkLocals) : Z * Z * Z * list DrawCall :=
  let buffer := trackBuffer l in
  let gridCounter := tCounterForTimingGridRestore l in
  let readPointer := ScreenBufferReadPointer l in
  let lastClear := tLastValueClear l in
  if drawPixelMode dc || (i =? 0)
  then
    if negb (isRegular aDrawMode) && (gridCounter =? TIMING_GRID_WIDTH K)
    then (0, readPointer, lastClear, [drawPixel LocalDisplay i tValue (COLOR_GRID_LINES K)])
    else
      let gridCounter := wrap32 (gridCounter + 1) in
      let '(readPointer, lastClear, cleared) :=
        if aClearBeforeColor >? 0
        then
          let tValueClear := readAt buffer readPointer in
          let pixel :=
            if negb (tValueClear =? INVISIBLE)
            then [drawPixel LocalDisplay i tValueClear aClearBeforeColor] else [] in
          if negb (drawPixelMode dc)
          then
            let tLastValueClear := tValueClear in
            let readPointer := readPointer + 1 in
            let tValueClear := readAt buffer readPointer in
            (readPointer, tValueClear,
             pixel ++ (if negb (tValueClear =? INVISIBLE)
                       then [drawLineFastOneX LocalDisplay 0 tLastValueClear tValueClear
                               aClearBeforeColor]
                       else []))
          else (readPointer, lastClear, pixel)
        else (readPointer, lastClear, []) in
      (gridCounter, readPointer, lastClear,
       cleared ++ (if negb (tValue =? INVISIBLE)
                   then [drawPixel LocalDisplay i tValue aColor] else []))
  else
    let '(lastClear, cleared) :=
      if (aClearBeforeColor >? 0) && negb (i =? W - 1)
      then
        let tValueClear := readAt buffer readPointer in
        (tValueClear,
         if negb (lastClear =? INVISIBLE) && negb (tValueClear =? INVISIBLE)
         then [drawLineFastOneX LocalDisplay i lastClear tValueClear aClearBeforeColor]
         else [])
      else (lastClear, []) in
    (gridCounter, readPointer, lastClear,
     cleared ++
     (if negb (tValue =? INVISIBLE)
      then
        if negb (tLastValue l =? INVISIBLE)
        then
          if (tLastValue l =? tValue) && ((tValue =? DISPLAY_VALUE_FOR_ZERO K) || (tValue =? 0))
          then [drawLineFastOneX LocalDisplay (i - 1) (tLastValue l) tValue
                  (COLOR_DATA_RUN_CLIPPING K)]
          else [drawLineFastOneX LocalDisplay (i - 1) (tLastValue l) tValue aColor]
        else [drawPixel LocalDisplay i tValue aColor]
      else [])).

(** The body of the [for] loop, for column [i]. *)
Definition bulkColumn (tXScale tTriggerValue i : Z) (l : BulkLocals) : BulkLocals :=
  let '(tValue, pointer, counter) :=
    if isRegular aDrawMode
    then scaledColumnValue tXScale (tDataBufferPointer l) (tXScaleCounter l)
    else (readAt (trackBuffer l) (ScreenBufferReadPointer l),
          tDataBufferPointer l, tXScaleCounter l) in
  let '(buffer2, pointer2, overlay) := triggerStateLine tTriggerValue i tValue l in
  let '(gridCounter, readPointer, lastClear, drawn) :=
    if LOCAL_DISPLAY_EXISTS K
    then localColumn i tValue l
    else (tCounterForTimingGridRestore l, ScreenBufferReadPointer l, tLastValueClear l, []) in
  {| tDataBufferPointer := pointer;
     tXScaleCounter := counter;
     ScreenBufferReadPointer := readPointer + 1;
     ScreenBufferWritePointer1 := ScreenBufferWritePointer1 l + 1;
     ScreenBufferWritePointer2 := pointer2;
     tCounterForTimingGridRestore := gridCounter;
     tLastValue := if LOCAL_DISPLAY_EXISTS K then tValue else tLastValue l;
     tLastValueClear := lastClear;
     trackBuffer := storeAt (trackBuffer l) (ScreenBufferWritePointer1 l) tValue;
     triggerStateBuffer := buffer2;
     bulkOut := bulkOut l ++ overlay ++ drawn |}.

(** [for (i = 0; i < aLength; ++i)], [n] columns from column [i] on. *)
Fixpoint bulkColumns (tXScale tTriggerValue : Z) (n : nat) (i : Z) (l : BulkLocals)
  : BulkLocals :=
  match n with
  | O => l
  | S n' => bulkColumns tXScale tTriggerValue n' (i + 1) (bulkColumn tXScale tTriggerValue i l)
  end.

(** One turn of the [do] loop over the track in [buffer]. *)
Definition bulkPass (tXScale tTriggerValue aLength : Z) (l : BulkLocals) : BulkLocals :=
  let counter := if tXScale <=? 0 then wrap32 (- tXScale) else tXScaleCounter l in
  bulkColumns tXScale tTriggerValue (Z.to_nat aLength) 0
    {| tDataBufferPointer := tDataBufferPointer l;
       tXScaleCounter := counter;
       ScreenBufferReadPointer := ScreenBufferReadPointer l;
       ScreenBufferWritePointer1 := ScreenBufferWritePointer1 l;
       ScreenBufferWritePointer2 := ScreenBufferWritePointer2 l;
       tCounterForTimingGridRestore := tCounterForTimingGridRestore l;
       tLastValue := tLastValue l;
       tLastValueClear := tLastValueClear l;
       trackBuffer := trackBuffer l;
       triggerStateBuffer := triggerStateBuffer l;
       bulkOut := bulkOut l |}.

End Bulk.

Definition startTrack (l : BulkLocals) (pointer : Z) (buffer : list Z)
    (out : list DrawCall) : BulkLocals :=
  {| tDataBufferPointer := pointer;
     tXScaleCounter := tXScaleCounter l;
     ScreenBufferReadPointer := 0;
     ScreenBufferWritePointer1 := 0;
     ScreenBufferWritePointer2 := ScreenBufferWritePointer2 l;
     tCounterForTimingGridRestore := tCounterForTimingGridRestore l;
     tLastValue := tLastValue l;
     tLastValueClear := tLastValueClear l;
     trackBuffer := buffer;
     triggerStateBuffer := triggerStateBuffer l;
     bulkOut := out |}.

(** [drawDataBuffer]; [data] is the memory [aDataBufferPointer] points into. *)
Definition drawDataBuffer (g : Globals) (data : Z -> Z) (aDataBufferPointer aLength : Z)
    (aColor aClearBeforeColor : Color_t) (aDrawMode : DrawMode) (aDrawAlsoMin : bool)
  : Globals * list DrawCall :=
  let mc := MeasurementControl g in
  let dc := DisplayControl g in
  let tXScale := XScale dc in
  let tTriggerValue := toDisplay mc (RawTriggerLevel mc) in
  let pass := bulkPass mc dc data aColor aClearBeforeColor aDrawMode tXScale tTriggerValue
                aLength in
  let minFirst := match aDrawMode with DRAW_MODE_CLEAR_OLD_MIN => true | _ => false end in
  let l0 :=
    {| tDataBufferPointer := aDataBufferPointer;
       tXScaleCounter := tXScale;
       ScreenBufferReadPointer := 0;
       ScreenBufferWritePointer1 := 0;
       ScreenBufferWritePointer2 := 0;
       tCounterForTimingGridRestore := 0;
       tLastValue := 0;
       tLastValueClear := 0;
       trackBuffer := if minFirst then DisplayBufferMin g else DisplayBuffer g;
       triggerStateBuffer := DisplayBuffer2 g;
       bulkOut := [] |} in
  let l1 := pass l0 in
  if minFirst
  then
    (set_bulkBuffers g (DisplayBuffer g) (trackBuffer l1) (triggerStateBuffer l1),
     bulkOut l1
     ++ [drawChartByteBuffer 0 0 aColor aClearBeforeColor 1 true (trackBuffer l1) aLength])
  else
    let chart0 :=
      drawChartByteBuffer 0 0 aColor aClearBeforeColor 0 (negb aDrawAlsoMin)
        (trackBuffer l1) aLength in
    if aDrawAlsoMin
    then
      let l2 :=
        pass (startTrack l1 (aDataBufferPointer + DATABUFFER_MIN_OFFSET K)
                (DisplayBufferMin g) (bulkOut l1 ++ [chart0])) in
      (set_bulkBuffers g (trackBuffer l1) (trackBuffer l2) (triggerStateBuffer l2),
       bulkOut l2
       ++ [drawChartByteBuffer 0 0 aColor aClearBeforeColor 1 true (trackBuffer l2) aLength])
    else
      (set_bulkBuffers g (trackBuffer l1) (DisplayBufferMin g) (triggerStateBuffer l1),
       bulkOut l1 ++ [chart0]).

End Display.

(** ** Sample configurations

    A configuration for a 320 x 240 screen with a 12 bit converter, the
    identity scale ([1 << shift]) in every range and a measurement state in DC
    mode; they serve to evaluate the definitions at concrete inputs. *)
Definition K320 (localDisplay : bool) : DSOConstants := {|
  DSO_DISPLAY_WIDTH := 320;
  DSO_DISPLAY_HEIGHT := 240;
  DISPLAY_VALUE_FOR_ZERO := 239;
  TIMING_GRID_WIDTH := 32;
  HORIZONTAL_GRID_HEIGHT := 32;
  DSO_SCALE_FACTOR_SHIFT := 18;
  DATABUFFER_INVISIBLE_RAW_VALUE := 4096;
  DISPLAYBUFFER_INVISIBLE_VALUE := 255;
  DATABUFFER_DISPLAY_END := 639;
  DATABUFFER_PRE_TRIGGER_SIZE := 64;
  DATABUFFER_MIN_OFFSET := 1024;
  FFT_SIZE := 256;
  TRIGGER_HIGH_DISPLAY_OFFSET := 7;
  TRIGGER_MODE_OFF := 2;
  LOCAL_DISPLAY_EXISTS := localDisplay;
  COLOR_BACKGROUND_DSO := 65535;
  COLOR_GRID_LINES := 1;
  COLOR_TRIGGER_LINE := 2;
  COLOR_MAX_MIN_LINE := 3;
  COLOR_DATA_HOLD := 4;
  COLOR_DATA_TRIGGER := 5;
  COLOR_DATA_RUN_CLIPPING := 6;
  COLOR_FFT_DATA := 7
|}.

Definition identityScale (_ : Z) : Z := 2 ^ 18.

Definition mcSample (running minMax : bool) (offset : Z) : MeasurementControlStruct := {|
  isRunning := running;
  ChannelIsACMode := false;
  isEffectiveMinMaxMode := minMax;
  TriggerPhaseJustEnded := false;
  TriggerMode := 0;
  RawDSOReadingACZero := 2048;
  RawOffsetValueForDisplayRange := offset;
  DisplayRangeIndex := 3;
  RawTriggerLevel := 0;
  RawValueMax := 0;
  RawValueMin := 0
|}.

Definition dcSample (xScale : Z) : DisplayControlStruct := {|
  TriggerLevelDisplayValue := 100;
  XScale := xScale;
  showTriggerInfoLine := false;
  drawPixelMode := false;
  EraseColor := 65535;
  ShowFFT := false
|}.

(** Sample memory holding the values of [samples] from index 0 on. *)
Definition memoryOf (samples : list Z) : Z -> Z :=
  fun p => if p <? 0 then 0 else samples !!! Z.to_nat p.

Definition gSample (mc : MeasurementControlStruct) (xScale : Z) (data : Z -> Z)
    (nextDraw nextIn cursor : Z) (buffer bufferMin : list Z) : Globals := {|
  MeasurementControl := mc;
  DisplayControl := dcSample xScale;
  DataBufferControl :=
    {| DataBuffer := data;
       DataBufferNextDrawPointer := nextDraw;
       DataBufferNextInPointer := nextIn;
       NextDrawXValue := cursor;
       DataBufferPreTriggerAreaWrapAround := false |};
  DisplayBuffer := buffer;
  DisplayBufferMin := bufferMin;
  DisplayBuffer2 := replicate 320 255;
  DisplayBufferFFT := replicate 128 240
|}.

Definition noFFT (_ : DataBufferControlStruct) (_ : Z) : Z := 0.

(** ** Notions used in the statements *)

(** The setting of [testDSOConversions]: range 3 (136 raw units for a
    division of 32 rows), offset 100, raw value 400. *)
Definition range3Scale (_ : Z) : Z := 61680.

(** The fill of bar [k], whose top moves from row [old] to row [new]. *)
Definition barFill (K : DSOConstants) (aColor : Color_t) (k new old : Z) : DrawCall :=
  fillRect BlueDisplay1 (3 * k) (Z.min new old) (3 * k + 2) (Z.max new old)
    (if new <? old then aColor else COLOR_BACKGROUND_DSO K).

(** A spectrum whose first bin is at full height and whose other bins are 0. *)
Definition peakAtBin0 (_ : DataBufferControlStruct) (k : Z) : Z :=
  if k =? 0 then 32 else 0.

(** What the acquisition may do between two evaluations of the loop condition:
    anything that leaves the draw cursor, the draw pointer and the min / max
    mode alone (it moves the next-in pointer, sets the two flags, stores
    samples). *)
Record acquisitionOnly (acquisition : nat -> Globals -> Globals) : Prop := {
  keeps_cursor : forall k g,
    NextDrawXValue (DataBufferControl (acquisition k g))
    = NextDrawXValue (DataBufferControl g);
  keeps_pointer : forall k g,
    DataBufferNextDrawPointer (DataBufferControl (acquisition k g))
    = DataBufferNextDrawPointer (DataBufferControl g);
  keeps_minMaxMode : forall k g,
    isEffectiveMinMaxMode (MeasurementControl (acquisition k g))
    = isEffectiveMinMaxMode (MeasurementControl g)
}.

Definition cursorOf (s : Globals * list DrawCall) : Z :=
  NextDrawXValue (DataBufferControl s.1).

Definition pointerOf (s : Globals * list DrawCall) : Z :=
  DataBufferNextDrawPointer (DataBufferControl s.1).

(** The number of states of [ran] in which the body wrapped the cursor. *)
Fixpoint wrapCount (K : DSOConstants) (ran : list (Globals * list DrawCall)) : Z :=
  match ran with
  | [] => 0
  | s :: ran' => (if cursorOf s >=? DSO_DISPLAY_WIDTH K then 1 else 0) + wrapCount K ran'
  end.

(** Two samples wait while the cursor stands at the last column. *)
Definition gAtLastColumn (minMax : bool) (data : Z -> Z) : Globals :=
  gSample (mcSample true minMax 0) 0 data 0 2 319 (replicate 320 100) (replicate 320 110).

(** The acquisition that reports the end of the trigger phase ahead of the
    second evaluation of the loop condition. *)
Definition triggerPhaseEndsAfterOne (k : nat) (g : Globals) : Globals :=
  match k with
  | 1%nat =>
    {| MeasurementControl :=
         {| isRunning := isRunning (MeasurementControl g);
            ChannelIsACMode := ChannelIsACMode (MeasurementControl g);
            isEffectiveMinMaxMode := isEffectiveMinMaxMode (MeasurementControl g);
            TriggerPhaseJustEnded := true;
            TriggerMode := TriggerMode (MeasurementControl g);
            RawDSOReadingACZero := RawDSOReadingACZero (MeasurementControl g);
            RawOffsetValueForDisplayRange :=
              RawOffsetValueForDisplayRange (MeasurementControl g);
            DisplayRangeIndex := DisplayRangeIndex (MeasurementControl g);
            RawTriggerLevel := RawTriggerLevel (MeasurementControl g);
            RawValueMax := RawValueMax (MeasurementControl g);
            RawValueMin := RawValueMin (MeasurementControl g) |};
       DisplayControl := DisplayControl g;
       DataBufferControl := DataBufferControl g;
       DisplayBuffer := DisplayBuffer g;
       DisplayBufferMin := DisplayBufferMin g;
       DisplayBuffer2 := DisplayBuffer2 g;
       DisplayBufferFFT := DisplayBufferFFT g |}
  | _ => g
  end.

(** The sum of [n] consecutive samples from index [p] on, and their average
    as [getDisplayFrowMultipleRawValues] forms it in an [int]. *)
Fixpoint rawSum (data : Z -> Z) (p : Z) (n : nat) : Z :=
  match n with
  | O => 0
  | S n' => data p + rawSum data (p + 1) n'
  end.

Definition rawAverage (data : Z -> Z) (p n : Z) : Z :=
  cdiv (wrap32 (rawSum data p (Z.to_nat n))) n.

(** The minimum sample of the first column is the no-data marker. *)
Definition markerInMinimum (p : Z) : Z := if p =? 1024 then 4096 else 10.

(** A state with the trigger state line switched on. *)
Definition gTriggerInfoLine : Globals := {|
  MeasurementControl := mcSample false false 0;
  DisplayControl :=
    {| TriggerLevelDisplayValue := 100; XScale := 0; showTriggerInfoLine := true;
       drawPixelMode := true; EraseColor := 65535; ShowFFT := false |};
  DataBufferControl :=
    {| DataBuffer := memoryOf [4096]; DataBufferNextDrawPointer := 0;
       DataBufferNextInPointer := 1; NextDrawXValue := 0;
       DataBufferPreTriggerAreaWrapAround := false |};
  DisplayBuffer := replicate 320 255;
  DisplayBufferMin := replicate 320 255;
  DisplayBuffer2 := replicate 320 255;
  DisplayBufferFFT := replicate 128 240
|}.

(** The value of a column whose two samples start at [p]: the average of the
    two display values. *)
Definition averagedRows (K : DSOConstants) (table : Z -> Z) (mc : MeasurementControlStruct)
    (data : Z -> Z) (p : Z) : Z :=
  cdiv (wrap32 (getDisplayFrowRawInputValue K table mc (data p)
                + getDisplayFrowRawInputValue K table mc (data (p + 1)))) 2.

(** The value column [i] gets at ratio -1 from the samples after [p0]. *)
Definition threeToTwoValue (K : DSOConstants) (table : Z -> Z)
    (mc : MeasurementControlStruct) (data : Z -> Z) (p0 i : Z) : Z :=
  if Z.even i then getDisplayFrowRawInputValue K table mc (data (p0 + 3 * (i / 2)))
  else averagedRows K table mc data (p0 + 3 * (i / 2) + 1).

(** ** Further functions of the file *)

(** [getRawOffsetValueFromGridCount]: the raw value that [aCount] grid
    divisions stand for in the active range. *)
Definition getRawOffsetValueFromGridCount (K : DSOConstants) (table : Z -> Z)
    (mc : MeasurementControlStruct) (aCount : Z) : Z :=
  let aCount :=
    wrap32 (Z.shiftl (wrap32 (aCount * HORIZONTAL_GRID_HEIGHT K)) (DSO_SCALE_FACTOR_SHIFT K)) in
  cdiv aCount (table (DisplayRangeIndex mc)).

(** What both conversions take off, respectively add: the AC zero reading in
    AC mode and the offset of the display range. *)
Definition totalOffset (mc : MeasurementControlStruct) : Z :=
  (if ChannelIsACMode mc then RawDSOReadingACZero mc else 0)
  + RawOffsetValueForDisplayRange mc.

(** The states in which samples are converted.  A sample is a reading of the
    converter, below the no-data marker, which is itself a 16 bit value of the
    data buffer; the AC zero reading is such a reading too, and the offset of
    the display range is one with a sign.  The factor of the active range is
    not negative and takes the full scale above the range offset into the
    [int] range. *)
Record conversion_ok (K : DSOConstants) (table : Z -> Z) (mc : MeasurementControlStruct)
  : Prop := {
  marker_range : 0 < DATABUFFER_INVISIBLE_RAW_VALUE K <= 2 ^ 16;
  acZero_range : 0 <= RawDSOReadingACZero mc < DATABUFFER_INVISIBLE_RAW_VALUE K;
  offset_range : - DATABUFFER_INVISIBLE_RAW_VALUE K < RawOffsetValueForDisplayRange mc
                 < DATABUFFER_INVISIBLE_RAW_VALUE K;
  factor_range : 0 <= table (DisplayRangeIndex mc);
  full_scale_fits : (DATABUFFER_INVISIBLE_RAW_VALUE K - RawOffsetValueForDisplayRange mc)
                    * table (DisplayRangeIndex mc) <= 2 ^ 31
}.

(** The local variables of [drawDataBuffer] when the first turn of its [do]
    loop starts. *)
Definition firstTrackStart (g : Globals) (aDataBufferPointer : Z) (aDrawMode : DrawMode)
  : BulkLocals :=
  {| tDataBufferPointer := aDataBufferPointer;
     tXScaleCounter := XScale (DisplayControl g);
     ScreenBufferReadPointer := 0;
     ScreenBufferWritePointer1 := 0;
     ScreenBufferWritePointer2 := 0;
     tCounterForTimingGridRestore := 0;
     tLastValue := 0;
     tLastValueClear := 0;
     trackBuffer := match aDrawMode with
                    | DRAW_MODE_CLEAR_OLD_MIN => DisplayBufferMin g
                    | _ => DisplayBuffer g
                    end;
     triggerStateBuffer := DisplayBuffer2 g;
     bulkOut := [] |}.

(** The values a [uint8_t] buffer entry can have. *)
Definition isByte (v : Z) : Prop := 0 <= v < 2 ^ 8.

(** The calls that fill a rectangle. *)
Definition isFill (c : DrawCall) : bool :=
  match c with fillRect _ _ _ _ _ _ => true | _ => false end.

(** The sample whose processing refreshes the spectrum. *)
Definition fftSample (K : DSOConstants) : Z :=
  DATABUFFER_PRE_TRIGGER_SIZE K + FFT_SIZE K - 1.

(** A stopped state with the spectrum switched on and no bar on screen. *)
Definition gShowFFT : Globals := {|
  MeasurementControl := mcSample false false 0;
  DisplayControl :=
    {| TriggerLevelDisplayValue := 100; XScale := 0; showTriggerInfoLine := false;
       drawPixelMode := false; EraseColor := 65535; ShowFFT := true |};
  DataBufferControl :=
    {| DataBuffer := memoryOf []; DataBufferNextDrawPointer := 0;
       DataBufferNextInPointer := 0; NextDrawXValue := 0;
       DataBufferPreTriggerAreaWrapAround := false |};
  DisplayBuffer := replicate 320 255;
  DisplayBufferMin := replicate 320 255;
  DisplayBuffer2 := replicate 320 255;
  DisplayBufferFFT := replicate 128 240
|}.

(** ** Voltages

    The [float] computations stay abstract: [Float] stands for the type
    [float] and [floatTimesInt f n] for the product [f * n] of a [float] and
    an [int].  The state these functions read is the record of the integer
    fields together with the field [MeasurementControl.actualDSORawToVoltFactor],
    a [float], which is their first argument. *)

Section Voltages.

Variable Float : Type.
Variable floatTimesInt : Float -> Z -> Float.

Definition getFloatFromRawValue (actualDSORawToVoltFactor : Float)
    (mc : MeasurementControlStruct) (aValue : Z) : Float :=
  let aValue :=
    if ChannelIsACMode mc then wrap32 (aValue - RawDSOReadingACZero mc) else aValue in
  floatTimesInt actualDSORawToVoltFactor aValue.

(** The parameter is a [uint8_t]. *)
Definition getFloatFromDisplayValue (K : DSOConstants) (table : Z -> Z)
    (actualDSORawToVoltFactor : Float) (mc : MeasurementControlStruct)
    (aDisplayValue : Z) : Float :=
  let tRawValue := getInputRawFromDisplayValue K table mc (to_uint8 aDisplayValue) in
  getFloatFromRawValue actualDSORawToVoltFactor mc tRawValue.

End Voltages.

(** [tValueDiff] of [printInfo]: the raw value whose voltage is printed as the
    peak to peak value. *)
Definition printInfo_tValueDiff (mc : MeasurementControlStruct) : Z :=
  let tValueDiff := wrap32 (RawValueMax mc - RawValueMin mc) in
  if ChannelIsACMode mc
  then wrap32 (tValueDiff + RawDSOReadingACZero mc)
  else tValueDiff.

(** [tPrecision] of [printInfo], the number of digits after the decimal point
    of the voltages of its first line; the trigger level of its third line is
    printed with one digit less.  [aRangeIndex] is
    [MeasurementControl.DisplayRangeIndexForPrint]. *)
Definition printInfo_tPrecision (aChannelIsACMode : bool) (aRangeIndex : Z) : Z :=
  let tPrecision := 3 in
  let tPrecision :=
    if (aChannelIsACMode && (aRangeIndex >=? 8)) || (aRangeIndex >=? 10)
    then 2 else tPrecision in
  if aChannelIsACMode && (aRangeIndex >=? 11) then 1 else tPrecision.

(** [tPrecision] of [printTriggerInfo]; [aRangeIndex] is
    [MeasurementControl.DisplayRangeIndex]. *)
Definition printTriggerInfo_tPrecision (aChannelIsACMode : bool) (aRangeIndex : Z) : Z :=
  let tPrecision := 2 in
  let tPrecision :=
    if (aChannelIsACMode && (aRangeIndex >=? 8)) || (aRangeIndex >=? 10)
    then 1 else tPrecision in
  if aChannelIsACMode && (aRangeIndex >=? 11) then 0 else tPrecision.

(** ** The grid

    [drawGridLinesWithHorizLabelsAndTriggerLine] also draws text, so its trace
    is one of [ScreenCall]s. *)

Inductive ScreenCall :=
| graphic (c : DrawCall)
| drawText (x y : Z) (text : string) (size : Z) (color bg : Color_t).

(** The text constants of the grid labels. *)
Record GridConstants := {
  PIXEL_AFTER_LABEL : Z;
  TEXT_SIZE_11 : Z;
  TEXT_SIZE_11_WIDTH : Z;
  TEXT_SIZE_11_HEIGHT : Z;
  TEXT_SIZE_11_ASCEND : Z;
  COLOR_HOR_GRID_LINE_LABEL : Color_t;
  COLOR_HOR_GRID_LINE_LABEL_NEGATIVE : Color_t
}.

(** The two fields of [DisplayControl] that remember the labels on screen. *)
Record GridLabelState := {
  LastDisplayRangeIndex : Z;
  LastOffsetGridCount : Z
}.

(** The two fields of [MeasurementControl] the labels are computed from. *)
Record GridMeasurement := {
  DisplayRangeIndexForPrint : Z;
  OffsetGridCount : Z
}.

(** What the [float] code gives for one label: the text [snprintf] leaves in
    [StringBuffer], the count it returns and the test [tActualVoltage >= 0]. *)
Record GridLabel := {
  labelText : string;
  labelCount : Z;
  labelNonNegative : bool
}.

Section Grid.

Variable K : DSOConstants.
Variable T : GridConstants.
(** [gridLabel m n]: the label of the [n]-th horizontal line from the bottom,
    whose [tActualVoltage] is
    [ScaleVoltagePerDiv[DisplayRangeIndexForPrint] * OffsetGridCount + 0.0001]
    with [ScaleVoltagePerDiv[DisplayRangeIndexForPrint]] added [n] times. *)
Variable gridLabel : GridMeasurement -> nat -> GridLabel.

Local Abbreviation W := (DSO_DISPLAY_WIDTH K).

(** "vertical lines" *)
Fixpoint gridColumns (fuel : nat) (tXPos : Z) (aColor : Color_t) : option (list ScreenCall) :=
  match fuel with
  | O => None
  | S fuel' =>
    if tXPos <? W
    then cons (graphic (drawLineRel BlueDisplay1 tXPos 0 0 (DSO_DISPLAY_HEIGHT K) aColor))
           <$> gridColumns fuel' (wrap32 (tXPos + TIMING_GRID_WIDTH K)) aColor
    else Some []
  end.

Definition labelChanged (st : GridLabelState) (m : GridMeasurement) : bool :=
  negb (LastDisplayRangeIndex st =? DisplayRangeIndexForPrint m)
  || negb (LastOffsetGridCount st =? OffsetGridCount m).

(** "clear old label" and "restore vertical line". *)
Definition clearLabel (aColor : Color_t) (tYPos tCaptionOffset : Z) : list ScreenCall :=
  let tXpos :=
    wrap32 (wrap32 (W - PIXEL_AFTER_LABEL T) - wrap32 (5 * TEXT_SIZE_11_WIDTH T)) in
  let tY := wrap32 (tYPos - tCaptionOffset) in
  [graphic (fillRect BlueDisplay1 tXpos (wrap32 (tY - TEXT_SIZE_11_ASCEND T))
              (wrap32 (wrap32 (W - PIXEL_AFTER_LABEL T) + 1))
              (wrap32 (wrap32 (tY + TEXT_SIZE_11_HEIGHT T) - TEXT_SIZE_11_ASCEND T))
              (COLOR_BACKGROUND_DSO K));
   graphic (drawLineRel BlueDisplay1 (wrap32 (wrap32 (9 * TIMING_GRID_WIDTH K) - 1)) tY
              0 (TEXT_SIZE_11_HEIGHT T) aColor)].

(** "draw horizontal line" and "draw label over the line". *)
Definition lineWithLabel (aColor : Color_t) (m : GridMeasurement) (tYPos tCaptionOffset : Z)
    (n : nat) : list ScreenCall :=
  let label := gridLabel m n in
  let tPosX :=
    wrap32 (wrap32 (W - wrap32 (labelCount label * TEXT_SIZE_11_WIDTH T))
            - PIXEL_AFTER_LABEL T) in
  let tLabelColor :=
    if labelNonNegative label
    then COLOR_HOR_GRID_LINE_LABEL T else COLOR_HOR_GRID_LINE_LABEL_NEGATIVE T in
  [graphic (drawLineRel BlueDisplay1 0 tYPos W 0 aColor);
   drawText tPosX (wrap32 (tYPos - tCaptionOffset)) (labelText label) (TEXT_SIZE_11 T)
     tLabelColor (COLOR_BACKGROUND_DSO K)].

(** The loop over the horizontal lines, from its [n]-th turn on. *)
Fixpoint gridRows (fuel : nat) (tLabelChanged : bool) (aColor : Color_t)
    (m : GridMeasurement) (tYPos tCaptionOffset : Z) (n : nat) : option (list ScreenCall) :=
  match fuel with
  | O => None
  | S fuel' =>
    if tYPos >? 0
    then
      rest ← gridRows fuel' tLabelChanged aColor m
               (wrap32 (tYPos - HORIZONTAL_GRID_HEIGHT K))
               (wrap32 (- cdiv (TEXT_SIZE_11_ASCEND T) 2)) (S n);
      Some ((if tLabelChanged then clearLabel aColor tYPos tCaptionOffset else [])
            ++ lineWithLabel aColor m tYPos tCaptionOffset n ++ rest)
    else Some []
  end.

Definition drawGridLinesWithHorizLabelsAndTriggerLine (fuel : nat) (aColor : Color_t)
    (st : GridLabelState) (m : GridMeasurement) (g : Globals)
  : option (GridLabelState * list ScreenCall) :=
  columns ← gridColumns fuel (TIMING_GRID_WIDTH K - 1) aColor;
  let tLabelChanged := labelChanged st m in
  let st' :=
    if tLabelChanged
    then {| LastDisplayRangeIndex := DisplayRangeIndexForPrint m;
            LastOffsetGridCount := OffsetGridCount m |}
    else st in
  rows ← gridRows fuel tLabelChanged aColor m (DISPLAY_VALUE_FOR_ZERO K) 1 0%nat;
  Some (st', columns ++ rows ++ (graphic <$> drawTriggerLine K g)).

End Grid.

(** The calls that clear a label. *)
Definition isLabelClear (c : ScreenCall) : bool :=
  match c with graphic (fillRect _ _ _ _ _ _) => true | _ => false end.

(** Sample text constants: 7 x 11 pixel characters. *)
Definition T11 : GridConstants := {|
  PIXEL_AFTER_LABEL := 2;
  TEXT_SIZE_11 := 11;
  TEXT_SIZE_11_WIDTH := 7;
  TEXT_SIZE_11_HEIGHT := 12;
  TEXT_SIZE_11_ASCEND := 9;
  COLOR_HOR_GRID_LINE_LABEL := 8;
  COLOR_HOR_GRID_LINE_LABEL_NEGATIVE := 9
|}.

(** Sample labels: four characters, negative below the third line. *)
Definition sampleLabel (_ : GridMeasurement) (n : nat) : GridLabel :=
  {| labelText := "0.00"; labelCount := 4; labelNonNegative := (2 <=? n)%nat |}.

(** [tCaptionOffset] in the [k]-th turn of the loop over the horizontal
    lines, entered with [first]. *)
Definition captionOffset (T : GridConstants) (first : Z) (k : nat) : Z :=
  match k with
  | O => first
  | S _ => wrap32 (- cdiv (TEXT_SIZE_11_ASCEND T) 2)
  end.

(** The sample column [i] of a bulk pass shows at a ratio [r > 1]. *)
Definition repeatedSample (r i : Z) : Z := Z.max 0 (i - 1) / r.

(** ** What the local display shows

    The calls of one column of a regular bulk pass on the local display, at
    the ratio 0, in terms of the display values [value i] of the columns and
    of the values [old i] the track buffer held before. *)

Definition pixelIfVisible (K : DSOConstants) (x y : Z) (c : Color_t) : list DrawCall :=
  if negb (y =? DISPLAYBUFFER_INVISIBLE_VALUE K) then [drawPixel LocalDisplay x y c] else [].

(** Pixel mode: the old pixel is erased when there is a clear colour, then
    the new one is set. *)
Definition pixelColumn (K : DSOConstants) (aColor aClearBeforeColor : Color_t)
    (old value : Z -> Z) (i : Z) : list DrawCall :=
  (if aClearBeforeColor >? 0 then pixelIfVisible K i (old i) aClearBeforeColor else [])
  ++ pixelIfVisible K i (value i) aColor.

(** Line mode without clear colour: a visible value is joined to a visible
    left neighbour, in the clipping colour when both sit on the zero row or
    on row 0, and is a single pixel otherwise. *)
Definition joinedColumn (K : DSOConstants) (aColor : Color_t) (value : Z -> Z) (i : Z)
  : list DrawCall :=
  if i =? 0 then pixelIfVisible K i (value i) aColor
  else if value i =? DISPLAYBUFFER_INVISIBLE_VALUE K then []
  else if value (i - 1) =? DISPLAYBUFFER_INVISIBLE_VALUE K
  then [drawPixel LocalDisplay i (value i) aColor]
  else [drawLineFastOneX LocalDisplay (i - 1) (value (i - 1)) (value i)
          (if (value (i - 1) =? value i)
              && ((value i =? DISPLAY_VALUE_FOR_ZERO K) || (value i =? 0))
           then COLOR_DATA_RUN_CLIPPING K else aColor)].

(** The calls of one column of an erase pass on the local display, in pixel
    mode without clear colour: the stored value is overdrawn in [aColor], or
    in the grid colour in the columns the restore counter singles out. *)
Definition erasedColumn (K : DSOConstants) (aColor : Color_t) (old : Z -> Z) (i : Z)
  : list DrawCall :=
  if i mod (TIMING_GRID_WIDTH K + 1) =? TIMING_GRID_WIDTH K
  then [drawPixel LocalDisplay i (old i) (COLOR_GRID_LINES K)]
  else pixelIfVisible K i (old i) aColor.

(** The number of columns below [n] whose display value is numerically
    above the display value of the trigger level. *)
Fixpoint triggeredColumns (value : Z -> Z) (tTriggerValue : Z) (n : nat) : Z :=
  match n with
  | O => 0
  | S n' =>
    triggeredColumns value tTriggerValue n'
    + (if value (Z.of_nat n') >? tTriggerValue then 1 else 0)
  end.

(** * Properties *)

(** ** Machine integers *)

Lemma wrap32_small (z : Z) : int_range z -> wrap32 z = z.
Proof.
  unfold int_range, wrap32. intros Hz.
  rewrite Z.mod_small by lia. lia.
Qed.

Lemma wrap32_range (z : Z) : int_range (wrap32 z).
Proof.
  unfold int_range, wrap32.
  pose proof (Z.mod_pos_bound (z + 2 ^ 31) (2 ^ 32) ltac:(lia)). lia.
Qed.

Lemma wrap32_add_l (x y : Z) : wrap32 (wrap32 x + y) = wrap32 (x + y).
Proof.
  unfold wrap32. f_equal.
  replace (x + 2 ^ 31 - 2 ^ 31 + y + 2 ^ 31) with (x + y + 2 ^ 31) by lia.
  replace ((x + 2 ^ 31) mod 2 ^ 32 - 2 ^ 31 + y + 2 ^ 31)
    with ((x + 2 ^ 31) mod 2 ^ 32 + y) by lia.
  rewrite Zplus_mod_idemp_l. f_equal. lia.
Qed.

Lemma wrap32_sub_l (x y : Z) : wrap32 (wrap32 x - y) = wrap32 (x - y).
Proof. apply (wrap32_add_l x (- y)). Qed.

Lemma to_uint8_small (z : Z) : 0 <= z < 2 ^ 8 -> to_uint8 z = z.
Proof. intros Hz. unfold to_uint8. apply Z.mod_small. lia. Qed.

Lemma K320_ok (localDisplay : bool) : constants_ok (K320 localDisplay).
Proof. split; simpl; lia. Qed.

(** ** Raw to display value and back *)

Section ConversionFacts.

Variable K : DSOConstants.
Variable ScaleFactorRawToDisplayShift18 : Z -> Z.
Variable mc : MeasurementControlStruct.
Hypothesis HK : constants_ok K.

Local Abbreviation ZERO := (DISPLAY_VALUE_FOR_ZERO K).
Local Abbreviation factor := (ScaleFactorRawToDisplayShift18 (DisplayRangeIndex mc)).
Local Abbreviation toDisplay := (getDisplayFrowRawInputValue K ScaleFactorRawToDisplayShift18 mc).
Local Abbreviation toRaw := (getInputRawFromDisplayValue K ScaleFactorRawToDisplayShift18 mc).
Local Abbreviation scaled := (scaledValue K ScaleFactorRawToDisplayShift18 mc).

Lemma toDisplay_marker :
  toDisplay (DATABUFFER_INVISIBLE_RAW_VALUE K) = DISPLAYBUFFER_INVISIBLE_VALUE K.
Proof. unfold getDisplayFrowRawInputValue. now rewrite Z.eqb_refl. Qed.

(** Without overflow the scaled value is the exact quotient. *)
Lemma scaled_exact (a : Z) :
  0 <= a * factor < 2 ^ 31 ->
  scaled a = a * factor / 2 ^ DSO_SCALE_FACTOR_SHIFT K.
Proof.
  intros Hfit. unfold scaledValue.
  rewrite wrap32_small by (unfold int_range; lia).
  apply Z.shiftr_div_pow2. destruct HK; lia.
Qed.

Lemma scaled_nonneg (a : Z) : 0 <= a * factor < 2 ^ 31 -> 0 <= scaled a.
Proof.
  intros Hfit. rewrite scaled_exact by assumption.
  apply Z.div_pos; [lia|]. apply Z.pow_pos_nonneg; destruct HK; lia.
Qed.

Lemma toDisplay_unfold (raw : Z) :
  raw <> DATABUFFER_INVISIBLE_RAW_VALUE K ->
  toDisplay raw =
    let a := offsetAdjusted mc raw in
    if a <? 0 then ZERO
    else if scaled a >? ZERO then 0 else wrap32 (ZERO - scaled a).
Proof.
  intros Hraw. unfold getDisplayFrowRawInputValue.
  destruct (Z.eqb_spec raw (DATABUFFER_INVISIBLE_RAW_VALUE K)); [contradiction|reflexivity].
Qed.

End ConversionFacts.

(** Without wrap-around the adjustment takes [totalOffset] off. *)
Lemma offsetAdjusted_exact (mc : MeasurementControlStruct) (raw : Z) :
  int_range (raw - totalOffset mc) ->
  offsetAdjusted mc raw = raw - totalOffset mc.
Proof.
  intros Hr. unfold offsetAdjusted, totalOffset in *.
  destruct (ChannelIsACMode mc).
  - rewrite wrap32_sub_l.
    replace (raw - RawDSOReadingACZero mc - RawOffsetValueForDisplayRange mc)
      with (raw - (RawDSOReadingACZero mc + RawOffsetValueForDisplayRange mc)) by lia.
    now apply wrap32_small.
  - replace (raw - RawOffsetValueForDisplayRange mc)
      with (raw - (0 + RawOffsetValueForDisplayRange mc)) by lia.
    now apply wrap32_small.
Qed.

(** The three branches of the mapper, for a raw value whose scaling stays in
    the [int] range. *)
Lemma getDisplayFrowRawInputValue_no_wrap
    (K : DSOConstants) (table : Z -> Z) (mc : MeasurementControlStruct) (raw : Z) :
  constants_ok K ->
  raw <> DATABUFFER_INVISIBLE_RAW_VALUE K ->
  (0 <= offsetAdjusted mc raw ->
   0 <= offsetAdjusted mc raw * table (DisplayRangeIndex mc) < 2 ^ 31) ->
  let a := offsetAdjusted mc raw in
  let s := scaledValue K table mc a in
  let row := getDisplayFrowRawInputValue K table mc raw in
  0 <= row <= DISPLAY_VALUE_FOR_ZERO K
  /\ (a < 0 -> row = DISPLAY_VALUE_FOR_ZERO K)
  /\ (0 <= a -> s > DISPLAY_VALUE_FOR_ZERO K -> row = 0)
  /\ (0 <= a -> s <= DISPLAY_VALUE_FOR_ZERO K -> row = DISPLAY_VALUE_FOR_ZERO K - s).
Proof.
  intros HK Hraw Hfit a s row.
  assert (Hz : 0 <= DISPLAY_VALUE_FOR_ZERO K < 2 ^ 8) by (destruct HK; lia).
  subst row. rewrite toDisplay_unfold by assumption. cbv zeta. fold a. fold s.
  destruct (Z.ltb_spec a 0) as [Hneg | Hpos].
  - repeat split; intros; lia.
  - pose proof (scaled_nonneg K table mc HK a (Hfit Hpos)) as Hs. fold s in Hs.
    destruct (Z.gtb_spec s (DISPLAY_VALUE_FOR_ZERO K)) as [Hclip | Hin].
    + repeat split; intros; lia.
    + rewrite wrap32_small by (unfold int_range; lia).
      repeat split; intros; lia.
Qed.

(** A sample is adjusted and scaled without wrap-around. *)
Lemma sample_no_wrap
    (K : DSOConstants) (table : Z -> Z) (mc : MeasurementControlStruct) (raw : Z) :
  conversion_ok K table mc ->
  0 <= raw < DATABUFFER_INVISIBLE_RAW_VALUE K ->
  offsetAdjusted mc raw = raw - totalOffset mc
  /\ (0 <= offsetAdjusted mc raw ->
      0 <= offsetAdjusted mc raw * table (DisplayRangeIndex mc) < 2 ^ 31).
Proof.
  intros [Hmarker Hzero Hoffset Hfactor Hfull] Hraw.
  assert (Hadj : offsetAdjusted mc raw = raw - totalOffset mc).
  { apply offsetAdjusted_exact. unfold int_range, totalOffset.
    destruct (ChannelIsACMode mc); lia. }
  split; [exact Hadj|]. rewrite Hadj. intros Ha.
  assert (Hle : raw - totalOffset mc
                <= DATABUFFER_INVISIBLE_RAW_VALUE K - RawOffsetValueForDisplayRange mc - 1).
  { unfold totalOffset. destruct (ChannelIsACMode mc); lia. }
  split; [apply Z.mul_nonneg_nonneg; lia|].
  destruct (Z.eq_dec (table (DisplayRangeIndex mc)) 0) as [-> | Hne]; [lia|].
  apply Z.le_lt_trans
    with ((DATABUFFER_INVISIBLE_RAW_VALUE K - RawOffsetValueForDisplayRange mc - 1)
          * table (DisplayRangeIndex mc)); [apply Z.mul_le_mono_nonneg_r; lia | lia].
Qed.

(** C1.  For every raw sample, that is every reading below the no-data
    marker, in a state of [conversion_ok] (AC zero and range offset of the
    size of a reading, a scale factor that takes the full scale into an
    [int]) [getDisplayFrowRawInputValue] returns a row in
    [0, DISPLAY_VALUE_FOR_ZERO]: the maximum row [DISPLAY_VALUE_FOR_ZERO] if
    the offset-adjusted value (the sample less the AC zero reading in AC mode,
    less the range offset) is negative, row 0 if the scaled and shifted value
    (the adjusted value times the factor, divided by
    [2 ^ DSO_SCALE_FACTOR_SHIFT]) exceeds [DISPLAY_VALUE_FOR_ZERO], and
    [DISPLAY_VALUE_FOR_ZERO] minus the scaled value otherwise. *)
Theorem getDisplayFrowRawInputValue_clamps
    (K : DSOConstants) (table : Z -> Z) (mc : MeasurementControlStruct) (raw : Z) :
  constants_ok K ->
  conversion_ok K table mc ->
  0 <= raw < DATABUFFER_INVISIBLE_RAW_VALUE K ->
  let a := raw - totalOffset mc in
  let s := a * table (DisplayRangeIndex mc) / 2 ^ DSO_SCALE_FACTOR_SHIFT K in
  let row := getDisplayFrowRawInputValue K table mc raw in
  0 <= row <= DISPLAY_VALUE_FOR_ZERO K
  /\ offsetAdjusted mc raw = a
  /\ (0 <= a -> scaledValue K table mc (offsetAdjusted mc raw) = s)
  /\ (a < 0 -> row = DISPLAY_VALUE_FOR_ZERO K)
  /\ (0 <= a -> s > DISPLAY_VALUE_FOR_ZERO K -> row = 0)
  /\ (0 <= a -> s <= DISPLAY_VALUE_FOR_ZERO K -> row = DISPLAY_VALUE_FOR_ZERO K - s).
Proof.
  intros HK Hstate Hraw a s row.
  destruct (sample_no_wrap K table mc raw Hstate Hraw) as [Hadj Hfit].
  destruct (getDisplayFrowRawInputValue_no_wrap K table mc raw HK ltac:(lia) Hfit)
    as (Hrange & Hlow & Hhigh & Hmid).
  assert (Hs : 0 <= a -> scaledValue K table mc (offsetAdjusted mc raw) = s).
  { intros Ha. subst s a. rewrite Hadj in Hfit |- *.
    apply (scaled_exact K table mc HK). now apply Hfit. }
  split; [exact Hrange|]. split; [exact Hadj|]. split; [exact Hs|].
  split; [|split].
  - intros Ha. apply Hlow. rewrite Hadj. exact Ha.
  - intros Ha Hclip. apply Hhigh; [rewrite Hadj; exact Ha|]. rewrite (Hs Ha). exact Hclip.
  - intros Ha Hin. rewrite <- (Hs Ha). apply Hmid; [rewrite Hadj; exact Ha|].
    rewrite (Hs Ha). exact Hin.
Qed.

Lemma getDisplayFrowRawInputValue_clamps_witness :
  getDisplayFrowRawInputValue (K320 false) identityScale (mcSample false false 100) 150 = 189
  /\ getDisplayFrowRawInputValue (K320 false) identityScale (mcSample false false 100) 50 = 239
  /\ getDisplayFrowRawInputValue (K320 false) identityScale (mcSample false false 100) 400 = 0
  /\ getDisplayFrowRawInputValue (K320 false) identityScale (mcSample false false 100) 4095 = 0.
Proof.
  assert (Hstate : conversion_ok (K320 false) identityScale (mcSample false false 100))
    by (split; unfold identityScale; simpl; lia).
  pose proof (getDisplayFrowRawInputValue_clamps (K320 false) identityScale
                (mcSample false false 100) 150 (K320_ok false) Hstate
                ltac:(simpl; lia)) as H150.
  pose proof (getDisplayFrowRawInputValue_clamps (K320 false) identityScale
                (mcSample false false 100) 50 (K320_ok false) Hstate
                ltac:(simpl; lia)) as H50.
  pose proof (getDisplayFrowRawInputValue_clamps (K320 false) identityScale
                (mcSample false false 100) 400 (K320_ok false) Hstate
                ltac:(simpl; lia)) as H400.
  pose proof (getDisplayFrowRawInputValue_clamps (K320 false) identityScale
                (mcSample false false 100) 4095 (K320_ok false) Hstate
                ltac:(simpl; lia)) as H4095.
  cbv zeta in H150, H50, H400, H4095.
  destruct H150 as (_ & _ & _ & _ & _ & H150), H50 as (_ & _ & _ & H50 & _),
    H400 as (_ & _ & _ & _ & H400 & _), H4095 as (_ & _ & _ & _ & H4095 & _).
  split; [|split; [|split]].
  - rewrite H150; vm_compute; congruence.
  - apply H50. vm_compute. reflexivity.
  - apply H400; vm_compute; congruence.
  - apply H4095; vm_compute; congruence.
Defined.




(** ** Minimum and maximum lines *)

(** C10.  [drawMinMaxLines] draws the maximum line only when the display value
    of [RawValueMax] is not row 0, and the minimum line only when the display
    value of [RawValueMin] is not [DISPLAY_VALUE_FOR_ZERO]; a maximum clipped
    at the top, or a minimum below the offsets, produces no call. *)
Theorem drawMinMaxLines_skips_clipped
    (K : DSOConstants) (table : Z -> Z) (g : Globals) :
  let mc := MeasurementControl g in
  let vmax := getDisplayFrowRawInputValue K table mc (RawValueMax mc) in
  let vmin := getDisplayFrowRawInputValue K table mc (RawValueMin mc) in
  let line y := drawLineRel BlueDisplay1 0 y (DSO_DISPLAY_WIDTH K) 0 (COLOR_MAX_MIN_LINE K) in
  let calls := drawMinMaxLines K table g in
  (vmax = 0 -> vmin = DISPLAY_VALUE_FOR_ZERO K -> calls = [])
  /\ (vmax = 0 -> vmin <> DISPLAY_VALUE_FOR_ZERO K -> calls = [line vmin])
  /\ (vmax <> 0 -> vmin = DISPLAY_VALUE_FOR_ZERO K -> calls = [line vmax])
  /\ (vmax <> 0 -> vmin <> DISPLAY_VALUE_FOR_ZERO K -> calls = [line vmax; line vmin])
  /\ (RawValueMax mc <> DATABUFFER_INVISIBLE_RAW_VALUE K ->
      0 <= offsetAdjusted mc (RawValueMax mc) ->
      scaledValue K table mc (offsetAdjusted mc (RawValueMax mc)) > DISPLAY_VALUE_FOR_ZERO K ->
      forall c, c ∈ calls -> c = line vmin)
  /\ (RawValueMin mc <> DATABUFFER_INVISIBLE_RAW_VALUE K ->
      offsetAdjusted mc (RawValueMin mc) < 0 ->
      forall c, c ∈ calls -> c = line vmax).
Proof.
  intros mc vmax vmin line calls. subst calls. unfold drawMinMaxLines.
  fold mc. fold vmax. fold vmin. fold (line vmax). fold (line vmin).
  assert (Hmax : RawValueMax mc <> DATABUFFER_INVISIBLE_RAW_VALUE K ->
                 0 <= offsetAdjusted mc (RawValueMax mc) ->
                 scaledValue K table mc (offsetAdjusted mc (RawValueMax mc))
                   > DISPLAY_VALUE_FOR_ZERO K -> vmax = 0).
  { intros Hm Ha Hs. subst vmax. rewrite toDisplay_unfold by assumption. cbv zeta.
    destruct (Z.ltb_spec (offsetAdjusted mc (RawValueMax mc)) 0); [lia|].
    destruct (Z.gtb_spec (scaledValue K table mc (offsetAdjusted mc (RawValueMax mc)))
                (DISPLAY_VALUE_FOR_ZERO K)); [reflexivity|lia]. }
  assert (Hmin : RawValueMin mc <> DATABUFFER_INVISIBLE_RAW_VALUE K ->
                 offsetAdjusted mc (RawValueMin mc) < 0 ->
                 vmin = DISPLAY_VALUE_FOR_ZERO K).
  { intros Hm Ha. subst vmin. rewrite toDisplay_unfold by assumption. cbv zeta.
    destruct (Z.ltb_spec (offsetAdjusted mc (RawValueMin mc)) 0); [reflexivity|lia]. }
  destruct (Z.eqb_spec vmax 0) as [E0|E0];
    destruct (Z.eqb_spec vmin (DISPLAY_VALUE_FOR_ZERO K)) as [E1|E1]; simpl;
    repeat split; intros; try reflexivity; try contradiction;
    try (exfalso; auto; fail);
    repeat match goal with
           | H : _ ∈ [] |- _ => apply elem_of_nil in H; contradiction
           | H : _ ∈ _ :: _ |- _ => apply elem_of_cons in H; destruct H as [H|H]
           end; try assumption.
Qed.

(** ** Trigger line *)

Lemma restoreGrid_spec (K : DSOConstants) (y : Z) (fuel : nat) :
  constants_ok K ->
  forall x : Z,
    - 2 ^ 30 <= x ->
    (Z.to_nat (DSO_DISPLAY_WIDTH K - 1 - x) < fuel)%nat ->
    exists calls,
      restoreGrid K fuel x y = Some calls
      /\ forall j, 0 <= j -> x + j * TIMING_GRID_WIDTH K < DSO_DISPLAY_WIDTH K - 1 ->
           drawPixel BlueDisplay1 (x + j * TIMING_GRID_WIDTH K) y (COLOR_GRID_LINES K) ∈ calls.
Proof.
  intros HK. destruct HK as [_ _ _ HW HG].
  induction fuel as [|fuel IH]; intros x Hx Hfuel; [lia|].
  simpl. destruct (Z.ltb_spec x (DSO_DISPLAY_WIDTH K - 1)) as [Hlt|Hge].
  - rewrite wrap32_small by (unfold int_range; lia).
    destruct (IH (x + TIMING_GRID_WIDTH K) ltac:(lia) ltac:(lia)) as (calls & -> & Hin).
    eexists. split; [reflexivity|].
    intros j Hj Hbound. apply elem_of_cons.
    destruct (Z.eq_dec j 0) as [->|Hj0].
    + left. f_equal. lia.
    + right.
      replace (x + j * TIMING_GRID_WIDTH K)
        with (x + TIMING_GRID_WIDTH K + (j - 1) * TIMING_GRID_WIDTH K) by lia.
      apply Hin; lia.
  - exists []. split; [reflexivity|]. intros j Hj Hbound. nia.
Qed.

Lemma restoreGraph_spec (K : DSOConstants) (buffer : list Z) (y : Z) (n : nat) :
  forall i0 i : Z,
    i0 <= i < i0 + Z.of_nat n ->
    readAt buffer i = y ->
    drawPixel BlueDisplay1 i y (COLOR_DATA_HOLD K) ∈ restoreGraph K n i0 buffer y.
Proof.
  induction n as [|n IH]; intros i0 i Hi Hy; [lia|].
  simpl. apply elem_of_app.
  destruct (Z.eq_dec i i0) as [->|Hne].
  - left. rewrite Hy, Z.eqb_refl. apply elem_of_cons. now left.
  - right. apply IH; [lia|assumption].
Qed.

(** C9, as amended.  [drawTriggerLine] draws the trigger level line exactly
    when [TriggerLevelDisplayValue] is not 0 and the trigger mode is not off.
    [clearTriggerLine] overwrites the old line with the background colour,
    then restores the timing grid pixel of that row in every grid column
    below [DSO_DISPLAY_WIDTH - 1], and, only if the acquisition is not
    running, redraws every pixel of the main track stored at that row. *)
Theorem triggerLine_drawn_and_cleared
    (K : DSOConstants) (g : Globals) (y : Z) (fuel : nat) :
  constants_ok K ->
  0 <= y < 2 ^ 8 ->
  (Z.to_nat (DSO_DISPLAY_WIDTH K) < fuel)%nat ->
  let level := TriggerLevelDisplayValue (DisplayControl g) in
  let mode := TriggerMode (MeasurementControl g) in
  (level <> 0 -> mode <> TRIGGER_MODE_OFF K ->
   drawTriggerLine K g
   = [drawLineRel BlueDisplay1 0 level (DSO_DISPLAY_WIDTH K) 0 (COLOR_TRIGGER_LINE K)])
  /\ (level = 0 \/ mode = TRIGGER_MODE_OFF K -> drawTriggerLine K g = [])
  /\ exists restored,
       clearTriggerLine K fuel g y
       = Some (drawLineRel BlueDisplay1 0 y (DSO_DISPLAY_WIDTH K) 0 (COLOR_BACKGROUND_DSO K)
               :: restored)
       /\ (forall j, 0 <= j ->
             (j + 1) * TIMING_GRID_WIDTH K - 1 < DSO_DISPLAY_WIDTH K - 1 ->
             drawPixel BlueDisplay1 ((j + 1) * TIMING_GRID_WIDTH K - 1) y (COLOR_GRID_LINES K)
               ∈ restored)
       /\ (isRunning (MeasurementControl g) = false ->
           forall i, 0 <= i < DSO_DISPLAY_WIDTH K ->
             readAt (DisplayBuffer g) i = y ->
             drawPixel BlueDisplay1 i y (COLOR_DATA_HOLD K) ∈ restored).
Proof.
  intros HK Hy Hfuel level mode.
  split; [|split].
  - intros Hl Hm. unfold drawTriggerLine. fold level mode.
    destruct (Z.eqb_spec level 0); [contradiction|].
    destruct (Z.eqb_spec mode (TRIGGER_MODE_OFF K)); [contradiction|]. reflexivity.
  - intros Hoff. unfold drawTriggerLine. fold level mode.
    destruct (Z.eqb_spec level 0); [reflexivity|].
    destruct (Z.eqb_spec mode (TRIGGER_MODE_OFF K)); [reflexivity|].
    destruct Hoff; contradiction.
  - pose proof HK as [_ _ _ HW HG].
    destruct (restoreGrid_spec K y fuel HK (TIMING_GRID_WIDTH K - 1) ltac:(lia) ltac:(lia))
      as (grid & Hgrid & Hin).
    unfold clearTriggerLine. rewrite (to_uint8_small y Hy), Hgrid. simpl.
    eexists. split; [reflexivity|]. split.
    + intros j Hj Hbound. apply elem_of_app. left.
      replace ((j + 1) * TIMING_GRID_WIDTH K - 1)
        with (TIMING_GRID_WIDTH K - 1 + j * TIMING_GRID_WIDTH K) by lia.
      apply Hin; lia.
    + intros Hrun i Hi Hrow. apply elem_of_app. right. rewrite Hrun.
      apply restoreGraph_spec; [lia|assumption].
Qed.

Lemma triggerLine_drawn_and_cleared_witness :
  let g := gSample (mcSample false false 0) 0 (memoryOf []) 0 0 0
             (<[5%nat := 100]> (replicate 320 255)) (replicate 320 255) in
  exists restored,
    clearTriggerLine (K320 false) 400 g 100
    = Some (drawLineRel BlueDisplay1 0 100 320 0 65535 :: restored)
    /\ drawPixel BlueDisplay1 31 100 1 ∈ restored
    /\ drawPixel BlueDisplay1 5 100 4 ∈ restored.
Proof.
  intros g.
  destruct (triggerLine_drawn_and_cleared (K320 false) g 100 400 (K320_ok false)
              ltac:(lia) ltac:(simpl; lia)) as (_ & _ & restored & Hclear & Hgrid & Hgraph).
  exists restored. split; [exact Hclear|]. split.
  - apply (Hgrid 0); simpl; lia.
  - apply (Hgraph eq_refl 5); [simpl; lia | reflexivity].
Defined.

(** C9 as stated fails while the acquisition runs: the waveform pixel in
    column 5 lies on the old line, and no call of [clearTriggerLine] draws
    it again. *)
Lemma clearTriggerLine_running_no_restore :
  let g := gSample (mcSample true false 0) 0 (memoryOf []) 0 0 0
             (replicate 320 100) (replicate 320 255) in
  exists calls,
    clearTriggerLine (K320 false) 400 g 100 = Some calls
    /\ readAt (DisplayBuffer g) 5 = 100
    /\ forall c : Color_t, drawPixel BlueDisplay1 5 100 c ∉ calls.
Proof.
  intros g. eexists. split; [vm_compute; reflexivity|]. split; [reflexivity|].
  intros c Hin.
  repeat (apply elem_of_cons in Hin; destruct Hin as [Hin|Hin]; [discriminate Hin|]).
  now apply elem_of_nil in Hin.
Qed.

(** ** Spectrum bars *)

Lemma readAt_storeAt_ne (a : list Z) (i j v : Z) :
  0 <= i -> 0 <= j -> i <> j -> readAt (storeAt a i v) j = readAt a j.
Proof.
  intros Hi Hj Hne. unfold readAt, storeAt.
  apply list_lookup_total_insert_ne. lia.
Qed.

Lemma readAt_storeAt_eq (a : list Z) (i v : Z) :
  0 <= i -> (Z.to_nat i < length a)%nat -> readAt (storeAt a i v) i = to_uint8 v.
Proof.
  intros Hi Hlen. unfold readAt, storeAt.
  now apply list_lookup_total_insert_eq.
Qed.

Lemma length_storeAt (a : list Z) (i v : Z) : length (storeAt a i v) = length a.
Proof. apply length_insert. Qed.

Lemma fftBar_changed (K : DSOConstants) (aColor : Color_t) (k new old : Z) :
  new <> old -> fftBar K aColor (3 * k) new old = [barFill K aColor k new old].
Proof.
  intros Hne. unfold fftBar, barFill.
  destruct (Z.ltb_spec new old).
  - now rewrite Z.min_l, Z.max_r by lia.
  - destruct (Z.gtb_spec new old); [|lia]. now rewrite Z.min_r, Z.max_l by lia.
Qed.

Lemma fftBar_same (K : DSOConstants) (aColor : Color_t) (x y : Z) :
  fftBar K aColor x y y = [].
Proof.
  unfold fftBar. rewrite Z.ltb_irrefl.
  destruct (Z.gtb_spec y y); [lia|reflexivity].
Qed.

Lemma fftLoop_spec (K : DSOConstants) (fv : DataBufferControlStruct -> Z -> Z)
    (aColor : Color_t) (dbc : DataBufferControlStruct) (buffer0 : list Z) (fuel : nat) :
  constants_ok K ->
  forall (k : Z) (buffer : list Z) (out : list DrawCall),
    0 <= k ->
    (forall j, k <= j -> readAt buffer j = readAt buffer0 j) ->
    (Z.to_nat (DSO_DISPLAY_WIDTH K - 3 * k) < fuel)%nat ->
    exists buffer' out',
      fftLoop K fv fuel aColor dbc (3 * k) k buffer out = Some (buffer', out')
      /\ (forall c, c ∈ out' ->
            c ∈ out
            \/ exists j, k <= j /\ 3 * j < DSO_DISPLAY_WIDTH K
                 /\ fftBarTop K fv dbc j <> readAt buffer0 j
                 /\ c = barFill K aColor j (fftBarTop K fv dbc j) (readAt buffer0 j))
      /\ (forall c, c ∈ out -> c ∈ out')
      /\ (forall j, k <= j -> 3 * j < DSO_DISPLAY_WIDTH K ->
            fftBarTop K fv dbc j <> readAt buffer0 j ->
            barFill K aColor j (fftBarTop K fv dbc j) (readAt buffer0 j) ∈ out').
Proof.
  intros HK. pose proof HK as [_ _ _ HW _].
  induction fuel as [|fuel IH]; intros k buffer out Hk Hsame Hfuel; [lia|].
  simpl. destruct (Z.ltb_spec (3 * k) (DSO_DISPLAY_WIDTH K)) as [Hlt|Hge].
  - rewrite wrap32_small by (unfold int_range; lia).
    replace (3 * k + 3) with (3 * (k + 1)) by lia.
    edestruct (IH (k + 1) (storeAt buffer k (fftBarTop K fv dbc k))
                 (out ++ fftBar K aColor (3 * k) (fftBarTop K fv dbc k) (readAt buffer k)))
      as (buffer' & out' & -> & Honly & Hkeep & Hall); [lia| |lia|].
    { intros j Hj. rewrite readAt_storeAt_ne by lia. apply Hsame. lia. }
    exists buffer', out'. split; [reflexivity|].
    rewrite (Hsame k) in * by lia.
    split; [|split].
    + intros c Hc. destruct (Honly c Hc) as [Hold | (j & Hj & Hrest)].
      * apply elem_of_app in Hold as [Hold|Hnew]; [now left|]. right. exists k.
        destruct (Z.eq_dec (fftBarTop K fv dbc k) (readAt buffer0 k)) as [E|E].
        -- rewrite E, fftBar_same in Hnew. now apply elem_of_nil in Hnew.
        -- rewrite fftBar_changed in Hnew by assumption.
           apply list_elem_of_singleton in Hnew. repeat split; try lia; assumption.
      * right. exists j. split; [lia|assumption].
    + intros c Hc. apply Hkeep, elem_of_app. now left.
    + intros j Hj Hjw Hne. destruct (Z.eq_dec j k) as [->|Hjk].
      * apply Hkeep, elem_of_app. right. rewrite fftBar_changed by assumption.
        now apply list_elem_of_singleton.
      * apply Hall; [lia|assumption|assumption].
  - exists buffer, out. split; [reflexivity|]. split; [|split].
    + intros c Hc. now left.
    + trivial.
    + intros j Hj Hjw. lia.
Qed.

(** C7.  Every fill rectangle of [draw128FFTValuesFast] belongs to one bar
    [k]: it spans the columns [3 k] to [3 k + 2] and the rows between the new
    top of the bar and the one stored in [DisplayBufferFFT], which differ; it
    has the data colour when the bar grows and the background colour when it
    shrinks.  Every bar whose top changed gets its fill. *)
Theorem draw128FFTValuesFast_fills
    (K : DSOConstants) (fv : DataBufferControlStruct -> Z -> Z)
    (fuel : nat) (aColor : Color_t) (g : Globals) :
  constants_ok K ->
  (Z.to_nat (DSO_DISPLAY_WIDTH K) < fuel)%nat ->
  exists g' calls,
    draw128FFTValuesFast K fv fuel aColor g = Some (g', calls)
    /\ (forall c, c ∈ calls ->
          exists k, 0 <= k /\ 3 * k < DSO_DISPLAY_WIDTH K
            /\ fftBarTop K fv (DataBufferControl g) k <> readAt (DisplayBufferFFT g) k
            /\ c = fillRect BlueDisplay1 (3 * k)
                     (Z.min (fftBarTop K fv (DataBufferControl g) k)
                        (readAt (DisplayBufferFFT g) k))
                     (3 * k + 2)
                     (Z.max (fftBarTop K fv (DataBufferControl g) k)
                        (readAt (DisplayBufferFFT g) k))
                     (if fftBarTop K fv (DataBufferControl g) k
                         <? readAt (DisplayBufferFFT g) k
                      then aColor else COLOR_BACKGROUND_DSO K))
    /\ (ShowFFT (DisplayControl g) = true ->
        forall k, 0 <= k -> 3 * k < DSO_DISPLAY_WIDTH K ->
          fftBarTop K fv (DataBufferControl g) k <> readAt (DisplayBufferFFT g) k ->
          barFill K aColor k (fftBarTop K fv (DataBufferControl g) k)
            (readAt (DisplayBufferFFT g) k) ∈ calls).
Proof.
  intros HK Hfuel. unfold draw128FFTValuesFast.
  destruct (ShowFFT (DisplayControl g)).
  - destruct (fftLoop_spec K fv aColor (DataBufferControl g) (DisplayBufferFFT g) fuel HK
                0 (DisplayBufferFFT g) [] ltac:(lia) ltac:(reflexivity) ltac:(lia))
      as (buffer' & out' & Hrun & Honly & _ & Hall).
    change (3 * 0) with 0 in Hrun. rewrite Hrun. simpl.
    eexists _, _. split; [reflexivity|]. split.
    + intros c Hc. destruct (Honly c Hc) as [Hnil | (k & Hk & Hkw & Hne & ->)].
      * now apply elem_of_nil in Hnil.
      * exists k. repeat split; try assumption.
    + intros _ k Hk Hkw Hne. now apply Hall.
  - eexists _, _. split; [reflexivity|]. split.
    + intros c Hc. now apply elem_of_nil in Hc.
    + discriminate.
Qed.

Lemma draw128FFTValuesFast_fills_witness :
  let g := gSample (mcSample true false 0) 0 (memoryOf []) 0 0 0
             (replicate 320 255) (replicate 320 255) in
  let gFFT := {| MeasurementControl := MeasurementControl g;
                 DisplayControl :=
                   {| TriggerLevelDisplayValue := 100; XScale := 0;
                      showTriggerInfoLine := false; drawPixelMode := false;
                      EraseColor := 65535; ShowFFT := true |};
                 DataBufferControl := DataBufferControl g;
                 DisplayBuffer := DisplayBuffer g; DisplayBufferMin := DisplayBufferMin g;
                 DisplayBuffer2 := DisplayBuffer2 g; DisplayBufferFFT := DisplayBufferFFT g |} in
  exists g' calls,
    draw128FFTValuesFast (K320 false) peakAtBin0 400 7 gFFT = Some (g', calls)
    /\ calls = [fillRect BlueDisplay1 0 208 2 240 7].
Proof.
  intros g gFFT.
  destruct (draw128FFTValuesFast_fills (K320 false) peakAtBin0 400 7 gFFT (K320_ok false)
              ltac:(simpl; lia)) as (g' & calls & Hrun & _ & _).
  exists g', calls. split; [exact Hrun|].
  vm_compute in Hrun. congruence.
Defined.

(** ** Loops *)

Section WhileLoop.

Context {S : Type}.
Variables (before : nat -> S -> S) (cond : S -> bool) (body : S -> option S).

Lemma whileLoop_step (fuel k : nat) (s : S) (ran : list S) (s' : S) :
  whileLoop before cond body (Datatypes.S fuel) k s = Some (ran, s') ->
  (cond (before k s) = false /\ ran = [] /\ s' = before k s)
  \/ exists s1 ran',
       cond (before k s) = true /\ body (before k s) = Some s1
       /\ whileLoop before cond body fuel (Datatypes.S k) s1 = Some (ran', s')
       /\ ran = before k s :: ran'.
Proof.
  simpl. destruct (cond (before k s)) eqn:Hc.
  - destruct (body (before k s)) as [s1|] eqn:Hb; simpl; [|discriminate].
    destruct (whileLoop before cond body fuel (Datatypes.S k) s1) as [[ran' s'']|] eqn:Hw;
      simpl; [|discriminate].
    intros [= <- <-]. right. exists s1, ran'. auto.
  - intros [= <- <-]. left. auto.
Qed.

(** A property preserved by the environment and by the body holds in every
    state the body ran in, together with the loop condition, and in the final
    state, where the condition fails. *)
Lemma whileLoop_invariant (Inv : S -> Prop) :
  (forall k s, Inv s -> Inv (before k s)) ->
  (forall s s1, Inv s -> cond s = true -> body s = Some s1 -> Inv s1) ->
  forall fuel k s ran s',
    whileLoop before cond body fuel k s = Some (ran, s') ->
    Inv s ->
    (forall x, x ∈ ran -> Inv x /\ cond x = true) /\ Inv s' /\ cond s' = false.
Proof.
  intros Hbefore Hbody. induction fuel as [|fuel IH]; intros k s ran s' Hrun Hs.
  - discriminate.
  - apply whileLoop_step in Hrun
      as [(Hc & -> & ->) | (s1 & ran' & Hc & Hb & Hrun & ->)].
    + split; [|auto]. intros x Hx. now apply elem_of_nil in Hx.
    + destruct (IH _ _ _ _ Hrun (Hbody _ _ (Hbefore k s Hs) Hc Hb)) as (Hran & Hfin).
      split; [|exact Hfin]. intros x Hx. apply elem_of_cons in Hx as [->|Hx]; auto.
Qed.

(** The loop ends when a measure that the environment leaves alone goes down
    with every run of the body. *)
Lemma whileLoop_terminates (Inv : S -> Prop) (measure : S -> nat) :
  (forall k s, Inv s -> Inv (before k s) /\ measure (before k s) = measure s) ->
  (forall s, Inv s -> cond s = true ->
     exists s1, body s = Some s1 /\ Inv s1 /\ (measure s1 < measure s)%nat) ->
  forall fuel k s,
    Inv s -> (measure s < fuel)%nat ->
    exists r, whileLoop before cond body fuel k s = Some r.
Proof.
  intros Hbefore Hbody. induction fuel as [|fuel IH]; intros k s Hs Hfuel; [lia|].
  simpl. destruct (Hbefore k s Hs) as [Hs' Hm].
  destruct (cond (before k s)) eqn:Hc.
  - destruct (Hbody _ Hs' Hc) as (s1 & -> & Hs1 & Hlt). simpl.
    destruct (IH (Datatypes.S k) s1 Hs1 ltac:(lia)) as [r ->]. simpl. eauto.
  - eauto.
Qed.

(** The states in which the condition was evaluated are [ran ++ [fin]]: the
    first is the start state after the environment acted, each further one is
    the body's result after the environment acted. *)
Lemma whileLoop_first (fuel k : nat) (s : S) (ran : list S) (fin : S) :
  whileLoop before cond body fuel k s = Some (ran, fin) ->
  (ran ++ [fin]) !! 0%nat = Some (before k s).
Proof.
  destruct fuel as [|fuel]; [discriminate|]. intros Hrun.
  apply whileLoop_step in Hrun as [(_ & -> & ->) | (s1 & ran' & _ & _ & _ & ->)];
    reflexivity.
Qed.

Lemma whileLoop_chain :
  forall (fuel k : nat) (s : S) (ran : list S) (fin : S),
    whileLoop before cond body fuel k s = Some (ran, fin) ->
    forall (i : nat) (x y : S),
      ran !! i = Some x -> (ran ++ [fin]) !! Datatypes.S i = Some y ->
      cond x = true
      /\ exists s1, body x = Some s1 /\ y = before (k + Datatypes.S i) s1.
Proof.
  induction fuel as [|fuel IH]; intros k s ran fin Hrun i x y Hx Hy; [discriminate|].
  apply whileLoop_step in Hrun as [(_ & -> & ->) | (s1 & ran' & Hc & Hb & Hrun & ->)].
  - discriminate.
  - destruct i as [|i]; simpl in Hx, Hy.
    + injection Hx as <-. split; [exact Hc|]. exists s1. split; [exact Hb|].
      pose proof (whileLoop_first _ _ _ _ _ Hrun) as Hfirst.
      rewrite Hfirst in Hy. injection Hy as <-. f_equal. lia.
    + destruct (IH _ _ _ _ Hrun i x y Hx Hy) as (Hcx & s2 & Hb2 & ->).
      split; [exact Hcx|]. exists s2. split; [exact Hb2|]. f_equal. lia.
Qed.

End WhileLoop.

(** ** The incremental renderer *)

Section Incremental.

Variable K : DSOConstants.
Variable table : Z -> Z.
Variable fv : DataBufferControlStruct -> Z -> Z.
Hypothesis HK : constants_ok K.

Local Abbreviation W := (DSO_DISPLAY_WIDTH K).
Local Abbreviation INVISIBLE := (DISPLAYBUFFER_INVISIBLE_VALUE K).

(** The spectrum update changes [DisplayBufferFFT] only and issues nothing
    but rectangles. *)
Lemma draw128FFTValuesFast_frame (fuel : nat) (aColor : Color_t) (g : Globals) :
  (Z.to_nat W < fuel)%nat ->
  exists g' calls,
    draw128FFTValuesFast K fv fuel aColor g = Some (g', calls)
    /\ MeasurementControl g' = MeasurementControl g
    /\ DisplayControl g' = DisplayControl g
    /\ DataBufferControl g' = DataBufferControl g
    /\ DisplayBuffer g' = DisplayBuffer g
    /\ DisplayBufferMin g' = DisplayBufferMin g
    /\ forall c, c ∈ calls -> rowsOf c = [].
Proof.
  intros Hfuel. unfold draw128FFTValuesFast.
  destruct (ShowFFT (DisplayControl g)).
  - destruct (fftLoop_spec K fv aColor (DataBufferControl g) (DisplayBufferFFT g) fuel HK
                0 (DisplayBufferFFT g) [] ltac:(lia) ltac:(reflexivity) ltac:(lia))
      as (buffer' & out' & Hrun & Honly & _).
    change (3 * 0) with 0 in Hrun. rewrite Hrun. simpl.
    eexists _, _. split; [reflexivity|]. repeat split.
    intros c Hc. destruct (Honly c Hc) as [Hnil | (k & _ & _ & _ & ->)].
    + now apply elem_of_nil in Hnil.
    + reflexivity.
  - eexists _, _. split; [reflexivity|]. repeat split.
    intros c Hc. now apply elem_of_nil in Hc.
Qed.

(** What one run of the loop body does. *)
Lemma drawRemainingColumn_spec (fuel : nat) (aDrawColor : Color_t) (g : Globals)
    (out : list DrawCall) :
  (Z.to_nat W < fuel)%nat ->
  exists g0 fftCalls g1 tValue tValueMin,
    drawRemainingColumn K table fv fuel aDrawColor (g, out)
    = Some (set_drawCursor g1 (wrap32 (columnOf K g + 1))
              (DataBufferNextDrawPointer (DataBufferControl g) + 1),
            out ++ fftCalls ++ clearOldValue K g0 (columnOf K g)
                ++ drawNewValue K aDrawColor g1 (columnOf K g) tValue tValueMin)
    /\ MeasurementControl g0 = MeasurementControl g
    /\ DisplayControl g0 = DisplayControl g
    /\ DisplayBuffer g0 = DisplayBuffer g
    /\ DisplayBufferMin g0 = DisplayBufferMin g
    /\ MeasurementControl g1 = MeasurementControl g
    /\ DisplayControl g1 = DisplayControl g
    /\ DataBufferControl g1 = DataBufferControl g
    /\ (forall c, c ∈ fftCalls -> rowsOf c = []).
Proof.
  intros Hfuel. unfold drawRemainingColumn.
  destruct (DataBufferNextDrawPointer (DataBufferControl g)
            =? DATABUFFER_PRE_TRIGGER_SIZE K + FFT_SIZE K - 1).
  - destruct (draw128FFTValuesFast_frame fuel (COLOR_FFT_DATA K) g Hfuel)
      as (g0 & calls & -> & Hmc & Hdc & Hdbc & Hb & Hbm & Hrows).
    simpl. unfold columnOf. rewrite Hmc, Hdbc.
    eexists g0, calls, _, _, _. split; [reflexivity|]. simpl. auto 10.
  - simpl. eexists g, [], _, _, _. split; [reflexivity|]. simpl.
    repeat split. intros c Hc. now apply elem_of_nil in Hc.
Qed.

End Incremental.

Ltac no_sentinel_row :=
  repeat match goal with
         | H : _ ∈ [] |- _ => apply elem_of_nil in H; contradiction
         | H : _ ∈ [_] |- _ => apply list_elem_of_singleton in H; subst
         | H : negb (_ =? _) = true |- _ => apply negb_true_iff, Z.eqb_neq in H
         | H : negb _ && negb _ = true |- _ => apply andb_true_iff in H; destruct H
         end;
  simpl;
  let Hin := fresh "Hin" in
  intros Hin;
  repeat (apply elem_of_cons in Hin; destruct Hin as [Hin|Hin]; [congruence|]);
  now apply elem_of_nil in Hin.

Section IncrementalLoop.

Variable K : DSOConstants.
Variable table : Z -> Z.
Variable fv : DataBufferControlStruct -> Z -> Z.
Hypothesis HK : constants_ok K.

Local Abbreviation W := (DSO_DISPLAY_WIDTH K).
Local Abbreviation INVISIBLE := (DISPLAYBUFFER_INVISIBLE_VALUE K).

Lemma clearOldValue_rows (g : Globals) (x : Z) :
  isEffectiveMinMaxMode (MeasurementControl g) = false ->
  forall c, c ∈ clearOldValue K g x -> INVISIBLE ∉ rowsOf c.
Proof.
  intros Hmode c Hc. unfold clearOldValue, bothTracks in Hc. rewrite Hmode in Hc.
  repeat match type of Hc with
         | context [if ?b then _ else _] => destruct b eqn:?
         end; no_sentinel_row.
Qed.

Lemma drawNewValue_rows (aDrawColor : Color_t) (g : Globals) (x tValue tValueMin : Z) :
  isEffectiveMinMaxMode (MeasurementControl g) = false ->
  forall c, c ∈ drawNewValue K aDrawColor g x tValue tValueMin -> INVISIBLE ∉ rowsOf c.
Proof.
  intros Hmode c Hc. unfold drawNewValue, bothTracks in Hc. rewrite Hmode in Hc.
  repeat match type of Hc with
         | context [if ?b then _ else _] => destruct b eqn:?
         end; no_sentinel_row.
Qed.

(** The new value of a column is drawn on neither track when the main track
    value is the sentinel. *)
Lemma drawNewValue_sentinel (aDrawColor : Color_t) (g : Globals) (x tValueMin : Z) :
  drawNewValue K aDrawColor g x INVISIBLE tValueMin = [].
Proof.
  unfold drawNewValue. rewrite Z.eqb_refl. simpl.
  repeat match goal with
         | |- context [if ?b then _ else _] => destruct b
         end; reflexivity.
Qed.

(** On every path the call for the main track has no sentinel row; the call
    for the minimum track follows it untested. *)
Lemma clearOldValue_main (g : Globals) (x : Z) :
  clearOldValue K g x = []
  \/ exists main minimum,
       clearOldValue K g x = bothTracks g main minimum /\ INVISIBLE ∉ rowsOf main.
Proof.
  unfold clearOldValue.
  repeat match goal with
         | |- context [if ?b then _ else _] => destruct b eqn:?
         end;
    first [left; reflexivity | right; eexists _, _; split; [reflexivity|]; no_sentinel_row].
Qed.

Lemma drawNewValue_main (aDrawColor : Color_t) (g : Globals) (x tValue tValueMin : Z) :
  drawNewValue K aDrawColor g x tValue tValueMin = []
  \/ exists main minimum,
       drawNewValue K aDrawColor g x tValue tValueMin = bothTracks g main minimum
       /\ INVISIBLE ∉ rowsOf main.
Proof.
  unfold drawNewValue.
  repeat match goal with
         | |- context [if ?b then _ else _] => destruct b eqn:?
         end;
    first [left; reflexivity | right; eexists _, _; split; [reflexivity|]; no_sentinel_row].
Qed.

Lemma drawRemainingColumn_effect (fuel : nat) (aDrawColor : Color_t) (g : Globals)
    (out : list DrawCall) :
  (Z.to_nat W < fuel)%nat ->
  exists g' new,
    drawRemainingColumn K table fv fuel aDrawColor (g, out) = Some (g', out ++ new)
    /\ NextDrawXValue (DataBufferControl g') = wrap32 (columnOf K g + 1)
    /\ DataBufferNextDrawPointer (DataBufferControl g')
       = DataBufferNextDrawPointer (DataBufferControl g) + 1
    /\ MeasurementControl g' = MeasurementControl g
    /\ (isEffectiveMinMaxMode (MeasurementControl g) = false ->
        forall c, c ∈ new -> INVISIBLE ∉ rowsOf c).
Proof.
  intros Hfuel.
  destruct (drawRemainingColumn_spec K table fv HK fuel aDrawColor g out Hfuel)
    as (g0 & fftCalls & g1 & tValue & tValueMin & -> & Hmc0 & _ & _ & _ & Hmc1 & _ & _ & Hfft).
  eexists _, _. split; [reflexivity|]. simpl. repeat split; try assumption.
  intros Hmode c Hc.
  apply elem_of_app in Hc as [Hc|Hc]; [|apply elem_of_app in Hc as [Hc|Hc]].
  - rewrite (Hfft c Hc). apply not_elem_of_nil.
  - apply (clearOldValue_rows g0 (columnOf K g)); [congruence|assumption].
  - eapply drawNewValue_rows; [|eassumption]. congruence.
Qed.

End IncrementalLoop.

Lemma sequential_acquisitionOnly : acquisitionOnly (fun _ g => g).
Proof. split; reflexivity. Qed.

Lemma columnOf_range (K : DSOConstants) (g : Globals) :
  constants_ok K ->
  0 <= NextDrawXValue (DataBufferControl g) -> 0 <= columnOf K g < DSO_DISPLAY_WIDTH K.
Proof.
  intros HK Hc. unfold columnOf. destruct HK as [_ _ _ HW _].
  destruct (Z.geb_spec (NextDrawXValue (DataBufferControl g)) (DSO_DISPLAY_WIDTH K)); lia.
Qed.

Lemma moreToDraw_true (K : DSOConstants) (g : Globals) :
  moreToDraw K g = true ->
  DataBufferNextDrawPointer (DataBufferControl g)
    < DataBufferNextInPointer (DataBufferControl g)
  /\ DataBufferNextDrawPointer (DataBufferControl g) <= DATABUFFER_DISPLAY_END K
  /\ TriggerPhaseJustEnded (MeasurementControl g) = false
  /\ DataBufferPreTriggerAreaWrapAround (DataBufferControl g) = false.
Proof.
  unfold moreToDraw. intros H.
  repeat (apply andb_true_iff in H; destruct H as [H ?]).
  repeat match goal with
         | H : negb _ = true |- _ => apply negb_true_iff in H
         end.
  repeat split; try assumption; lia.
Qed.

Section IncrementalRun.

Variable K : DSOConstants.
Variable table : Z -> Z.
Variable fv : DataBufferControlStruct -> Z -> Z.
Variable acquisition : nat -> Globals -> Globals.
Variable fuel : nat.
Variable aDrawColor : Color_t.
Hypothesis HK : constants_ok K.
Hypothesis Hacq : acquisitionOnly acquisition.
Hypothesis Hfuel : (Z.to_nat (DSO_DISPLAY_WIDTH K) < fuel)%nat.

Local Abbreviation W := (DSO_DISPLAY_WIDTH K).
Local Abbreviation before :=
  (fun (k : nat) (s : Globals * list DrawCall) => (acquisition k s.1, s.2)).
Local Abbreviation cond := (fun s : Globals * list DrawCall => moreToDraw K s.1).
Local Abbreviation body := (drawRemainingColumn K table fv fuel aDrawColor).

Lemma body_effect (s : Globals * list DrawCall) :
  exists s1,
    body s = Some s1
    /\ cursorOf s1 = wrap32 (columnOf K s.1 + 1)
    /\ pointerOf s1 = pointerOf s + 1
    /\ MeasurementControl s1.1 = MeasurementControl s.1
    /\ exists new, s1.2 = s.2 ++ new
         /\ (isEffectiveMinMaxMode (MeasurementControl s.1) = false ->
             forall c, c ∈ new -> DISPLAYBUFFER_INVISIBLE_VALUE K ∉ rowsOf c).
Proof.
  destruct s as [g out].
  destruct (drawRemainingColumn_effect K table fv HK fuel aDrawColor g out Hfuel)
    as (g' & new & Hb & Hc & Hp & Hmc & Hrows).
  exists (g', out ++ new). repeat split; try assumption. exists new. split; auto.
Qed.

Lemma body_cursor (s s1 : Globals * list DrawCall) :
  0 <= cursorOf s -> body s = Some s1 ->
  cursorOf s1 = columnOf K s.1 + 1 /\ 1 <= cursorOf s1 <= W.
Proof.
  intros Hc Hb. destruct (body_effect s) as (s1' & Hb' & Hcur & _).
  rewrite Hb in Hb'. injection Hb' as <-.
  pose proof (columnOf_range K s.1 HK Hc) as Hcol. destruct HK as [_ _ _ HW _].
  rewrite Hcur, wrap32_small by (unfold int_range; lia). lia.
Qed.

Lemma run_total (fuelW k : nat) (s : Globals * list DrawCall) :
  (Z.to_nat (DATABUFFER_DISPLAY_END K + 1 - pointerOf s) < fuelW)%nat ->
  exists r, whileLoop before cond body fuelW k s = Some r.
Proof.
  apply (whileLoop_terminates before cond body (fun _ => True)
           (fun s => Z.to_nat (DATABUFFER_DISPLAY_END K + 1 - pointerOf s))); [| |exact I].
  - intros k' s' _. split; [exact I|]. unfold pointerOf. simpl.
    now rewrite (keeps_pointer _ Hacq).
  - intros s' _ Hc. destruct (body_effect s') as (s1 & Hb & _ & Hp & _).
    exists s1. split; [exact Hb|]. split; [exact I|].
    apply moreToDraw_true in Hc as (_ & Hend & _). unfold pointerOf in *. lia.
Qed.

Lemma run_pointers (fuelW : nat) (g : Globals) (ran : list (Globals * list DrawCall))
    (fin : Globals * list DrawCall) :
  whileLoop before cond body fuelW 0 (g, []) = Some (ran, fin) ->
  forall (i : nat) s,
    (ran ++ [fin]) !! i = Some s ->
    pointerOf s = DataBufferNextDrawPointer (DataBufferControl g) + Z.of_nat i.
Proof.
  intros Hrun. induction i as [|i IH]; intros s Hs.
  - rewrite (whileLoop_first _ _ _ _ _ _ _ _ Hrun) in Hs. injection Hs as <-.
    unfold pointerOf. simpl. rewrite (keeps_pointer _ Hacq). lia.
  - assert (Hi : (i < length ran)%nat).
    { apply lookup_lt_Some in Hs. rewrite length_app in Hs. simpl in Hs. lia. }
    destruct (lookup_lt_is_Some_2 ran i Hi) as [x Hx].
    destruct (whileLoop_chain _ _ _ _ _ _ _ _ Hrun i x s Hx Hs) as (_ & s1 & Hb & ->).
    destruct (body_effect x) as (s1' & Hb' & _ & Hp & _).
    rewrite Hb in Hb'. injection Hb' as <-.
    unfold pointerOf at 1. simpl. rewrite (keeps_pointer _ Hacq).
    fold (pointerOf s1). rewrite Hp, (IH x).
    + lia.
    + rewrite lookup_app_l by assumption. exact Hx.
Qed.

Lemma run_wrapCount :
  forall (fuelW k : nat) (s : Globals * list DrawCall) ran fin,
    whileLoop before cond body fuelW k s = Some (ran, fin) ->
    1 <= cursorOf s <= W ->
    wrapCount K ran = (cursorOf s - 1 + Z.of_nat (length ran)) / W
    /\ cursorOf fin = (cursorOf s - 1 + Z.of_nat (length ran)) mod W + 1.
Proof.
  pose proof HK as [_ _ _ HW _].
  induction fuelW as [|fuelW IH]; intros k s ran fin Hrun Hc; [discriminate|].
  assert (Hbefore : cursorOf (before k s) = cursorOf s).
  { unfold cursorOf. simpl. apply (keeps_cursor _ Hacq). }
  apply whileLoop_step in Hrun as [(_ & -> & ->) | (s1 & ran' & _ & Hb & Hrun & ->)].
  - rewrite Hbefore. simpl. rewrite Z.add_0_r.
    rewrite Z.div_small, Z.mod_small by lia. lia.
  - destruct (body_cursor _ _ ltac:(rewrite Hbefore; lia) Hb) as [Hs1 Hs1r].
    destruct (IH _ _ _ _ Hrun Hs1r) as [IHw IHc].
    rewrite IHc. cbn [wrapCount length]. rewrite IHw, Hs1, Hbefore.
    unfold columnOf. simpl. rewrite (keeps_cursor _ Hacq). fold (cursorOf s).
    destruct (Z.geb_spec (cursorOf s) W) as [Hwrap|Hno].
    + replace (cursorOf s - 1 + Z.of_nat (S (length ran')))
        with (Z.of_nat (length ran') + 1 * W) by lia.
      rewrite Z.div_add, Z_mod_plus_full by lia.
      replace (0 + 1 - 1 + Z.of_nat (length ran')) with (Z.of_nat (length ran')) by lia.
      lia.
    + replace (cursorOf s + 1 - 1 + Z.of_nat (length ran'))
        with (cursorOf s - 1 + Z.of_nat (S (length ran'))) by lia.
      lia.
Qed.

Lemma run_guarded (fuelW k : nat) (s : Globals * list DrawCall) ran fin :
  whileLoop before cond body fuelW k s = Some (ran, fin) ->
  0 <= cursorOf s ->
  (forall x, x ∈ ran -> 0 <= cursorOf x /\ moreToDraw K x.1 = true)
  /\ 0 <= cursorOf fin /\ moreToDraw K fin.1 = false.
Proof.
  apply (whileLoop_invariant before cond body (fun s => 0 <= cursorOf s)).
  - intros k' s' Hs. unfold cursorOf. simpl. rewrite (keeps_cursor _ Hacq). exact Hs.
  - intros s' s1 Hs _ Hb. destruct (body_cursor s' s1 Hs Hb). lia.
Qed.

(** With a single track no call of the run has the sentinel as a row. *)
Lemma run_rows (fuelW k : nat) (s : Globals * list DrawCall) ran fin :
  whileLoop before cond body fuelW k s = Some (ran, fin) ->
  isEffectiveMinMaxMode (MeasurementControl s.1) = false ->
  (forall c, c ∈ s.2 -> DISPLAYBUFFER_INVISIBLE_VALUE K ∉ rowsOf c) ->
  forall c, c ∈ fin.2 -> DISPLAYBUFFER_INVISIBLE_VALUE K ∉ rowsOf c.
Proof.
  intros Hrun Hmode Hrows.
  apply (whileLoop_invariant before cond body
           (fun s => isEffectiveMinMaxMode (MeasurementControl s.1) = false
                     /\ forall c, c ∈ s.2 -> DISPLAYBUFFER_INVISIBLE_VALUE K ∉ rowsOf c)
           ) with (fuel := fuelW) (k := k) (s := s) (ran := ran) (s' := fin); auto.
  - intros k' s' [Hm Hr]. simpl. rewrite (keeps_minMaxMode _ Hacq). auto.
  - intros s' s1 [Hm Hr] _ Hb.
    destruct (body_effect s') as (s1' & Hb' & _ & _ & Hmc & new & Hout & Hnew).
    rewrite Hb in Hb'. injection Hb' as <-. rewrite Hmc. split; [exact Hm|].
    intros c Hc. rewrite Hout in Hc. apply elem_of_app in Hc as [Hc|Hc]; auto.
Qed.

End IncrementalRun.

(** C5, as amended.  The column the incremental renderer draws, which is the
    cursor [NextDrawXValue] wrapped to 0 at [DSO_DISPLAY_WIDTH], is always
    within [0, DSO_DISPLAY_WIDTH); the stored cursor itself is the drawn
    column plus one, so it lies in [1, DSO_DISPLAY_WIDTH] after every
    processed sample.  A column drawn at cursor [DSO_DISPLAY_WIDTH - 1] leaves
    the cursor at [DSO_DISPLAY_WIDTH] and the next sample is drawn at column
    0.  From a stored cursor in [1, DSO_DISPLAY_WIDTH] a run of
    [DSO_DISPLAY_WIDTH] samples wraps exactly once and brings the cursor back
    to where it was. *)
Theorem incremental_cursor_wraps
    (K : DSOConstants) (table : Z -> Z) (fv : DataBufferControlStruct -> Z -> Z)
    (acquisition : nat -> Globals -> Globals) (fuel : nat) (aDrawColor : Color_t)
    (g : Globals) :
  constants_ok K ->
  acquisitionOnly acquisition ->
  0 <= NextDrawXValue (DataBufferControl g) ->
  (Z.to_nat (DSO_DISPLAY_WIDTH K)
   + Z.to_nat (DATABUFFER_DISPLAY_END K + 1
               - DataBufferNextDrawPointer (DataBufferControl g)) < fuel)%nat ->
  exists ran fin,
    drawRemainingDuringAcquisition K table fv acquisition fuel aDrawColor g = Some (ran, fin)
    /\ (forall s, s ∈ ran -> 0 <= columnOf K s.1 < DSO_DISPLAY_WIDTH K)
    /\ (forall (i : nat) s s',
          ran !! i = Some s -> (ran ++ [fin]) !! S i = Some s' ->
          cursorOf s' = columnOf K s.1 + 1 /\ 1 <= cursorOf s' <= DSO_DISPLAY_WIDTH K)
    /\ (forall (i : nat) s s',
          ran !! i = Some s -> ran !! S i = Some s' ->
          cursorOf s = DSO_DISPLAY_WIDTH K - 1 ->
          columnOf K s.1 = DSO_DISPLAY_WIDTH K - 1
          /\ cursorOf s' = DSO_DISPLAY_WIDTH K /\ columnOf K s'.1 = 0)
    /\ (1 <= NextDrawXValue (DataBufferControl g) <= DSO_DISPLAY_WIDTH K ->
        length ran = Z.to_nat (DSO_DISPLAY_WIDTH K) ->
        wrapCount K ran = 1 /\ cursorOf fin = NextDrawXValue (DataBufferControl g)).
Proof.
  intros HK Hacq Hc0 Hfuel.
  assert (HfuelW : (Z.to_nat (DSO_DISPLAY_WIDTH K) < fuel)%nat) by lia.
  pose proof HK as [_ _ _ HW _].
  unfold drawRemainingDuringAcquisition.
  destruct (run_total K table fv acquisition fuel aDrawColor HK Hacq HfuelW fuel 0%nat (g, []))
    as [[ran fin] Hrun]; [unfold pointerOf; simpl; lia|].
  exists ran, fin. split; [exact Hrun|].
  destruct (run_guarded K table fv acquisition fuel aDrawColor HK Hacq HfuelW
              _ _ _ _ _ Hrun Hc0) as (Hran & _ & _).
  assert (Hnext : forall (i : nat) s s',
             ran !! i = Some s -> (ran ++ [fin]) !! S i = Some s' ->
             cursorOf s' = columnOf K s.1 + 1 /\ 1 <= cursorOf s' <= DSO_DISPLAY_WIDTH K).
  { intros i s s' Hs Hs'.
    destruct (whileLoop_chain _ _ _ _ _ _ _ _ Hrun i s s' Hs Hs') as (_ & s1 & Hb & ->).
    destruct (Hran s (list_elem_of_lookup_2 _ _ _ Hs)) as [Hs0 _].
    destruct (body_cursor K table fv fuel aDrawColor HK HfuelW s s1 Hs0 Hb) as [E R].
    assert (E' : forall k, cursorOf (acquisition k s1.1, s1.2) = cursorOf s1)
      by (intros; apply (keeps_cursor _ Hacq)).
    cbv beta. rewrite E'. split; [exact E|exact R]. }
  split; [|split; [exact Hnext|split]].
  - intros s Hs. apply (columnOf_range K s.1 HK). apply (Hran s Hs).
  - intros i s s' Hs Hs' Hlast.
    destruct (Hnext i s s' Hs (lookup_app_l_Some _ _ _ _ Hs')) as [E _].
    assert (Hcol : columnOf K s.1 = DSO_DISPLAY_WIDTH K - 1).
    { unfold columnOf. fold (cursorOf s). rewrite Hlast.
      destruct (Z.geb_spec (DSO_DISPLAY_WIDTH K - 1) (DSO_DISPLAY_WIDTH K)); lia. }
    split; [exact Hcol|]. split; [lia|].
    unfold columnOf. fold (cursorOf s'). rewrite E, Hcol.
    destruct (Z.geb_spec (DSO_DISPLAY_WIDTH K - 1 + 1) (DSO_DISPLAY_WIDTH K)); lia.
  - intros Hc Hlen.
    destruct (run_wrapCount K table fv acquisition fuel aDrawColor HK Hacq HfuelW
                _ _ _ _ _ Hrun Hc) as [Hw Hf].
    rewrite Hw, Hf, Hlen. unfold cursorOf. simpl.
    rewrite Z2Nat.id by lia.
    replace (NextDrawXValue (DataBufferControl g) - 1 + DSO_DISPLAY_WIDTH K)
      with (NextDrawXValue (DataBufferControl g) - 1 + 1 * DSO_DISPLAY_WIDTH K) by lia.
    rewrite Z.div_add, Z_mod_plus_full by lia.
    rewrite Z.div_small, Z.mod_small by lia. lia.
Qed.

Lemma incremental_cursor_wraps_witness :
  exists ran fin,
    drawRemainingDuringAcquisition (K320 false) identityScale noFFT (fun _ g => g) 1000 9
      (gAtLastColumn false (memoryOf [10; 20])) = Some (ran, fin)
    /\ columnOf (K320 false) <$> (fst <$> ran) = [319; 0]
    /\ cursorOf <$> ran = [319; 320]
    /\ cursorOf fin = 1.
Proof.
  destruct (incremental_cursor_wraps (K320 false) identityScale noFFT (fun _ g => g) 1000 9
              (gAtLastColumn false (memoryOf [10; 20])) (K320_ok false)
              sequential_acquisitionOnly ltac:(simpl; lia) ltac:(simpl; lia))
    as (ran & fin & Hrun & _).
  exists ran, fin. split; [exact Hrun|].
  vm_compute in Hrun. injection Hrun as <- <-. repeat split.
Defined.

(** C5 as stated fails for the stored cursor: after the column at cursor
    [DSO_DISPLAY_WIDTH - 1] is drawn, [NextDrawXValue] is [DSO_DISPLAY_WIDTH],
    outside [0, DSO_DISPLAY_WIDTH). *)
Lemma nextDrawXValue_reaches_width :
  exists g' calls,
    drawRemainingDataBufferValues (K320 false) identityScale noFFT 1000 9
      (gSample (mcSample true false 0) 0 (memoryOf [10]) 0 1 319
         (replicate 320 100) (replicate 320 110)) = Some (g', calls)
    /\ NextDrawXValue (DataBufferControl g') = 320
    /\ ~ (0 <= NextDrawXValue (DataBufferControl g') < DSO_DISPLAY_WIDTH (K320 false)).
Proof.
  eexists _, _. split; [vm_compute; reflexivity|]. simpl. split; [reflexivity|lia].
Qed.

(** C8.  A call of [drawRemainingDataBufferValues], whatever the acquisition
    does meanwhile, runs the loop body only in states where the draw pointer
    is strictly before the next-in pointer, not past the display end, and
    both the trigger-phase-just-ended and the pre-trigger-wrap-around flag are
    clear; the columns it processes are those of consecutive samples from the
    draw pointer on.  It ends in the first state where this fails: when a
    flag is found set at an evaluation of the condition, no column is
    processed from then on, and a flag set at the start leaves the state
    untouched and draws nothing. *)
Theorem drawRemaining_stops_at_guard
    (K : DSOConstants) (table : Z -> Z) (fv : DataBufferControlStruct -> Z -> Z)
    (acquisition : nat -> Globals -> Globals) (fuel : nat) (aDrawColor : Color_t)
    (g : Globals) :
  constants_ok K ->
  acquisitionOnly acquisition ->
  (Z.to_nat (DSO_DISPLAY_WIDTH K)
   + Z.to_nat (DATABUFFER_DISPLAY_END K + 1
               - DataBufferNextDrawPointer (DataBufferControl g)) < fuel)%nat ->
  let flagSet (s : Globals * list DrawCall) :=
    TriggerPhaseJustEnded (MeasurementControl s.1) = true
    \/ DataBufferPreTriggerAreaWrapAround (DataBufferControl s.1) = true in
  exists ran fin,
    drawRemainingDuringAcquisition K table fv acquisition fuel aDrawColor g = Some (ran, fin)
    /\ (forall s, s ∈ ran ->
          pointerOf s < DataBufferNextInPointer (DataBufferControl s.1)
          /\ pointerOf s <= DATABUFFER_DISPLAY_END K
          /\ TriggerPhaseJustEnded (MeasurementControl s.1) = false
          /\ DataBufferPreTriggerAreaWrapAround (DataBufferControl s.1) = false)
    /\ (forall (i : nat) s, (ran ++ [fin]) !! i = Some s ->
          pointerOf s = DataBufferNextDrawPointer (DataBufferControl g) + Z.of_nat i)
    /\ moreToDraw K fin.1 = false
    /\ (forall (i : nat) s, (ran ++ [fin]) !! i = Some s -> flagSet s ->
          i = length ran /\ s = fin)
    /\ (flagSet (acquisition 0%nat g, []) -> ran = [] /\ fin = (acquisition 0%nat g, [])).
Proof.
  intros HK Hacq Hfuel flagSet.
  assert (HfuelW : (Z.to_nat (DSO_DISPLAY_WIDTH K) < fuel)%nat) by lia.
  unfold drawRemainingDuringAcquisition.
  destruct (run_total K table fv acquisition fuel aDrawColor HK Hacq HfuelW fuel 0%nat (g, []))
    as [[ran fin] Hrun]; [unfold pointerOf; simpl; lia|].
  exists ran, fin. split; [exact Hrun|].
  destruct (whileLoop_invariant _ _ _ (fun _ => True) ltac:(auto) ltac:(auto)
              _ _ _ _ _ Hrun I) as (Hran & _ & Hfin).
  assert (Hguard : forall s, s ∈ ran ->
             pointerOf s < DataBufferNextInPointer (DataBufferControl s.1)
             /\ pointerOf s <= DATABUFFER_DISPLAY_END K
             /\ TriggerPhaseJustEnded (MeasurementControl s.1) = false
             /\ DataBufferPreTriggerAreaWrapAround (DataBufferControl s.1) = false).
  { intros s Hs. apply (moreToDraw_true K). apply (Hran s Hs). }
  assert (Hflag : forall (i : nat) s, (ran ++ [fin]) !! i = Some s -> flagSet s ->
             i = length ran /\ s = fin).
  { intros i s Hs Hset.
    destruct (Nat.lt_ge_cases i (length ran)) as [Hlt|Hge].
    - rewrite lookup_app_l in Hs by assumption.
      destruct (Hguard s (list_elem_of_lookup_2 _ _ _ Hs)) as (_ & _ & H1 & H2).
      destruct Hset as [Hset|Hset]; congruence.
    - pose proof (lookup_lt_Some _ _ _ Hs) as Hi. rewrite length_app in Hi. simpl in Hi.
      assert (i = length ran) as -> by lia. split; [reflexivity|].
      rewrite lookup_app_r, Nat.sub_diag in Hs by lia. simpl in Hs. congruence. }
  split; [exact Hguard|]. split; [|split; [exact Hfin|split; [exact Hflag|]]].
  - apply (run_pointers K table fv acquisition fuel aDrawColor HK Hacq HfuelW fuel).
    exact Hrun.
  - intros Hset.
    pose proof (whileLoop_first _ _ _ _ _ _ _ _ Hrun) as Hfirst. cbv beta in Hfirst.
    destruct (Hflag 0%nat _ Hfirst Hset) as [Hlen Hs].
    split; [|now symmetry]. destruct ran; [reflexivity|discriminate Hlen].
Qed.

Lemma triggerPhaseEndsAfterOne_acquisitionOnly : acquisitionOnly triggerPhaseEndsAfterOne.
Proof. split; intros [|[|k]] g; reflexivity. Qed.

Lemma drawRemaining_stops_at_guard_witness :
  exists ran fin,
    drawRemainingDuringAcquisition (K320 false) identityScale noFFT
      triggerPhaseEndsAfterOne 1000 9 (gAtLastColumn false (memoryOf [10; 20]))
    = Some (ran, fin)
    /\ pointerOf <$> ran = [0]
    /\ pointerOf fin = 1
    /\ DataBufferNextInPointer (DataBufferControl fin.1) = 2.
Proof.
  destruct (drawRemaining_stops_at_guard (K320 false) identityScale noFFT
              triggerPhaseEndsAfterOne 1000 9 (gAtLastColumn false (memoryOf [10; 20]))
              (K320_ok false) triggerPhaseEndsAfterOne_acquisitionOnly
              ltac:(simpl; lia)) as (ran & fin & Hrun & _).
  exists ran, fin. split; [exact Hrun|].
  vm_compute in Hrun. injection Hrun as <- <-. repeat split.
Defined.

(** ** The bulk renderer *)

Lemma sumRawValues_rawSum (data : Z -> Z) (n : nat) :
  forall p acc, int_range acc ->
    sumRawValues n data p acc = wrap32 (acc + rawSum data p n).
Proof.
  induction n as [|n IH]; intros p acc Hacc; simpl.
  - rewrite Z.add_0_r. symmetry. now apply wrap32_small.
  - rewrite IH by apply wrap32_range. rewrite wrap32_add_l. f_equal. lia.
Qed.

Lemma rawSum_bounds (data : Z -> Z) (n : nat) :
  (forall k, 0 <= data k < 2 ^ 16) ->
  forall p, 0 <= rawSum data p n <= Z.of_nat n * (2 ^ 16 - 1).
Proof.
  intros Hdata. induction n as [|n IH]; intros p; simpl rawSum; [lia|].
  specialize (IH (p + 1)). specialize (Hdata p). lia.
Qed.

(** For 16 bit samples and at most [2 ^ 15] of them the average is exact. *)
Lemma rawAverage_exact (data : Z -> Z) (p n : Z) :
  (forall k, 0 <= data k < 2 ^ 16) ->
  0 < n <= 2 ^ 15 ->
  rawAverage data p n = rawSum data p (Z.to_nat n) / n.
Proof.
  intros Hdata Hn. unfold rawAverage, cdiv.
  pose proof (rawSum_bounds data (Z.to_nat n) Hdata p) as Hs.
  rewrite Z2Nat.id in Hs by lia.
  rewrite (wrap32_small (rawSum _ _ _)) by (unfold int_range; lia).
  rewrite Z.quot_div_nonneg by lia.
  apply wrap32_small. unfold int_range.
  pose proof (Z.div_pos (rawSum data p (Z.to_nat n)) n ltac:(lia) ltac:(lia)).
  pose proof (Z.div_le_upper_bound (rawSum data p (Z.to_nat n)) n (2 ^ 16) ltac:(lia)
                ltac:(nia)).
  lia.
Qed.

Section BulkFacts.

Variable K : DSOConstants.
Variable table : Z -> Z.
Variable mc : MeasurementControlStruct.
Variable dc : DisplayControlStruct.
Variable data : Z -> Z.
Variables (aColor aClearBeforeColor : Color_t).

Local Abbreviation toDisplay := (getDisplayFrowRawInputValue K table mc).
Local Abbreviation INVISIBLE := (DISPLAYBUFFER_INVISIBLE_VALUE K).
Local Abbreviation column :=
  (bulkColumn K table mc dc data aColor aClearBeforeColor DRAW_MODE_REGULAR).
Local Abbreviation columns :=
  (bulkColumns K table mc dc data aColor aClearBeforeColor DRAW_MODE_REGULAR).

Lemma getDisplayFrowMultipleRawValues_average (p n : Z) :
  getDisplayFrowMultipleRawValues K table mc data p n = toDisplay (rawAverage data p n).
Proof.
  unfold getDisplayFrowMultipleRawValues, rawAverage.
  rewrite sumRawValues_rawSum by (unfold int_range; lia). reflexivity.
Qed.

(** In a regular pass a column stores the value that the X scaling gives and
    moves the data pointer and the scale counter as the X scaling says. *)
Lemma bulkColumn_regular (tXScale tTriggerValue i : Z) (l : BulkLocals) :
  let r := scaledColumnValue K table mc data tXScale (tDataBufferPointer l)
             (tXScaleCounter l) in
  tDataBufferPointer (column tXScale tTriggerValue i l) = r.1.2
  /\ tXScaleCounter (column tXScale tTriggerValue i l) = r.2
  /\ ScreenBufferWritePointer1 (column tXScale tTriggerValue i l)
     = ScreenBufferWritePointer1 l + 1
  /\ trackBuffer (column tXScale tTriggerValue i l)
     = storeAt (trackBuffer l) (ScreenBufferWritePointer1 l) r.1.1.
Proof.
  intros r. subst r. unfold bulkColumn. cbn [isRegular].
  destruct (scaledColumnValue K table mc data tXScale (tDataBufferPointer l)
              (tXScaleCounter l)) as [[v p] c].
  destruct (triggerStateLine K dc aClearBeforeColor tTriggerValue i v l) as [[b2 p2] o].
  destruct (LOCAL_DISPLAY_EXISTS K).
  - destruct (localColumn K dc aColor aClearBeforeColor DRAW_MODE_REGULAR i v l)
      as [[[gc rp] lc] dr]. simpl. auto.
  - simpl. auto.
Qed.

(** Reading the track buffer after a run of columns whose stored values are
    known. *)
Lemma bulkColumns_read (tXScale tTriggerValue hi : Z) (value : Z -> Z)
    (Inv : Z -> BulkLocals -> Prop) :
  (forall i l, 0 <= i < hi -> Inv i l ->
     ScreenBufferWritePointer1 l = i
     /\ Inv (i + 1) (column tXScale tTriggerValue i l)
     /\ trackBuffer (column tXScale tTriggerValue i l)
        = storeAt (trackBuffer l) i (value i)) ->
  forall (n : nat) (i : Z) (l : BulkLocals),
    0 <= i -> i + Z.of_nat n <= hi -> Inv i l ->
    let l' := columns tXScale tTriggerValue n i l in
    length (trackBuffer l') = length (trackBuffer l)
    /\ (forall j, 0 <= j < i -> readAt (trackBuffer l') j = readAt (trackBuffer l) j)
    /\ (forall j, i <= j < i + Z.of_nat n -> (Z.to_nat j < length (trackBuffer l))%nat ->
          readAt (trackBuffer l') j = to_uint8 (value j))
    /\ Inv (i + Z.of_nat n) l'.
Proof.
  intros Hstep. induction n as [|n IH]; intros i l Hi Hhi Hinv; cbn zeta.
  - simpl. rewrite Z.add_0_r. repeat split; auto. intros j Hj. lia.
  - cbn [bulkColumns].
    destruct (Hstep i l ltac:(lia) Hinv) as (Hwp & Hinv1 & Hbuf).
    destruct (IH (i + 1) (column tXScale tTriggerValue i l) ltac:(lia) ltac:(lia) Hinv1)
      as (Hlen & Hlow & Hnew & Hlast).
    rewrite Hbuf in Hlen, Hlow, Hnew. rewrite length_storeAt in Hlen, Hnew.
    split; [exact Hlen|]. split; [|split].
    + intros j Hj. rewrite Hlow by lia. apply readAt_storeAt_ne; lia.
    + intros j Hj Hjlen. destruct (Z.eq_dec j i) as [->|Hne].
      * rewrite Hlow by lia. apply readAt_storeAt_eq; [lia|assumption].
      * apply Hnew; [lia|assumption].
    + replace (i + Z.of_nat (S n)) with (i + 1 + Z.of_nat n) by lia. exact Hlast.
Qed.

(** A run of columns is the run of its first columns followed by the run of
    the others. *)
Lemma bulkColumns_app (tXScale tTriggerValue : Z) (n m : nat) (i : Z) (l : BulkLocals) :
  columns tXScale tTriggerValue (n + m) i l
  = columns tXScale tTriggerValue m (i + Z.of_nat n) (columns tXScale tTriggerValue n i l).
Proof.
  revert i l. induction n as [|n IH]; intros i l.
  - simpl. now rewrite Z.add_0_r.
  - cbn [bulkColumns Nat.add]. rewrite IH. f_equal. lia.
Qed.

(** A run of columns keeps the entries of the track buffer before its first
    column. *)
Lemma bulkColumns_earlier (tXScale tTriggerValue : Z) (n : nat) :
  forall (i : Z) (l : BulkLocals),
    0 <= i -> ScreenBufferWritePointer1 l = i ->
    forall j, 0 <= j < i ->
      readAt (trackBuffer (columns tXScale tTriggerValue n i l)) j = readAt (trackBuffer l) j.
Proof.
  induction n as [|n IH]; intros i l Hi Hwp j Hj; [reflexivity|].
  cbn [bulkColumns].
  destruct (bulkColumn_regular tXScale tTriggerValue i l) as (_ & _ & Ew & Eb).
  rewrite (IH (i + 1) (column tXScale tTriggerValue i l)) by lia.
  rewrite Eb, Hwp. apply readAt_storeAt_ne; lia.
Qed.

End BulkFacts.

Section BulkCompress.

Variable K : DSOConstants.
Variable table : Z -> Z.
Variable mc : MeasurementControlStruct.
Variable dc : DisplayControlStruct.
Variable data : Z -> Z.
Variables (aColor aClearBeforeColor : Color_t).

Local Abbreviation toDisplay := (getDisplayFrowRawInputValue K table mc).

Lemma scaledColumnValue_compress (tXScale p c : Z) :
  tXScale < -1 ->
  scaledColumnValue K table mc data tXScale p c
  = (toDisplay (rawAverage data p c), p + c, c).
Proof.
  intros Hr. unfold scaledColumnValue.
  destruct (Z.eqb_spec tXScale 0); [lia|].
  destruct (Z.ltb_spec tXScale (-1)); [|lia].
  now rewrite getDisplayFrowMultipleRawValues_average.
Qed.

(** One pass at a ratio below -1: column [i] holds the display value of the
    average of the [- tXScale] samples from [i * - tXScale] on. *)
Lemma bulkPass_compress (tXScale tTriggerValue aLength : Z) (l : BulkLocals) :
  - 2 ^ 31 < tXScale < -1 ->
  ScreenBufferWritePointer1 l = 0 ->
  let l' := bulkPass K table mc dc data aColor aClearBeforeColor DRAW_MODE_REGULAR
              tXScale tTriggerValue aLength l in
  (0 <= aLength -> tDataBufferPointer l' = tDataBufferPointer l + aLength * - tXScale)
  /\ forall i, 0 <= i < aLength -> (Z.to_nat i < length (trackBuffer l))%nat ->
       readAt (trackBuffer l') i
       = to_uint8 (toDisplay (rawAverage data (tDataBufferPointer l + i * - tXScale)
                                (- tXScale))).
Proof.
  intros Hr Hwp l'. subst l'. unfold bulkPass.
  destruct (Z.leb_spec tXScale 0); [|lia].
  rewrite wrap32_small by (unfold int_range; lia).
  set (p0 := tDataBufferPointer l). set (n := - tXScale).
  match goal with
  | |- context [bulkColumns _ _ _ _ _ _ _ _ _ _ _ _ ?l0] => set (start := l0)
  end.
  destruct (bulkColumns_read K table mc dc data aColor aClearBeforeColor
              tXScale tTriggerValue (Z.max 0 aLength)
              (fun i => toDisplay (rawAverage data (p0 + i * n) n))
              (fun i l => ScreenBufferWritePointer1 l = i
                          /\ tDataBufferPointer l = p0 + i * n
                          /\ tXScaleCounter l = n))
    with (n := Z.to_nat aLength) (i := 0) (l := start) as (_ & _ & Hnew & Hinv).
  - intros i l0 Hi (Hw & Hp & Hc).
    destruct (bulkColumn_regular K table mc dc data aColor aClearBeforeColor
                tXScale tTriggerValue i l0) as (Ep & Ec & Ew & Eb).
    rewrite scaledColumnValue_compress in Ep, Ec, Eb by lia. simpl in Ep, Ec, Eb.
    rewrite Hp, Hc in *. split; [exact Hw|]. split.
    + split; [lia|]. split; [lia|assumption].
    + rewrite Eb, Hw. reflexivity.
  - lia.
  - lia.
  - subst start. simpl. repeat split; try assumption; lia.
  - split.
    + intros Hlen. destruct Hinv as (_ & -> & _). rewrite Z2Nat.id by lia. lia.
    + intros i Hi Hilen. apply Hnew; [lia|exact Hilen].
Qed.

End BulkCompress.

(** C3.  In a regular bulk pass at a ratio [r] below -1 every column [i]
    takes the [|r|] consecutive raw samples from [i * |r|] on (the minimum
    track the same ones beyond [DATABUFFER_MIN_OFFSET]) and holds, as a byte,
    the mapper applied once to their average: the [int] sum of the raw values
    divided by their number, which for 16 bit samples and up to [2 ^ 15] of
    them is the exact integer average. *)
Theorem drawDataBuffer_compress_maps_raw_average
    (K : DSOConstants) (table : Z -> Z) (g : Globals) (data : Z -> Z)
    (aDataBufferPointer aLength : Z) (aColor aClearBeforeColor : Color_t)
    (aDrawAlsoMin : bool) (i : Z) :
  let r := XScale (DisplayControl g) in
  let mc := MeasurementControl g in
  let g' := (drawDataBuffer K table g data aDataBufferPointer aLength aColor
               aClearBeforeColor DRAW_MODE_REGULAR aDrawAlsoMin).1 in
  - 2 ^ 31 < r < -1 ->
  0 <= i < aLength ->
  ((Z.to_nat i < length (DisplayBuffer g))%nat ->
   readAt (DisplayBuffer g') i
   = to_uint8 (getDisplayFrowRawInputValue K table mc
                 (rawAverage data (aDataBufferPointer + i * - r) (- r))))
  /\ (aDrawAlsoMin = true -> (Z.to_nat i < length (DisplayBufferMin g))%nat ->
      readAt (DisplayBufferMin g') i
      = to_uint8 (getDisplayFrowRawInputValue K table mc
                    (rawAverage data
                       (aDataBufferPointer + DATABUFFER_MIN_OFFSET K + i * - r) (- r))))
  /\ ((forall k, 0 <= data k < 2 ^ 16) -> - r <= 2 ^ 15 ->
      forall p, rawAverage data p (- r) = rawSum data p (Z.to_nat (- r)) / - r).
Proof.
  intros r mc g' Hr Hi. subst g'. unfold drawDataBuffer. fold mc. fold r. cbn match.
  match goal with
  | |- context [bulkPass _ _ _ _ _ _ _ _ _ ?t _ ?l0] =>
      set (trigger := t); set (start := l0)
  end.
  pose proof (bulkPass_compress K table mc (DisplayControl g) data aColor aClearBeforeColor
                r trigger aLength start Hr eq_refl) as [_ Hmain].
  cbv zeta in Hmain. split; [|split].
  - intros Hlen. destruct aDrawAlsoMin; simpl; apply (Hmain i Hi Hlen).
  - intros -> Hlen. simpl.
    match goal with
    | |- context [bulkPass _ _ _ _ _ _ _ _ _ _ _ (startTrack ?a ?b ?c ?d)] =>
        set (startMin := startTrack a b c d)
    end.
    pose proof (bulkPass_compress K table mc (DisplayControl g) data aColor
                  aClearBeforeColor r trigger aLength startMin Hr eq_refl) as [_ Hmin].
    cbv zeta in Hmin. apply (Hmin i Hi Hlen).
  - intros Hdata Hn p. apply rawAverage_exact; [assumption|lia].
Qed.

Lemma drawDataBuffer_compress_maps_raw_average_witness :
  let g := gSample (mcSample false false 0) (-2) (memoryOf []) 0 0 0
             (replicate 320 255) (replicate 320 255) in
  let g' := (drawDataBuffer (K320 false) identityScale g (memoryOf [10; 20]) 0 1 9 0
               DRAW_MODE_REGULAR false).1 in
  rawAverage (memoryOf [10; 20]) 0 2 = 15
  /\ readAt (DisplayBuffer g') 0
     = to_uint8 (getDisplayFrowRawInputValue (K320 false) identityScale
                   (mcSample false false 0) 15)
  /\ readAt (DisplayBuffer g') 0 = 224.
Proof.
  intros g g'. split; [reflexivity|]. split; [|reflexivity].
  change 15 with (rawAverage (memoryOf [10; 20]) (0 + 0 * - -2) (- -2)).
  apply (drawDataBuffer_compress_maps_raw_average (K320 false) identityScale g
           (memoryOf [10; 20]) 0 1 9 0 false 0); simpl; lia.
Defined.

Section BulkThreeToTwo.

Variable K : DSOConstants.
Variable table : Z -> Z.
Variable mc : MeasurementControlStruct.
Variable dc : DisplayControlStruct.
Variable data : Z -> Z.
Variables (aColor aClearBeforeColor : Color_t).

Local Abbreviation toDisplay := (getDisplayFrowRawInputValue K table mc).
Local Abbreviation INVISIBLE := (DISPLAYBUFFER_INVISIBLE_VALUE K).

Lemma scaledColumnValue_single (p : Z) :
  scaledColumnValue K table mc data (-1) p 1 = (toDisplay (data p), p + 1, 0).
Proof. reflexivity. Qed.

Lemma scaledColumnValue_averaged (p : Z) :
  toDisplay (data p) <> INVISIBLE ->
  scaledColumnValue K table mc data (-1) p 0 = (averagedRows K table mc data p, p + 1 + 1, 1).
Proof.
  intros Hvis. unfold scaledColumnValue, averagedRows.
  change (-1 =? 0) with false. change (-1 <? -1) with false.
  change (-1 =? -1) with true. change (wrap32 (0 - 1) <? 0) with true. cbv iota.
  destruct (Z.eqb_spec (toDisplay (data p)) INVISIBLE); [contradiction|reflexivity].
Qed.

(** An averaged column whose first sample is mapped to the sentinel keeps the
    sentinel and takes this one sample only. *)
Lemma scaledColumnValue_sentinel (p : Z) :
  toDisplay (data p) = INVISIBLE ->
  scaledColumnValue K table mc data (-1) p 0 = (INVISIBLE, p + 1, 1).
Proof.
  intros Hinv. unfold scaledColumnValue.
  change (-1 =? 0) with false. change (-1 <? -1) with false.
  change (-1 =? -1) with true. change (wrap32 (0 - 1) <? 0) with true. cbv iota.
  rewrite Hinv, Z.eqb_refl. reflexivity.
Qed.

(** Column [i] of a pass at ratio -1, when no averaged column before it
    started on a sentinel: the columns before it took the samples by one and
    by two in turn. *)
Lemma bulkPass_threeToTwo (tTriggerValue aLength : Z) (l : BulkLocals) (i : Z) :
  ScreenBufferWritePointer1 l = 0 ->
  0 <= i < aLength -> (Z.to_nat i < length (trackBuffer l))%nat ->
  (forall j, 0 <= j -> 2 * j + 1 < i ->
     toDisplay (data (tDataBufferPointer l + 3 * j + 1)) <> INVISIBLE) ->
  let l' := bulkPass K table mc dc data aColor aClearBeforeColor DRAW_MODE_REGULAR
              (-1) tTriggerValue aLength l in
  readAt (trackBuffer l') i
  = to_uint8 (scaledColumnValue K table mc data (-1)
                (tDataBufferPointer l + 3 * (i / 2) + i mod 2) (1 - i mod 2)).1.1.
Proof.
  intros Hwp Hi Hilen Hvis l'. subst l'. unfold bulkPass.
  change (-1 <=? 0) with true. change (wrap32 (- -1)) with 1. cbv iota.
  set (p0 := tDataBufferPointer l) in *.
  match goal with
  | |- context [bulkColumns _ _ _ _ _ _ _ _ _ _ _ _ ?l0] => set (start := l0)
  end.
  replace (Z.to_nat aLength) with (Z.to_nat i + S (Z.to_nat (aLength - i - 1)))%nat by lia.
  rewrite bulkColumns_app. cbn [bulkColumns].
  rewrite Z.add_0_l, Z2Nat.id by lia.
  destruct (bulkColumns_read K table mc dc data aColor aClearBeforeColor
              (-1) tTriggerValue i (threeToTwoValue K table mc data p0)
              (fun i l => ScreenBufferWritePointer1 l = i
                          /\ tDataBufferPointer l = p0 + 3 * (i / 2) + i mod 2
                          /\ tXScaleCounter l = 1 - i mod 2))
    with (n := Z.to_nat i) (i := 0) (l := start) as (Hlen & _ & _ & Hinv).
  - intros k l0 Hk (Hw & Hp & Hc).
    destruct (bulkColumn_regular K table mc dc data aColor aClearBeforeColor
                (-1) tTriggerValue k l0) as (Ep & Ec & Ew & Eb).
    split; [exact Hw|]. unfold threeToTwoValue.
    pose proof (Zmod_even k) as Hmod. pose proof (Zmod_even (k + 1)) as Hmod1.
    rewrite Z.even_add in Hmod1. change (Z.even 1) with false in Hmod1.
    destruct (Z.even k) eqn:Heven; simpl in Hmod1.
    + rewrite Hmod in Hp, Hc. rewrite Z.add_0_r in Hp. rewrite Hp, Hc in *.
      change (1 - 0) with 1 in *. rewrite scaledColumnValue_single in Ep, Ec, Eb.
      simpl in Ep, Ec, Eb. split.
      * split; [lia|]. rewrite Hmod1, Ep, Ec. split; [|reflexivity].
        assert ((k + 1) / 2 = k / 2) as -> by (Z.to_euclidean_division_equations; lia).
        reflexivity.
      * rewrite Eb, Hw. reflexivity.
    + rewrite Hmod in Hp, Hc. rewrite Hp, Hc in *. change (1 - 1) with 0 in *.
      assert (Hv : toDisplay (data (p0 + 3 * (k / 2) + 1)) <> INVISIBLE).
      { apply Hvis; Z.to_euclidean_division_equations; lia. }
      rewrite scaledColumnValue_averaged in Ep, Ec, Eb by exact Hv.
      simpl in Ep, Ec, Eb. split.
      * split; [lia|]. rewrite Hmod1, Ep, Ec. split; [|reflexivity].
        assert ((k + 1) / 2 = k / 2 + 1) as -> by (Z.to_euclidean_division_equations; lia).
        lia.
      * rewrite Eb, Hw. reflexivity.
  - lia.
  - lia.
  - subst start p0. simpl.
    change (0 `div` 2) with 0. change (0 `mod` 2) with 0.
    repeat split; try assumption; lia.
  - rewrite Z.add_0_l, Z2Nat.id in Hinv by lia. destruct Hinv as (Hw & Hp & Hc).
    match goal with
    | |- context [bulkColumn _ _ _ _ _ _ _ _ _ _ i ?l0] => set (lmid := l0) in *
    end.
    destruct (bulkColumn_regular K table mc dc data aColor aClearBeforeColor
                (-1) tTriggerValue i lmid) as (_ & _ & Ew & Eb).
    rewrite (bulkColumns_earlier K table mc dc data aColor aClearBeforeColor
               (-1) tTriggerValue (Z.to_nat (aLength - i - 1)) (i + 1)
               (bulkColumn K table mc dc data aColor aClearBeforeColor DRAW_MODE_REGULAR
                  (-1) tTriggerValue i lmid)) by lia.
    rewrite Eb, Hw, Hp, Hc. apply readAt_storeAt_eq; [lia|].
    rewrite Hlen. exact Hilen.
Qed.

End BulkThreeToTwo.

(** C4, as amended.  In a regular bulk pass at ratio -1 the columns alternate
    as long as no averaged column has started on a sample that is mapped to
    the sentinel.  If none of the averaged columns [2 k + 1] with [k < j] has,
    column [2 j] holds the display value of the single sample [3 j], and
    column [2 j + 1] holds the average of the two already mapped rows of the
    samples [3 j + 1] and [3 j + 2] (map each, add, halve), unless the first
    of the two is mapped to the sentinel: then the column holds the
    sentinel. *)
Theorem drawDataBuffer_threeToTwo_averages_rows
    (K : DSOConstants) (table : Z -> Z) (g : Globals) (data : Z -> Z)
    (aDataBufferPointer aLength : Z) (aColor aClearBeforeColor : Color_t)
    (aDrawAlsoMin : bool) (j : Z) :
  let mc := MeasurementControl g in
  let toDisplay := getDisplayFrowRawInputValue K table mc in
  let g' := (drawDataBuffer K table g data aDataBufferPointer aLength aColor
               aClearBeforeColor DRAW_MODE_REGULAR aDrawAlsoMin).1 in
  XScale (DisplayControl g) = -1 ->
  0 <= j ->
  (forall k, 0 <= k < j ->
     toDisplay (data (aDataBufferPointer + 3 * k + 1)) <> DISPLAYBUFFER_INVISIBLE_VALUE K) ->
  (2 * j < aLength -> (Z.to_nat (2 * j) < length (DisplayBuffer g))%nat ->
   readAt (DisplayBuffer g') (2 * j)
   = to_uint8 (toDisplay (data (aDataBufferPointer + 3 * j))))
  /\ (2 * j + 1 < aLength -> (Z.to_nat (2 * j + 1) < length (DisplayBuffer g))%nat ->
      (toDisplay (data (aDataBufferPointer + 3 * j + 1)) <> DISPLAYBUFFER_INVISIBLE_VALUE K ->
       readAt (DisplayBuffer g') (2 * j + 1)
       = to_uint8 (cdiv (wrap32 (toDisplay (data (aDataBufferPointer + 3 * j + 1))
                                 + toDisplay (data (aDataBufferPointer + 3 * j + 2)))) 2))
      /\ (toDisplay (data (aDataBufferPointer + 3 * j + 1)) = DISPLAYBUFFER_INVISIBLE_VALUE K ->
          readAt (DisplayBuffer g') (2 * j + 1)
          = to_uint8 (DISPLAYBUFFER_INVISIBLE_VALUE K))).
Proof.
  intros mc toDisplay g' Hr Hj Hvis. subst g'. unfold drawDataBuffer.
  fold mc. rewrite Hr. cbn match.
  match goal with
  | |- context [bulkPass _ _ _ _ _ _ _ _ _ ?t _ ?l0] =>
      set (trigger := t); set (start := l0)
  end.
  assert (Hbuf : forall i, 0 <= i < aLength -> (Z.to_nat i < length (DisplayBuffer g))%nat ->
            i <= 2 * j + 1 ->
            readAt (trackBuffer
                      (bulkPass K table mc (DisplayControl g) data aColor aClearBeforeColor
                         DRAW_MODE_REGULAR (-1) trigger aLength start)) i
            = to_uint8 (scaledColumnValue K table mc data (-1)
                          (aDataBufferPointer + 3 * (i / 2) + i mod 2) (1 - i mod 2)).1.1).
  { intros i Hi Hilen Hij.
    apply (bulkPass_threeToTwo K table mc (DisplayControl g) data aColor
             aClearBeforeColor trigger aLength start i eq_refl Hi Hilen).
    intros k Hk Hki. apply Hvis. lia. }
  assert (Heven : (2 * j) / 2 = j /\ (2 * j) mod 2 = 0)
    by (Z.to_euclidean_division_equations; lia).
  assert (Hodd : (2 * j + 1) / 2 = j /\ (2 * j + 1) mod 2 = 1)
    by (Z.to_euclidean_division_equations; lia).
  destruct Heven as [He1 He2], Hodd as [Ho1 Ho2].
  split; intros Hlt Hlen.
  - pose proof (Hbuf (2 * j) ltac:(lia) Hlen ltac:(lia)) as Hcol.
    rewrite He1, He2, Z.add_0_r in Hcol. change (1 - 0) with 1 in Hcol.
    rewrite scaledColumnValue_single in Hcol.
    destruct aDrawAlsoMin; cbn [fst DisplayBuffer set_bulkBuffers]; exact Hcol.
  - pose proof (Hbuf (2 * j + 1) ltac:(lia) Hlen ltac:(lia)) as Hcol.
    rewrite Ho1, Ho2 in Hcol. change (1 - 1) with 0 in Hcol.
    split; intros Hfirst.
    + rewrite scaledColumnValue_averaged in Hcol by exact Hfirst.
      unfold averagedRows in Hcol.
      replace (aDataBufferPointer + 3 * j + 1 + 1) with (aDataBufferPointer + 3 * j + 2)
        in Hcol by lia.
      destruct aDrawAlsoMin; cbn [fst DisplayBuffer set_bulkBuffers]; exact Hcol.
    + rewrite scaledColumnValue_sentinel in Hcol by exact Hfirst.
      destruct aDrawAlsoMin; cbn [fst DisplayBuffer set_bulkBuffers]; exact Hcol.
Qed.

Lemma drawDataBuffer_threeToTwo_averages_rows_witness :
  let g := gSample (mcSample false false 0) (-1) (memoryOf []) 0 0 0
             (replicate 320 255) (replicate 320 255) in
  let g' := (drawDataBuffer (K320 false) identityScale g (memoryOf [10; 20; 31]) 0 2 9 0
               DRAW_MODE_REGULAR false).1 in
  let marked := (drawDataBuffer (K320 false) identityScale g
                   (memoryOf [10; 4096; 20; 30; 40; 50; 60]) 0 4 9 0
                   DRAW_MODE_REGULAR false).1 in
  (readAt (DisplayBuffer g') 0 = 229 /\ readAt (DisplayBuffer g') 1 = 213)
  /\ readAt (DisplayBuffer marked) 1 = 255.
Proof.
  intros g g' marked.
  destruct (drawDataBuffer_threeToTwo_averages_rows (K320 false) identityScale g
              (memoryOf [10; 20; 31]) 0 2 9 0 false 0 eq_refl ltac:(lia)) as [H0 H1].
  { intros k Hk. lia. }
  destruct (drawDataBuffer_threeToTwo_averages_rows (K320 false) identityScale g
              (memoryOf [10; 4096; 20; 30; 40; 50; 60]) 0 4 9 0 false 0 eq_refl
              ltac:(lia)) as [_ H1m].
  { intros k Hk. lia. }
  split; [split|].
  - exact (H0 ltac:(lia) ltac:(simpl; lia)).
  - apply (H1 ltac:(lia) ltac:(simpl; lia)). vm_compute. congruence.
  - apply (H1m ltac:(lia) ltac:(simpl; lia)). vm_compute. reflexivity.
Defined.

(** C4 as stated fails: with the samples 20 and 31 the averaged column holds
    213, the average of the rows 219 and 208, while the mapper applied to the
    raw average 25 gives 214. *)
Lemma drawDataBuffer_threeToTwo_not_raw_average :
  let g := gSample (mcSample false false 0) (-1) (memoryOf []) 0 0 0
             (replicate 320 255) (replicate 320 255) in
  let g' := (drawDataBuffer (K320 false) identityScale g (memoryOf [10; 20; 31]) 0 2 9 0
               DRAW_MODE_REGULAR false).1 in
  readAt (DisplayBuffer g') 1 = 213
  /\ getDisplayFrowRawInputValue (K320 false) identityScale (mcSample false false 0)
       (cdiv (20 + 31) 2) = 214
  /\ readAt (DisplayBuffer g') 1
     <> getDisplayFrowRawInputValue (K320 false) identityScale (mcSample false false 0)
          (cdiv (20 + 31) 2).
Proof. intros g g'. repeat split. vm_compute. congruence. Qed.

(** ** The sentinel *)

Section BulkRows.

Variable K : DSOConstants.
Variable table : Z -> Z.
Variable mc : MeasurementControlStruct.
Variable dc : DisplayControlStruct.
Variable data : Z -> Z.
Variables (aColor aClearBeforeColor : Color_t).
Hypothesis Hline : showTriggerInfoLine dc = false.
Hypothesis Hclear : (aClearBeforeColor >? 0) = false.

Local Abbreviation INVISIBLE := (DISPLAYBUFFER_INVISIBLE_VALUE K).
Local Abbreviation noSentinel := (fun c : DrawCall => INVISIBLE ∉ rowsOf c).

Lemma localColumn_rows (i tValue : Z) (l : BulkLocals) :
  forall c,
    c ∈ (localColumn K dc aColor aClearBeforeColor DRAW_MODE_REGULAR i tValue l).2 ->
    noSentinel c.
Proof.
  intros c Hc. unfold localColumn in Hc. cbn [isRegular negb andb] in Hc.
  rewrite Hclear in Hc. cbn [andb] in Hc.
  repeat match type of Hc with
         | context [if ?b then _ else _] => destruct b eqn:?
         end; simpl in Hc; no_sentinel_row.
Qed.

Lemma bulkColumn_rows (tXScale tTriggerValue i : Z) (l : BulkLocals) :
  (forall c, c ∈ bulkOut l -> noSentinel c) ->
  forall c,
    c ∈ bulkOut (bulkColumn K table mc dc data aColor aClearBeforeColor DRAW_MODE_REGULAR
                   tXScale tTriggerValue i l) ->
    noSentinel c.
Proof.
  intros Hold c. unfold bulkColumn. cbn [isRegular].
  destruct (scaledColumnValue K table mc data tXScale (tDataBufferPointer l)
              (tXScaleCounter l)) as [[v p] n].
  unfold triggerStateLine. rewrite Hline.
  pose proof (localColumn_rows i v l) as Hlocal.
  destruct (LOCAL_DISPLAY_EXISTS K).
  - destruct (localColumn K dc aColor aClearBeforeColor DRAW_MODE_REGULAR i v l)
      as [[[gc rp] lc] dr]. simpl in *. intros Hc.
    apply elem_of_app in Hc as [Hc|Hc]; auto.
  - simpl. rewrite app_nil_r. auto.
Qed.

Lemma bulkPass_rows (tXScale tTriggerValue aLength : Z) (l : BulkLocals) :
  (forall c, c ∈ bulkOut l -> noSentinel c) ->
  forall c,
    c ∈ bulkOut (bulkPass K table mc dc data aColor aClearBeforeColor DRAW_MODE_REGULAR
                   tXScale tTriggerValue aLength l) ->
    noSentinel c.
Proof.
  intros Hold. unfold bulkPass.
  match goal with
  | |- context [bulkColumns _ _ _ _ _ _ _ _ _ _ ?n ?i ?l0] =>
      assert (Hstart : forall c, c ∈ bulkOut l0 -> noSentinel c) by exact Hold;
      generalize dependent l0; generalize i; generalize n
  end.
  clear Hold. intros n. induction n as [|n IH]; intros i l0 Hstart; simpl; [exact Hstart|].
  apply IH. apply bulkColumn_rows. exact Hstart.
Qed.

End BulkRows.

Lemma drawDataBuffer_rows (K : DSOConstants) (table : Z -> Z) (g : Globals) (data : Z -> Z)
    (aDataBufferPointer aLength : Z) (aColor : Color_t) (aDrawAlsoMin : bool) :
  showTriggerInfoLine (DisplayControl g) = false ->
  forall c,
    c ∈ (drawDataBuffer K table g data aDataBufferPointer aLength aColor 0
           DRAW_MODE_REGULAR aDrawAlsoMin).2 ->
    DISPLAYBUFFER_INVISIBLE_VALUE K ∉ rowsOf c.
Proof.
  intros Hline c. unfold drawDataBuffer. cbn match.
  match goal with
  | |- context [bulkPass _ _ ?m ?d _ _ _ _ _ ?t _ ?l0] =>
      set (trigger := t); set (start := l0);
      pose proof (bulkPass_rows K table m d data aColor 0 Hline eq_refl
                    (XScale d) trigger aLength start) as Hfirst
  end.
  assert (H1 : forall c, c ∈ bulkOut start -> DISPLAYBUFFER_INVISIBLE_VALUE K ∉ rowsOf c).
  { intros c' Hc'. now apply elem_of_nil in Hc'. }
  specialize (Hfirst H1).
  destruct aDrawAlsoMin; cbn [snd].
  - intros Hc. apply elem_of_app in Hc as [Hc|Hc].
    + revert c Hc. apply (bulkPass_rows K table _ _ data aColor 0 Hline eq_refl).
      intros c' Hc'. cbn [bulkOut startTrack] in Hc'.
      apply elem_of_app in Hc' as [Hc'|Hc']; [now apply Hfirst|].
      apply list_elem_of_singleton in Hc' as ->. apply not_elem_of_nil.
    + apply list_elem_of_singleton in Hc as ->. apply not_elem_of_nil.
  - intros Hc. apply elem_of_app in Hc as [Hc|Hc]; [now apply Hfirst|].
    apply list_elem_of_singleton in Hc as ->. apply not_elem_of_nil.
Qed.

(** C6, as amended.  The no-data marker is mapped to the sentinel.  In the
    incremental renderer, in pixel and in line mode, the new value of a column
    is drawn on neither track when the main track value is the sentinel; every
    call for the main track, clearing or drawing, is free of sentinel rows,
    while the call for the minimum track follows it without a test of its
    own; so with a single track no call of a run has the sentinel as the row
    of a pixel or as an end of a line.  A regular bulk pass without clear
    colour and without trigger state line issues no pixel and no line end at
    the sentinel either, on both tracks. *)
Theorem sentinel_not_drawn
    (K : DSOConstants) (table : Z -> Z) (fv : DataBufferControlStruct -> Z -> Z) :
  constants_ok K ->
  (forall mc,
     getDisplayFrowRawInputValue K table mc (DATABUFFER_INVISIBLE_RAW_VALUE K)
     = DISPLAYBUFFER_INVISIBLE_VALUE K)
  /\ (forall aDrawColor g tDisplayX tValueMin,
        drawNewValue K aDrawColor g tDisplayX (DISPLAYBUFFER_INVISIBLE_VALUE K) tValueMin = [])
  /\ (forall g tDisplayX,
        clearOldValue K g tDisplayX = []
        \/ exists main minimum,
             clearOldValue K g tDisplayX = bothTracks g main minimum
             /\ DISPLAYBUFFER_INVISIBLE_VALUE K ∉ rowsOf main)
  /\ (forall aDrawColor g tDisplayX tValue tValueMin,
        drawNewValue K aDrawColor g tDisplayX tValue tValueMin = []
        \/ exists main minimum,
             drawNewValue K aDrawColor g tDisplayX tValue tValueMin
             = bothTracks g main minimum
             /\ DISPLAYBUFFER_INVISIBLE_VALUE K ∉ rowsOf main)
  /\ (forall acquisition fuel aDrawColor g,
        acquisitionOnly acquisition ->
        (Z.to_nat (DSO_DISPLAY_WIDTH K)
         + Z.to_nat (DATABUFFER_DISPLAY_END K + 1
                     - DataBufferNextDrawPointer (DataBufferControl g)) < fuel)%nat ->
        isEffectiveMinMaxMode (MeasurementControl g) = false ->
        exists ran fin,
          drawRemainingDuringAcquisition K table fv acquisition fuel aDrawColor g
          = Some (ran, fin)
          /\ forall c, c ∈ fin.2 -> DISPLAYBUFFER_INVISIBLE_VALUE K ∉ rowsOf c)
  /\ (forall g data aDataBufferPointer aLength aColor aDrawAlsoMin,
        showTriggerInfoLine (DisplayControl g) = false ->
        forall c,
          c ∈ (drawDataBuffer K table g data aDataBufferPointer aLength aColor 0
                 DRAW_MODE_REGULAR aDrawAlsoMin).2 ->
          DISPLAYBUFFER_INVISIBLE_VALUE K ∉ rowsOf c).
Proof.
  intros HK. split; [|split; [|split; [|split; [|split]]]].
  - intros mc. apply toDisplay_marker.
  - intros. apply drawNewValue_sentinel.
  - intros. apply clearOldValue_main.
  - intros. apply drawNewValue_main.
  - intros acquisition fuel aDrawColor g Hacq Hfuel Hmode.
    assert (HfuelW : (Z.to_nat (DSO_DISPLAY_WIDTH K) < fuel)%nat) by lia.
    unfold drawRemainingDuringAcquisition.
    destruct (run_total K table fv acquisition fuel aDrawColor HK Hacq HfuelW fuel 0%nat
                (g, [])) as [[ran fin] Hrun]; [unfold pointerOf; simpl; lia|].
    exists ran, fin. split; [exact Hrun|].
    apply (run_rows K table fv acquisition fuel aDrawColor HK Hacq HfuelW _ _ _ _ _ Hrun Hmode).
    intros c Hc. now apply elem_of_nil in Hc.
  - intros. eapply drawDataBuffer_rows; eassumption.
Qed.

Lemma sentinel_not_drawn_witness :
  getDisplayFrowRawInputValue (K320 true) identityScale (mcSample true false 0) 4096 = 255
  /\ exists ran fin,
       drawRemainingDuringAcquisition (K320 true) identityScale noFFT (fun _ g => g) 1000 9
         (gAtLastColumn false (memoryOf [4096; 20])) = Some (ran, fin)
       /\ fin.2 = [drawLineFastOneX BlueDisplay1 0 100 100 65535].
Proof.
  destruct (sentinel_not_drawn (K320 true) identityScale noFFT (K320_ok true))
    as (Hmarker & _ & _ & _ & Hrun & _).
  split; [exact (Hmarker (mcSample true false 0))|].
  destruct (Hrun (fun _ g => g) 1000%nat 9 (gAtLastColumn false (memoryOf [4096; 20]))
              sequential_acquisitionOnly ltac:(simpl; lia) eq_refl)
    as (ran & fin & Hsome & _).
  exists ran, fin. split; [exact Hsome|].
  vm_compute in Hsome. injection Hsome as <- <-. reflexivity.
Defined.

(** C6 as stated fails on the minimum track and on the trigger state line.
    In min / max mode the incremental renderer draws the minimum track
    whenever the main track value is visible: here the minimum value of the
    new column is the sentinel 255 and ends a line.  With a local display the
    bulk renderer draws the trigger state pixel of a column whose value is
    the sentinel. *)
Lemma sentinel_drawn_on_minimum_track :
  (exists g' calls,
     drawRemainingDataBufferValues (K320 false) identityScale noFFT 1000 9
       (gSample (mcSample true true 0) 0 markerInMinimum 0 1 4
          (replicate 320 100) (replicate 320 110)) = Some (g', calls)
     /\ readAt (DisplayBufferMin g') 4 = DISPLAYBUFFER_INVISIBLE_VALUE (K320 false)
     /\ drawLineFastOneX BlueDisplay1 3 110 255 9 ∈ calls)
  /\ (let r := drawDataBuffer (K320 true) identityScale gTriggerInfoLine (memoryOf [4096])
                 0 1 9 0 DRAW_MODE_REGULAR false in
      readAt (DisplayBuffer r.1) 0 = DISPLAYBUFFER_INVISIBLE_VALUE (K320 true)
      /\ drawPixel LocalDisplay 0 232 5 ∈ r.2).
Proof.
  split.
  - eexists _, _. split; [vm_compute; reflexivity|]. split; [reflexivity|].
    repeat (apply elem_of_cons; first [left; reflexivity | right]).
  - split; [reflexivity|]. vm_compute.
    repeat (apply elem_of_cons; first [left; reflexivity | right]).
Qed.

(** * Further properties *)

(** ** Conversions *)

(** The display row does not grow with the offset adjusted value. *)
Lemma toDisplay_adjusted_antitone (K : DSOConstants) (table : Z -> Z)
    (mc : MeasurementControlStruct) (raw1 raw2 : Z) :
  constants_ok K ->
  raw1 <> DATABUFFER_INVISIBLE_RAW_VALUE K ->
  raw2 <> DATABUFFER_INVISIBLE_RAW_VALUE K ->
  offsetAdjusted mc raw1 <= offsetAdjusted mc raw2 ->
  0 <= table (DisplayRangeIndex mc) ->
  (0 <= offsetAdjusted mc raw2 ->
   offsetAdjusted mc raw2 * table (DisplayRangeIndex mc) < 2 ^ 31) ->
  getDisplayFrowRawInputValue K table mc raw2 <= getDisplayFrowRawInputValue K table mc raw1.
Proof.
  intros HK H1 H2 Hle Hf Hfit.
  assert (Hz : 0 <= DISPLAY_VALUE_FOR_ZERO K < 2 ^ 8) by (destruct HK; lia).
  assert (Hpow : 0 < 2 ^ DSO_SCALE_FACTOR_SHIFT K)
    by (apply Z.pow_pos_nonneg; destruct HK; lia).
  rewrite !toDisplay_unfold by assumption. cbv zeta.
  set (a1 := offsetAdjusted mc raw1) in *. set (a2 := offsetAdjusted mc raw2) in *.
  destruct (Z.ltb_spec a2 0) as [N2|P2].
  - destruct (Z.ltb_spec a1 0); lia.
  - specialize (Hfit P2).
    assert (Hs2 : 0 <= a2 * table (DisplayRangeIndex mc) < 2 ^ 31) by nia.
    rewrite (scaled_exact K table mc HK a2 Hs2).
    pose proof (Z.div_pos (a2 * table (DisplayRangeIndex mc))
                  (2 ^ DSO_SCALE_FACTOR_SHIFT K) ltac:(lia) Hpow) as Hq2.
    destruct (Z.ltb_spec a1 0) as [N1|P1].
    + destruct (Z.gtb_spec (a2 * table (DisplayRangeIndex mc) / 2 ^ DSO_SCALE_FACTOR_SHIFT K)
                  (DISPLAY_VALUE_FOR_ZERO K)); [lia|].
      rewrite wrap32_small by (unfold int_range; lia). lia.
    + assert (Hs1 : 0 <= a1 * table (DisplayRangeIndex mc) < 2 ^ 31) by nia.
      rewrite (scaled_exact K table mc HK a1 Hs1).
      pose proof (Z.div_pos (a1 * table (DisplayRangeIndex mc))
                    (2 ^ DSO_SCALE_FACTOR_SHIFT K) ltac:(lia) Hpow) as Hq1.
      pose proof (Z.div_le_mono (a1 * table (DisplayRangeIndex mc))
                    (a2 * table (DisplayRangeIndex mc))
                    (2 ^ DSO_SCALE_FACTOR_SHIFT K) Hpow ltac:(nia)) as Hmono.
      destruct (Z.gtb_spec (a2 * table (DisplayRangeIndex mc) / 2 ^ DSO_SCALE_FACTOR_SHIFT K)
                  (DISPLAY_VALUE_FOR_ZERO K));
        destruct (Z.gtb_spec (a1 * table (DisplayRangeIndex mc)
                              / 2 ^ DSO_SCALE_FACTOR_SHIFT K)
                    (DISPLAY_VALUE_FOR_ZERO K));
        rewrite ?wrap32_small by (unfold int_range; lia); lia.
Qed.

(** X1.  Larger raw values are displayed higher on the screen: for two raw
    samples other than the marker, in one measurement state with a scale
    factor that is not negative, the row of the larger sample is at most the
    row of the smaller one, provided the offsets are taken off without
    wrap-around and the scaling of the larger sample fits 32 bits. *)
Theorem getDisplayFrowRawInputValue_antitone
    (K : DSOConstants) (table : Z -> Z) (mc : MeasurementControlStruct) (raw1 raw2 : Z) :
  constants_ok K ->
  raw1 <> DATABUFFER_INVISIBLE_RAW_VALUE K ->
  raw2 <> DATABUFFER_INVISIBLE_RAW_VALUE K ->
  int_range (raw1 - totalOffset mc) ->
  int_range (raw2 - totalOffset mc) ->
  0 <= table (DisplayRangeIndex mc) ->
  (raw2 - totalOffset mc) * table (DisplayRangeIndex mc) < 2 ^ 31 ->
  raw1 <= raw2 ->
  getDisplayFrowRawInputValue K table mc raw2 <= getDisplayFrowRawInputValue K table mc raw1.
Proof.
  intros HK H1 H2 R1 R2 Hf Hfit Hle.
  apply toDisplay_adjusted_antitone; try assumption.
  - rewrite !offsetAdjusted_exact by assumption. lia.
  - intros _. now rewrite offsetAdjusted_exact.
Qed.

Lemma getDisplayFrowRawInputValue_antitone_witness :
  getDisplayFrowRawInputValue (K320 false) range3Scale (mcSample false false 100) 400
  <= getDisplayFrowRawInputValue (K320 false) range3Scale (mcSample false false 100) 150.
Proof.
  apply (getDisplayFrowRawInputValue_antitone (K320 false) range3Scale
           (mcSample false false 100) 150 400 (K320_ok false));
    unfold int_range, totalOffset, range3Scale; simpl; lia.
Defined.

Lemma toRaw_exact (K : DSOConstants) (table : Z -> Z) (mc : MeasurementControlStruct)
    (d : Z) :
  constants_ok K ->
  0 < table (DisplayRangeIndex mc) ->
  0 <= DISPLAY_VALUE_FOR_ZERO K - d ->
  (DISPLAY_VALUE_FOR_ZERO K - d) * 2 ^ DSO_SCALE_FACTOR_SHIFT K < 2 ^ 31 ->
  int_range (totalOffset mc) ->
  int_range (totalOffset mc
             + (DISPLAY_VALUE_FOR_ZERO K - d) * 2 ^ DSO_SCALE_FACTOR_SHIFT K
               / table (DisplayRangeIndex mc)) ->
  getInputRawFromDisplayValue K table mc d
  = (DISPLAY_VALUE_FOR_ZERO K - d) * 2 ^ DSO_SCALE_FACTOR_SHIFT K
    / table (DisplayRangeIndex mc) + totalOffset mc.
Proof.
  intros HK Hf Hs Hfit Hoff Hsum.
  assert (Hsh : 0 <= DSO_SCALE_FACTOR_SHIFT K) by (destruct HK; lia).
  assert (Hpow : 0 < 2 ^ DSO_SCALE_FACTOR_SHIFT K) by (apply Z.pow_pos_nonneg; lia).
  set (s := DISPLAY_VALUE_FOR_ZERO K - d) in *.
  set (f := table (DisplayRangeIndex mc)) in *.
  set (q := s * 2 ^ DSO_SCALE_FACTOR_SHIFT K / f) in *.
  assert (Hq : 0 <= q) by (apply Z.div_pos; nia).
  assert (Hqs : q <= s * 2 ^ DSO_SCALE_FACTOR_SHIFT K).
  { apply Z.div_le_upper_bound; [lia|]. nia. }
  unfold getInputRawFromDisplayValue. fold s f.
  rewrite (wrap32_small s) by (unfold int_range; nia).
  rewrite Z.shiftl_mul_pow2 by lia.
  rewrite (wrap32_small (s * _)) by (unfold int_range; nia).
  unfold cdiv. rewrite Z.quot_div_nonneg by nia. fold q.
  rewrite (wrap32_small q) by (unfold int_range; lia).
  unfold totalOffset, int_range in *. destruct (ChannelIsACMode mc).
  - rewrite wrap32_add_l. rewrite wrap32_small by (unfold int_range; lia). lia.
  - rewrite wrap32_small by (unfold int_range; lia). lia.
Qed.

(** X2.  Row to raw to row: for a row [d] in [0, DISPLAY_VALUE_FOR_ZERO], a
    positive scale factor and no wrap-around, the raw value
    [getInputRawFromDisplayValue d], provided it is not the no-data marker,
    is mapped back to a row that is not above [d] on the screen and misses
    [d] by less than [factor / 2 ^ shift + 1] rows; when the factor is at
    most [2 ^ shift] the result is [d] or [d + 1].  If the raw value is the
    no-data marker, the offsets having put it there, it is mapped to the
    sentinel, which is no row. *)
Theorem getDisplayFrowRawInputValue_of_getInputRawFromDisplayValue
    (K : DSOConstants) (table : Z -> Z) (mc : MeasurementControlStruct) (d : Z) :
  constants_ok K ->
  let factor := table (DisplayRangeIndex mc) in
  let back := getInputRawFromDisplayValue K table mc d in
  let d' := getDisplayFrowRawInputValue K table mc back in
  0 < factor ->
  0 <= d <= DISPLAY_VALUE_FOR_ZERO K ->
  (DISPLAY_VALUE_FOR_ZERO K - d) * 2 ^ DSO_SCALE_FACTOR_SHIFT K < 2 ^ 31 ->
  int_range (totalOffset mc) ->
  int_range (totalOffset mc
             + (DISPLAY_VALUE_FOR_ZERO K - d) * 2 ^ DSO_SCALE_FACTOR_SHIFT K / factor) ->
  (back <> DATABUFFER_INVISIBLE_RAW_VALUE K ->
   d <= d' <= DISPLAY_VALUE_FOR_ZERO K
   /\ (d' - d) * 2 ^ DSO_SCALE_FACTOR_SHIFT K < factor + 2 ^ DSO_SCALE_FACTOR_SHIFT K
   /\ (factor <= 2 ^ DSO_SCALE_FACTOR_SHIFT K -> d' <= d + 1))
  /\ (back = DATABUFFER_INVISIBLE_RAW_VALUE K -> d' = DISPLAYBUFFER_INVISIBLE_VALUE K).
Proof.
  intros HK factor back d' Hf Hd Hfit Hoff Hsum.
  split; [intros Hmark|].
  2: { intros Hmark. unfold d'. rewrite Hmark. unfold getDisplayFrowRawInputValue.
       now rewrite Z.eqb_refl. }
  assert (Hsh : 0 <= DSO_SCALE_FACTOR_SHIFT K) by (destruct HK; lia).
  assert (Hpow : 0 < 2 ^ DSO_SCALE_FACTOR_SHIFT K) by (apply Z.pow_pos_nonneg; lia).
  assert (Hz : 0 <= DISPLAY_VALUE_FOR_ZERO K < 2 ^ 8) by (destruct HK; lia).
  assert (Hback : back = (DISPLAY_VALUE_FOR_ZERO K - d) * 2 ^ DSO_SCALE_FACTOR_SHIFT K
                         / factor + totalOffset mc)
    by (apply toRaw_exact; try assumption; lia).
  set (s := DISPLAY_VALUE_FOR_ZERO K - d) in *.
  set (q := s * 2 ^ DSO_SCALE_FACTOR_SHIFT K / factor) in *.
  assert (Hq : 0 <= q) by (apply Z.div_pos; nia).
  pose proof (Z.div_mod (s * 2 ^ DSO_SCALE_FACTOR_SHIFT K) factor ltac:(lia)) as Hdq.
  pose proof (Z.mod_pos_bound (s * 2 ^ DSO_SCALE_FACTOR_SHIFT K) factor Hf) as Hrq.
  fold q in Hdq.
  assert (Hqf : 0 <= q * factor < 2 ^ 31) by nia.
  assert (Hadj : offsetAdjusted mc back = q).
  { rewrite offsetAdjusted_exact; rewrite Hback.
    - lia.
    - replace (q + totalOffset mc - totalOffset mc) with q by lia.
      unfold int_range. nia. }
  set (s' := q * factor / 2 ^ DSO_SCALE_FACTOR_SHIFT K).
  pose proof (Z.div_mod (q * factor) (2 ^ DSO_SCALE_FACTOR_SHIFT K) ltac:(lia)) as Hds.
  pose proof (Z.mod_pos_bound (q * factor) (2 ^ DSO_SCALE_FACTOR_SHIFT K) Hpow) as Hrs.
  fold s' in Hds.
  assert (Hs' : 0 <= s' <= s) by (split; [apply Z.div_pos; lia | nia]).
  assert (Hd' : d' = DISPLAY_VALUE_FOR_ZERO K - s').
  { unfold d'. rewrite toDisplay_unfold by assumption. cbv zeta. rewrite Hadj.
    destruct (Z.ltb_spec q 0); [lia|].
    rewrite (scaled_exact K table mc HK q Hqf). fold factor. fold s'.
    destruct (Z.gtb_spec s' (DISPLAY_VALUE_FOR_ZERO K)); [lia|].
    apply wrap32_small. unfold int_range. lia. }
  rewrite Hd'. subst s. split; [lia|]. split; [nia|]. intros Hsmall. nia.
Qed.

Lemma getDisplayFrowRawInputValue_of_getInputRawFromDisplayValue_witness :
  let mc := mcSample false false 100 in
  let high := mcSample false false 3996 in
  (getInputRawFromDisplayValue (K320 false) range3Scale mc 169 = 397
   /\ 169 <= getDisplayFrowRawInputValue (K320 false) range3Scale mc 397 <= 170)
  /\ (getInputRawFromDisplayValue (K320 false) identityScale high 139 = 4096
      /\ getDisplayFrowRawInputValue (K320 false) identityScale high 4096 = 255).
Proof.
  intros mc high. split.
  - destruct (getDisplayFrowRawInputValue_of_getInputRawFromDisplayValue (K320 false)
                range3Scale mc 169 (K320_ok false)) as [Hrow _];
      try (unfold int_range, totalOffset, range3Scale; simpl; lia).
    + vm_compute. split; congruence.
    + destruct Hrow as (Hlow & _ & Hone); [vm_compute; congruence|].
      split; [reflexivity|].
      change (getInputRawFromDisplayValue (K320 false) range3Scale mc 169)
        with 397 in Hlow, Hone.
      specialize (Hone ltac:(unfold range3Scale; simpl; lia)). lia.
  - destruct (getDisplayFrowRawInputValue_of_getInputRawFromDisplayValue (K320 false)
                identityScale high 139 (K320_ok false)) as [_ Hmarker];
      try (unfold int_range, totalOffset, identityScale; simpl; lia).
    + vm_compute. split; congruence.
    + split; [reflexivity|]. exact (Hmarker eq_refl).
Defined.

(** X3.  [getInputRawFromDisplayValue] turns the screen upside down and puts
    the zero row on the offsets: for rows [d1 <= d2] up to
    [DISPLAY_VALUE_FOR_ZERO], a positive scale factor and no wrap-around, the
    raw value of the lower row [d2] is at most that of [d1], and the raw value
    of [DISPLAY_VALUE_FOR_ZERO] is the AC zero reading (in AC mode) plus the
    range offset. *)
Theorem getInputRawFromDisplayValue_antitone
    (K : DSOConstants) (table : Z -> Z) (mc : MeasurementControlStruct) (d1 d2 : Z) :
  constants_ok K ->
  let factor := table (DisplayRangeIndex mc) in
  0 < factor ->
  d1 <= d2 <= DISPLAY_VALUE_FOR_ZERO K ->
  (DISPLAY_VALUE_FOR_ZERO K - d1) * 2 ^ DSO_SCALE_FACTOR_SHIFT K < 2 ^ 31 ->
  int_range (totalOffset mc) ->
  int_range (totalOffset mc
             + (DISPLAY_VALUE_FOR_ZERO K - d1) * 2 ^ DSO_SCALE_FACTOR_SHIFT K / factor) ->
  totalOffset mc <= getInputRawFromDisplayValue K table mc d2
                 <= getInputRawFromDisplayValue K table mc d1
  /\ getInputRawFromDisplayValue K table mc (DISPLAY_VALUE_FOR_ZERO K) = totalOffset mc.
Proof.
  intros HK factor Hf Hd Hfit Hoff Hsum. subst factor.
  assert (Hsh : 0 <= DSO_SCALE_FACTOR_SHIFT K) by (destruct HK; lia).
  assert (Hpow : 0 < 2 ^ DSO_SCALE_FACTOR_SHIFT K) by (apply Z.pow_pos_nonneg; lia).
  pose proof (Z.div_le_mono ((DISPLAY_VALUE_FOR_ZERO K - d2) * 2 ^ DSO_SCALE_FACTOR_SHIFT K)
                ((DISPLAY_VALUE_FOR_ZERO K - d1) * 2 ^ DSO_SCALE_FACTOR_SHIFT K)
                (table (DisplayRangeIndex mc)) Hf ltac:(nia)) as Hmono.
  pose proof (Z.div_pos ((DISPLAY_VALUE_FOR_ZERO K - d2) * 2 ^ DSO_SCALE_FACTOR_SHIFT K)
                (table (DisplayRangeIndex mc)) ltac:(nia) Hf) as Hpos.
  unfold int_range in *.
  rewrite (toRaw_exact K table mc d1) by (try assumption; unfold int_range; lia).
  rewrite (toRaw_exact K table mc d2) by (try assumption; unfold int_range; try lia; nia).
  rewrite (toRaw_exact K table mc (DISPLAY_VALUE_FOR_ZERO K));
    rewrite ?Z.sub_diag, ?Z.mul_0_l, ?Z.div_0_l by lia;
    try assumption; unfold int_range; try lia.
Qed.

Lemma getInputRawFromDisplayValue_antitone_witness :
  let mc := mcSample false false 100 in
  100 <= getInputRawFromDisplayValue (K320 false) range3Scale mc 200
      <= getInputRawFromDisplayValue (K320 false) range3Scale mc 169
  /\ getInputRawFromDisplayValue (K320 false) range3Scale mc 239 = 100.
Proof.
  intros mc.
  apply (getInputRawFromDisplayValue_antitone (K320 false) range3Scale mc 169 200
           (K320_ok false));
    try (unfold int_range, totalOffset, range3Scale; simpl; lia).
  vm_compute. split; congruence.
Defined.

(** X4.  The raw value of [n] grid divisions lands on the [n]-th grid line:
    for a positive scale factor, [n >= 0] and no wrap-around,
    [getRawOffsetValueFromGridCount n] is [n * HORIZONTAL_GRID_HEIGHT << shift]
    divided by the factor, and scaling it back gives at most
    [n * HORIZONTAL_GRID_HEIGHT] rows and misses them by less than
    [factor / 2 ^ shift + 1], that is by at most one row when the factor is
    at most [2 ^ shift]. *)
Theorem getRawOffsetValueFromGridCount_on_grid
    (K : DSOConstants) (table : Z -> Z) (mc : MeasurementControlStruct) (n : Z) :
  constants_ok K ->
  let factor := table (DisplayRangeIndex mc) in
  let rows := n * HORIZONTAL_GRID_HEIGHT K in
  let raw := getRawOffsetValueFromGridCount K table mc n in
  0 < factor ->
  0 <= rows ->
  rows * 2 ^ DSO_SCALE_FACTOR_SHIFT K < 2 ^ 31 ->
  raw = rows * 2 ^ DSO_SCALE_FACTOR_SHIFT K / factor
  /\ 0 <= scaledValue K table mc raw <= rows
  /\ (rows - scaledValue K table mc raw) * 2 ^ DSO_SCALE_FACTOR_SHIFT K
     < factor + 2 ^ DSO_SCALE_FACTOR_SHIFT K
  /\ (factor <= 2 ^ DSO_SCALE_FACTOR_SHIFT K -> rows - 1 <= scaledValue K table mc raw).
Proof.
  intros HK factor rows raw Hf Hrows Hfit.
  assert (Hsh : 0 <= DSO_SCALE_FACTOR_SHIFT K) by (destruct HK; lia).
  assert (Hpow : 0 < 2 ^ DSO_SCALE_FACTOR_SHIFT K) by (apply Z.pow_pos_nonneg; lia).
  set (q := rows * 2 ^ DSO_SCALE_FACTOR_SHIFT K / factor).
  pose proof (Z.div_mod (rows * 2 ^ DSO_SCALE_FACTOR_SHIFT K) factor ltac:(lia)) as Hdq.
  pose proof (Z.mod_pos_bound (rows * 2 ^ DSO_SCALE_FACTOR_SHIFT K) factor Hf) as Hrq.
  fold q in Hdq.
  assert (Hq : 0 <= q) by (apply Z.div_pos; nia).
  assert (Hraw : raw = q).
  { unfold raw, getRawOffsetValueFromGridCount. fold rows. fold factor.
    rewrite (wrap32_small rows) by (unfold int_range; nia).
    rewrite Z.shiftl_mul_pow2 by lia.
    rewrite (wrap32_small (rows * _)) by (unfold int_range; nia).
    unfold cdiv. rewrite Z.quot_div_nonneg by nia. fold q.
    apply wrap32_small. unfold int_range. nia. }
  rewrite Hraw. split; [reflexivity|].
  assert (Hqf : 0 <= q * factor < 2 ^ 31) by nia.
  rewrite (scaled_exact K table mc HK q Hqf). fold factor.
  pose proof (Z.div_mod (q * factor) (2 ^ DSO_SCALE_FACTOR_SHIFT K) ltac:(lia)) as Hds.
  pose proof (Z.mod_pos_bound (q * factor) (2 ^ DSO_SCALE_FACTOR_SHIFT K) Hpow) as Hrs.
  set (s := q * factor / 2 ^ DSO_SCALE_FACTOR_SHIFT K) in *.
  assert (Hs : 0 <= s) by (apply Z.div_pos; lia).
  split; [split; [lia|nia]|]. split; [nia|]. intros Hsmall. nia.
Qed.

Lemma getRawOffsetValueFromGridCount_on_grid_witness :
  let mc := mcSample false false 100 in
  getRawOffsetValueFromGridCount (K320 false) range3Scale mc 3 = 408
  /\ 95 <= scaledValue (K320 false) range3Scale mc 408 <= 96.
Proof.
  intros mc.
  destruct (getRawOffsetValueFromGridCount_on_grid (K320 false) range3Scale mc 3
              (K320_ok false)) as (Hraw & Hup & _ & Hlow);
    try (unfold range3Scale; simpl; lia).
  split; [reflexivity|].
  change (getRawOffsetValueFromGridCount (K320 false) range3Scale mc 3) with 408 in Hup, Hlow.
  specialize (Hlow ltac:(unfold range3Scale; simpl; lia)). simpl in Hup, Hlow. lia.
Defined.

(** ** Averaging *)

Lemma rawSum_between (data : Z -> Z) (lo hi : Z) (n : nat) :
  forall p,
    (forall k, p <= k < p + Z.of_nat n -> lo <= data k <= hi) ->
    Z.of_nat n * lo <= rawSum data p n <= Z.of_nat n * hi.
Proof.
  induction n as [|n IH]; intros p Hdata; simpl rawSum; [lia|].
  specialize (IH (p + 1) ltac:(intros k Hk; apply Hdata; lia)).
  specialize (Hdata p ltac:(lia)). lia.
Qed.

(** X5.  The display value of several raw values is the display value of a
    raw value between the smallest and the largest of them: for [aCount]
    samples, [0 < aCount <= 2 ^ 15], that all lie in [lo, hi] within the
    16 bit range, [getDisplayFrowMultipleRawValues] returns the mapper applied
    to some value in [lo, hi]; for equal samples, to that sample. *)
Theorem getDisplayFrowMultipleRawValues_between
    (K : DSOConstants) (table : Z -> Z) (mc : MeasurementControlStruct)
    (data : Z -> Z) (aAdcValuePtr aCount lo hi : Z) :
  0 < aCount <= 2 ^ 15 ->
  0 <= lo -> hi < 2 ^ 16 ->
  (forall k, aAdcValuePtr <= k < aAdcValuePtr + aCount -> lo <= data k <= hi) ->
  (exists average,
     lo <= average <= hi
     /\ getDisplayFrowMultipleRawValues K table mc data aAdcValuePtr aCount
        = getDisplayFrowRawInputValue K table mc average)
  /\ (lo = hi ->
      getDisplayFrowMultipleRawValues K table mc data aAdcValuePtr aCount
      = getDisplayFrowRawInputValue K table mc lo).
Proof.
  intros Hn Hlo Hhi Hdata.
  pose proof (rawSum_between data lo hi (Z.to_nat aCount) aAdcValuePtr) as Hsum.
  rewrite Z2Nat.id in Hsum by lia. specialize (Hsum Hdata).
  assert (Havg : rawAverage data aAdcValuePtr aCount
                 = rawSum data aAdcValuePtr (Z.to_nat aCount) / aCount).
  { unfold rawAverage, cdiv.
    rewrite (wrap32_small (rawSum _ _ _)) by (unfold int_range; nia).
    rewrite Z.quot_div_nonneg by nia.
    apply wrap32_small. unfold int_range.
    pose proof (Z.div_pos (rawSum data aAdcValuePtr (Z.to_nat aCount)) aCount
                  ltac:(nia) ltac:(lia)).
    pose proof (Z.div_le_upper_bound (rawSum data aAdcValuePtr (Z.to_nat aCount)) aCount
                  (2 ^ 16) ltac:(lia) ltac:(nia)). lia. }
  assert (Hbetween : lo <= rawAverage data aAdcValuePtr aCount <= hi).
  { rewrite Havg. split.
    - apply Z.div_le_lower_bound; lia.
    - apply Z.div_le_upper_bound; lia. }
  rewrite getDisplayFrowMultipleRawValues_average. split.
  - exists (rawAverage data aAdcValuePtr aCount). split; [exact Hbetween|reflexivity].
  - intros Heq. f_equal. lia.
Qed.

Lemma getDisplayFrowMultipleRawValues_between_witness :
  exists average,
    10 <= average <= 20
    /\ getDisplayFrowMultipleRawValues (K320 false) identityScale (mcSample false false 0)
         (memoryOf [10; 20; 15]) 0 3
       = getDisplayFrowRawInputValue (K320 false) identityScale (mcSample false false 0)
           average.
Proof.
  apply (getDisplayFrowMultipleRawValues_between (K320 false) identityScale
           (mcSample false false 0) (memoryOf [10; 20; 15]) 0 3 10 20); try lia.
  intros k Hk.
  assert (Hk3 : k = 0 \/ k = 1 \/ k = 2) by lia.
  destruct Hk3 as [-> | [-> | ->]]; vm_compute; split; congruence.
Defined.

(** ** The bulk renderer at the other ratios *)

Lemma div_mod_succ (a r : Z) :
  0 < r -> 0 <= a ->
  (a mod r = r - 1 -> (a + 1) / r = a / r + 1 /\ (a + 1) mod r = 0)
  /\ (a mod r <> r - 1 -> (a + 1) / r = a / r /\ (a + 1) mod r = a mod r + 1).
Proof.
  intros Hr Ha.
  pose proof (Z.div_mod a r ltac:(lia)) as Hdm.
  pose proof (Z.mod_pos_bound a r Hr) as Hb.
  split; intros Hm.
  - assert (H1 : a + 1 = r * (a / r + 1) + 0) by nia.
    split; [symmetry; eapply Z.div_unique_pos | symmetry; eapply Z.mod_unique_pos];
      try exact H1; lia.
  - assert (H1 : a + 1 = r * (a / r) + (a mod r + 1)) by nia.
    split; [symmetry; eapply Z.div_unique_pos | symmetry; eapply Z.mod_unique_pos];
      try exact H1; lia.
Qed.

(** The main track of a regular [drawDataBuffer] is the track buffer of the
    first turn of the [do] loop. *)
Lemma drawDataBuffer_main_track (K : DSOConstants) (table : Z -> Z) (g : Globals)
    (data : Z -> Z) (aDataBufferPointer aLength : Z) (aColor aClearBeforeColor : Color_t)
    (aDrawAlsoMin : bool) :
  DisplayBuffer (drawDataBuffer K table g data aDataBufferPointer aLength aColor
                   aClearBeforeColor DRAW_MODE_REGULAR aDrawAlsoMin).1
  = trackBuffer
      (bulkPass K table (MeasurementControl g) (DisplayControl g) data aColor
         aClearBeforeColor DRAW_MODE_REGULAR (XScale (DisplayControl g))
         (getDisplayFrowRawInputValue K table (MeasurementControl g)
            (RawTriggerLevel (MeasurementControl g)))
         aLength (firstTrackStart g aDataBufferPointer DRAW_MODE_REGULAR)).
Proof. unfold drawDataBuffer. destruct aDrawAlsoMin; reflexivity. Qed.

Section BulkExpand.

Variable K : DSOConstants.
Variable table : Z -> Z.
Variable mc : MeasurementControlStruct.
Variable dc : DisplayControlStruct.
Variable data : Z -> Z.
Variables (aColor aClearBeforeColor : Color_t).

Local Abbreviation toDisplay := (getDisplayFrowRawInputValue K table mc).
Local Abbreviation pass :=
  (bulkPass K table mc dc data aColor aClearBeforeColor DRAW_MODE_REGULAR).

Lemma bulkPass_identity (tTriggerValue aLength : Z) (l : BulkLocals) :
  ScreenBufferWritePointer1 l = 0 ->
  forall i, 0 <= i < aLength -> (Z.to_nat i < length (trackBuffer l))%nat ->
    readAt (trackBuffer (pass 0 tTriggerValue aLength l)) i
    = to_uint8 (toDisplay (data (tDataBufferPointer l + i))).
Proof.
  intros Hwp. unfold bulkPass. change (0 <=? 0) with true. cbv iota.
  set (p0 := tDataBufferPointer l).
  match goal with
  | |- context [bulkColumns _ _ _ _ _ _ _ _ _ _ _ _ ?l0] => set (start := l0)
  end.
  destruct (bulkColumns_read K table mc dc data aColor aClearBeforeColor
              0 tTriggerValue (Z.max 0 aLength)
              (fun i => toDisplay (data (p0 + i)))
              (fun i l => ScreenBufferWritePointer1 l = i /\ tDataBufferPointer l = p0 + i))
    with (n := Z.to_nat aLength) (i := 0) (l := start) as (_ & _ & Hnew & _).
  - intros i l0 Hi (Hw & Hp).
    destruct (bulkColumn_regular K table mc dc data aColor aClearBeforeColor
                0 tTriggerValue i l0) as (Ep & _ & Ew & Eb).
    unfold scaledColumnValue in Ep, Eb. change (0 =? 0) with true in Ep, Eb.
    simpl in Ep, Eb. split; [exact Hw|]. split.
    + split; lia.
    + rewrite Eb, Hw, Hp. reflexivity.
  - lia.
  - lia.
  - subst start p0. simpl. split; [assumption|lia].
  - intros i Hi Hilen. apply Hnew; [lia|exact Hilen].
Qed.

Lemma scaledColumnValue_repeat (r p c : Z) :
  1 < r < 2 ^ 31 -> 0 <= c <= r ->
  scaledColumnValue K table mc data r p c
  = (toDisplay (data p), (if c =? 0 then p + 1 else p), (if c =? 0 then r - 1 else c - 1)).
Proof.
  intros Hr Hc. unfold scaledColumnValue.
  destruct (Z.eqb_spec r 0); [lia|]. destruct (Z.ltb_spec r (-1)); [lia|].
  destruct (Z.eqb_spec r (-1)); [lia|]. destruct (Z.eqb_spec r 1); [lia|].
  destruct (Z.eqb_spec c 0); rewrite wrap32_small by (unfold int_range; lia); reflexivity.
Qed.

Lemma bulkPass_repeat (r tTriggerValue aLength : Z) (l : BulkLocals) :
  1 < r < 2 ^ 31 ->
  ScreenBufferWritePointer1 l = 0 ->
  tXScaleCounter l = r ->
  forall i, 0 <= i < aLength -> (Z.to_nat i < length (trackBuffer l))%nat ->
    readAt (trackBuffer (pass r tTriggerValue aLength l)) i
    = to_uint8 (toDisplay (data (tDataBufferPointer l + repeatedSample r i))).
Proof.
  intros Hr Hwp Hcount. unfold bulkPass.
  destruct (Z.leb_spec r 0); [lia|].
  set (p0 := tDataBufferPointer l).
  match goal with
  | |- context [bulkColumns _ _ _ _ _ _ _ _ _ _ _ _ ?l0] => set (start := l0)
  end.
  destruct (bulkColumns_read K table mc dc data aColor aClearBeforeColor
              r tTriggerValue (Z.max 0 aLength)
              (fun i => toDisplay (data (p0 + repeatedSample r i)))
              (fun i l => ScreenBufferWritePointer1 l = i
                          /\ tDataBufferPointer l = p0 + repeatedSample r i
                          /\ tXScaleCounter l
                             = if i =? 0 then r else r - 1 - (i - 1) mod r))
    with (n := Z.to_nat aLength) (i := 0) (l := start) as (_ & _ & Hnew & _).
  - intros i l0 Hi (Hw & Hp & Hc).
    destruct (bulkColumn_regular K table mc dc data aColor aClearBeforeColor
                r tTriggerValue i l0) as (Ep & Ec & Ew & Eb).
    assert (Hcr : 0 <= tXScaleCounter l0 <= r).
    { rewrite Hc. destruct (Z.eqb_spec i 0); [lia|].
      pose proof (Z.mod_pos_bound (i - 1) r ltac:(lia)). lia. }
    rewrite scaledColumnValue_repeat in Ep, Ec, Eb by assumption.
    simpl in Ep, Ec, Eb. split; [exact Hw|]. split.
    + split; [lia|]. rewrite Ep, Ec, Hp, Hc. unfold repeatedSample.
      destruct (Z.eqb_spec (i + 1) 0); [lia|].
      replace (i + 1 - 1) with i by lia.
      destruct (Z.eqb_spec i 0) as [->|Hi0].
      * change (0 =? 0) with true. cbv iota.
        destruct (Z.eqb_spec r 0); [lia|].
        change (Z.max 0 (0 - 1)) with 0. change (Z.max 0 0) with 0.
        rewrite ?Z.div_0_l, ?Z.mod_0_l by lia. split; lia.
      * rewrite !Z.max_r by lia.
        destruct (div_mod_succ (i - 1) r ltac:(lia) ltac:(lia)) as [Hlast Hmid].
        replace (i - 1 + 1) with i in Hlast, Hmid by lia.
        destruct (Z.eqb_spec (r - 1 - (i - 1) mod r) 0) as [E|E].
        -- destruct (Hlast ltac:(lia)) as [-> ->]. split; lia.
        -- destruct (Hmid ltac:(lia)) as [-> ->]. split; lia.
    + rewrite Eb, Hw, Hp. reflexivity.
  - lia.
  - lia.
  - subst start p0. simpl. unfold repeatedSample. simpl.
    rewrite Z.div_0_l by lia. repeat split; try assumption; lia.
  - intros i Hi Hilen. apply Hnew; [lia|exact Hilen].
Qed.

Lemma scaledColumnValue_expand (p c : Z) :
  0 <= c <= 2 ->
  scaledColumnValue K table mc data 1 p c
  = (toDisplay (data p), (if c =? 0 then p else p + 1), (if c =? 0 then 2 else c - 1)).
Proof.
  intros Hc. unfold scaledColumnValue.
  change (1 =? 0) with false. change (1 <? -1) with false.
  change (1 =? -1) with false. change (1 =? 1) with true. cbv iota.
  rewrite wrap32_small by (unfold int_range; lia).
  destruct (Z.eqb_spec c 0) as [->|Hc0].
  - change (0 - 1 <? 0) with true. cbv iota. do 2 f_equal. lia.
  - destruct (Z.ltb_spec (c - 1) 0); [lia|]. reflexivity.
Qed.

Lemma bulkPass_expand (tTriggerValue aLength : Z) (l : BulkLocals) :
  ScreenBufferWritePointer1 l = 0 ->
  tXScaleCounter l = 1 ->
  forall i, 0 <= i < aLength -> (Z.to_nat i < length (trackBuffer l))%nat ->
    readAt (trackBuffer (pass 1 tTriggerValue aLength l)) i
    = to_uint8 (toDisplay (data (tDataBufferPointer l + (2 * i + 1) / 3))).
Proof.
  intros Hwp Hcount. unfold bulkPass. change (1 <=? 0) with false. cbv iota.
  set (p0 := tDataBufferPointer l).
  match goal with
  | |- context [bulkColumns _ _ _ _ _ _ _ _ _ _ _ _ ?l0] => set (start := l0)
  end.
  destruct (bulkColumns_read K table mc dc data aColor aClearBeforeColor
              1 tTriggerValue (Z.max 0 aLength)
              (fun i => toDisplay (data (p0 + (2 * i + 1) / 3)))
              (fun i l => ScreenBufferWritePointer1 l = i
                          /\ tDataBufferPointer l = p0 + (2 * i + 1) / 3
                          /\ tXScaleCounter l = (1 - i) mod 3))
    with (n := Z.to_nat aLength) (i := 0) (l := start) as (_ & _ & Hnew & _).
  - intros i l0 Hi (Hw & Hp & Hc).
    destruct (bulkColumn_regular K table mc dc data aColor aClearBeforeColor
                1 tTriggerValue i l0) as (Ep & Ec & Ew & Eb).
    assert (Hcr : 0 <= tXScaleCounter l0 <= 2).
    { rewrite Hc. pose proof (Z.mod_pos_bound (1 - i) 3 ltac:(lia)). lia. }
    rewrite scaledColumnValue_expand in Ep, Ec, Eb by assumption.
    simpl in Ep, Ec, Eb. split; [exact Hw|]. split.
    + split; [lia|]. rewrite Ep, Ec, Hp.
      destruct (Z.eqb_spec (tXScaleCounter l0) 0) as [E|E]; rewrite Hc in *;
        split; Z.to_euclidean_division_equations; lia.
    + rewrite Eb, Hw, Hp. reflexivity.
  - lia.
  - lia.
  - subst start p0. simpl. repeat split; try assumption.
    + change ((2 * 0 + 1) / 3) with 0. lia.
  - intros i Hi Hilen. apply Hnew; [lia|exact Hilen].
Qed.

End BulkExpand.

(** X6.  At the ratio 0 a regular bulk pass shows one sample per column:
    column [i] of the main track holds, as a byte, the mapper applied to the
    sample [i] places after the start, and with the minimum track requested
    column [i] of that track holds the same for the sample
    [DATABUFFER_MIN_OFFSET] further on. *)
Theorem drawDataBuffer_one_sample_per_column
    (K : DSOConstants) (table : Z -> Z) (g : Globals) (data : Z -> Z)
    (aDataBufferPointer aLength : Z) (aColor aClearBeforeColor : Color_t)
    (aDrawAlsoMin : bool) (i : Z) :
  let mc := MeasurementControl g in
  let g' := (drawDataBuffer K table g data aDataBufferPointer aLength aColor
               aClearBeforeColor DRAW_MODE_REGULAR aDrawAlsoMin).1 in
  XScale (DisplayControl g) = 0 ->
  0 <= i < aLength ->
  ((Z.to_nat i < length (DisplayBuffer g))%nat ->
   readAt (DisplayBuffer g') i
   = to_uint8 (getDisplayFrowRawInputValue K table mc (data (aDataBufferPointer + i))))
  /\ (aDrawAlsoMin = true -> (Z.to_nat i < length (DisplayBufferMin g))%nat ->
      readAt (DisplayBufferMin g') i
      = to_uint8 (getDisplayFrowRawInputValue K table mc
                    (data (aDataBufferPointer + DATABUFFER_MIN_OFFSET K + i)))).
Proof.
  intros mc g' Hr Hi. subst g'. split.
  - intros Hlen. rewrite drawDataBuffer_main_track, Hr.
    apply (bulkPass_identity K table mc (DisplayControl g) data aColor aClearBeforeColor
             _ aLength (firstTrackStart g aDataBufferPointer DRAW_MODE_REGULAR) eq_refl i Hi Hlen).
  - intros -> Hlen. unfold drawDataBuffer. rewrite Hr. fold mc. cbn match. cbn [fst DisplayBufferMin set_bulkBuffers].
    match goal with
    | |- context [bulkPass _ _ _ _ _ _ _ _ _ ?t _ (startTrack ?a ?b ?c ?d)] =>
        apply (bulkPass_identity K table mc (DisplayControl g) data aColor aClearBeforeColor
                 t aLength (startTrack a b c d) eq_refl i Hi Hlen)
    end.
Qed.

Lemma drawDataBuffer_one_sample_per_column_witness :
  let g := gSample (mcSample false false 0) 0 (memoryOf []) 0 0 0
             (replicate 320 255) (replicate 320 255) in
  let g' := (drawDataBuffer (K320 false) identityScale g (memoryOf [10; 20; 30]) 0 3 9 0
               DRAW_MODE_REGULAR false).1 in
  readAt (DisplayBuffer g') 2
  = to_uint8 (getDisplayFrowRawInputValue (K320 false) identityScale
                (mcSample false false 0) (memoryOf [10; 20; 30] (0 + 2)))
  /\ readAt (DisplayBuffer g') 2 = 209.
Proof.
  intros g g'. split; [|reflexivity].
  apply (drawDataBuffer_one_sample_per_column (K320 false) identityScale g
           (memoryOf [10; 20; 30]) 0 3 9 0 false 2); simpl; lia.
Defined.

(** X7.  At a ratio [r] above 1 a regular bulk pass repeats samples: column
    0 and column 1 of the main track both show the first sample, and from
    then on every sample fills [r] columns, so that column [i] holds, as a
    byte, the mapper applied to the sample [max 0 (i - 1) / r] places after
    the start. *)
Theorem drawDataBuffer_expand_repeats_samples
    (K : DSOConstants) (table : Z -> Z) (g : Globals) (data : Z -> Z)
    (aDataBufferPointer aLength : Z) (aColor aClearBeforeColor : Color_t)
    (aDrawAlsoMin : bool) (i : Z) :
  let r := XScale (DisplayControl g) in
  let mc := MeasurementControl g in
  let g' := (drawDataBuffer K table g data aDataBufferPointer aLength aColor
               aClearBeforeColor DRAW_MODE_REGULAR aDrawAlsoMin).1 in
  1 < r < 2 ^ 31 ->
  0 <= i < aLength ->
  (Z.to_nat i < length (DisplayBuffer g))%nat ->
  readAt (DisplayBuffer g') i
  = to_uint8 (getDisplayFrowRawInputValue K table mc
                (data (aDataBufferPointer + repeatedSample r i))).
Proof.
  intros r mc g' Hr Hi Hlen. subst g'. rewrite drawDataBuffer_main_track. fold r. fold mc.
  apply (bulkPass_repeat K table mc (DisplayControl g) data aColor aClearBeforeColor
           r _ aLength (firstTrackStart g aDataBufferPointer DRAW_MODE_REGULAR)
           Hr eq_refl eq_refl i Hi Hlen).
Qed.

Lemma drawDataBuffer_expand_repeats_samples_witness :
  let g := gSample (mcSample false false 0) 2 (memoryOf []) 0 0 0
             (replicate 320 255) (replicate 320 255) in
  let g' := (drawDataBuffer (K320 false) identityScale g (memoryOf [10; 20; 30]) 0 6 9 0
               DRAW_MODE_REGULAR false).1 in
  repeatedSample 2 3 = 1
  /\ readAt (DisplayBuffer g') 3
     = to_uint8 (getDisplayFrowRawInputValue (K320 false) identityScale
                   (mcSample false false 0) (memoryOf [10; 20; 30] (0 + repeatedSample 2 3)))
  /\ map (readAt (DisplayBuffer g')) [0; 1; 2; 3; 4; 5] = [229; 229; 229; 219; 219; 209].
Proof.
  intros g g'. split; [reflexivity|]. split; [|reflexivity].
  apply (drawDataBuffer_expand_repeats_samples (K320 false) identityScale g
           (memoryOf [10; 20; 30]) 0 6 9 0 false 3); simpl; lia.
Defined.

(** X8.  At the ratio 1 a regular bulk pass shows two samples on three
    columns: column [i] of the main track holds, as a byte, the mapper
    applied to the sample [(2 * i + 1) / 3] places after the start, so the
    samples at the odd places are shown twice and no sample is left out. *)
Theorem drawDataBuffer_twoToThree
    (K : DSOConstants) (table : Z -> Z) (g : Globals) (data : Z -> Z)
    (aDataBufferPointer aLength : Z) (aColor aClearBeforeColor : Color_t)
    (aDrawAlsoMin : bool) (i : Z) :
  let mc := MeasurementControl g in
  let g' := (drawDataBuffer K table g data aDataBufferPointer aLength aColor
               aClearBeforeColor DRAW_MODE_REGULAR aDrawAlsoMin).1 in
  XScale (DisplayControl g) = 1 ->
  0 <= i < aLength ->
  (Z.to_nat i < length (DisplayBuffer g))%nat ->
  readAt (DisplayBuffer g') i
  = to_uint8 (getDisplayFrowRawInputValue K table mc
                (data (aDataBufferPointer + (2 * i + 1) / 3))).
Proof.
  intros mc g' Hr Hi Hlen. subst g'. rewrite drawDataBuffer_main_track. rewrite Hr. fold mc.
  apply (bulkPass_expand K table mc (DisplayControl g) data aColor aClearBeforeColor
           _ aLength (firstTrackStart g aDataBufferPointer DRAW_MODE_REGULAR)
           eq_refl Hr i Hi Hlen).
Qed.

Lemma drawDataBuffer_twoToThree_witness :
  let g := gSample (mcSample false false 0) 1 (memoryOf []) 0 0 0
             (replicate 320 255) (replicate 320 255) in
  let g' := (drawDataBuffer (K320 false) identityScale g (memoryOf [10; 20; 30; 40]) 0 6 9 0
               DRAW_MODE_REGULAR false).1 in
  readAt (DisplayBuffer g') 4
  = to_uint8 (getDisplayFrowRawInputValue (K320 false) identityScale
                (mcSample false false 0) (memoryOf [10; 20; 30; 40] (0 + (2 * 4 + 1) / 3)))
  /\ map (readAt (DisplayBuffer g')) [0; 1; 2; 3; 4; 5] = [229; 219; 219; 209; 199; 199].
Proof.
  intros g g'. split; [|reflexivity].
  apply (drawDataBuffer_twoToThree (K320 false) identityScale g
           (memoryOf [10; 20; 30; 40]) 0 6 9 0 false 4); simpl; lia.
Defined.

(** ** What a bulk pass leaves alone *)

Lemma storeAt_readAt (a : list Z) (i : Z) :
  Forall isByte a -> storeAt a i (readAt a i) = a.
Proof.
  intros Ha. unfold storeAt, readAt.
  destruct (decide (Z.to_nat i < length a)%nat) as [Hlt|Hge].
  - destruct (lookup_lt_is_Some_2 a (Z.to_nat i) Hlt) as [v Hv].
    rewrite (list_lookup_total_correct _ _ _ Hv).
    rewrite to_uint8_small.
    + now apply list_insert_id.
    + rewrite Forall_lookup in Ha. exact (Ha _ _ Hv).
  - apply list_insert_ge. lia.
Qed.

Lemma Forall_isByte_storeAt (a : list Z) (i v : Z) :
  Forall isByte a -> Forall isByte (storeAt a i v).
Proof.
  intros Ha. unfold storeAt. apply Forall_insert; [exact Ha|].
  unfold isByte, to_uint8. apply Z.mod_pos_bound. lia.
Qed.

Section BulkFrame.

Variable K : DSOConstants.
Variable table : Z -> Z.
Variable mc : MeasurementControlStruct.
Variable dc : DisplayControlStruct.
Variable data : Z -> Z.
Variables (aColor aClearBeforeColor : Color_t).
Variable aDrawMode : DrawMode.
Variables (tXScale tTriggerValue : Z).

Local Abbreviation column :=
  (bulkColumn K table mc dc data aColor aClearBeforeColor aDrawMode tXScale tTriggerValue).
Local Abbreviation columns :=
  (bulkColumns K table mc dc data aColor aClearBeforeColor aDrawMode tXScale tTriggerValue).
Local Abbreviation pass :=
  (bulkPass K table mc dc data aColor aClearBeforeColor aDrawMode tXScale tTriggerValue).

Lemma bulkColumns_invariant (P : Z -> BulkLocals -> Prop) :
  (forall i l, P i l -> P (i + 1) (column i l)) ->
  forall (n : nat) (i : Z) (l : BulkLocals), P i l -> P (i + Z.of_nat n) (columns n i l).
Proof.
  intros Hstep. induction n as [|n IH]; intros i l HP.
  - simpl. now rewrite Z.add_0_r.
  - cbn [bulkColumns]. replace (i + Z.of_nat (S n)) with (i + 1 + Z.of_nat n) by lia.
    apply IH, Hstep, HP.
Qed.

Lemma bulkColumn_store (i : Z) (l : BulkLocals) :
  ScreenBufferWritePointer1 (column i l) = ScreenBufferWritePointer1 l + 1
  /\ exists v, trackBuffer (column i l) = storeAt (trackBuffer l) (ScreenBufferWritePointer1 l) v.
Proof.
  unfold bulkColumn.
  destruct (if isRegular aDrawMode then _ else _) as [[v p] c].
  destruct (triggerStateLine K dc aClearBeforeColor tTriggerValue i v l) as [[b2 p2] o].
  destruct (if LOCAL_DISPLAY_EXISTS K then _ else _) as [[[gc rp] lc] dr].
  simpl. eauto.
Qed.

(** A pass keeps the length of its track buffer, the columns from [aLength]
    on, and the byte range of the entries. *)
Lemma bulkPass_frame (aLength : Z) (l : BulkLocals) :
  ScreenBufferWritePointer1 l = 0 ->
  length (trackBuffer (pass aLength l)) = length (trackBuffer l)
  /\ (forall j, aLength <= j -> readAt (trackBuffer (pass aLength l)) j = readAt (trackBuffer l) j)
  /\ (Forall isByte (trackBuffer l) -> Forall isByte (trackBuffer (pass aLength l))).
Proof.
  intros Hwp. unfold bulkPass.
  match goal with
  | |- context [bulkColumns _ _ _ _ _ _ _ _ _ _ _ _ ?l0] => set (start := l0)
  end.
  pose proof (bulkColumns_invariant
                (fun i l' => ScreenBufferWritePointer1 l' = i /\ 0 <= i
                             /\ length (trackBuffer l') = length (trackBuffer l)
                             /\ (forall j, i <= j ->
                                   readAt (trackBuffer l') j = readAt (trackBuffer l) j)
                             /\ (Forall isByte (trackBuffer l) ->
                                 Forall isByte (trackBuffer l')))) as Hinv.
  destruct (Hinv) with (n := Z.to_nat aLength) (i := 0) (l := start)
    as (_ & _ & Hlen & Hhigh & Hbytes).
  - intros i l' (Hw & Hi & Hlen & Hhigh & Hbytes).
    destruct (bulkColumn_store i l') as (Ew & v & Eb).
    rewrite Ew, Eb, Hw, length_storeAt. repeat split; try lia.
    + intros j Hj. rewrite readAt_storeAt_ne by lia. apply Hhigh. lia.
    + intros Ha. apply Forall_isByte_storeAt. auto.
  - subst start. simpl. repeat split; auto; lia.
  - repeat split; auto. intros j Hj.
    destruct (Z.le_gt_cases 0 aLength).
    + apply Hhigh. lia.
    + replace (Z.to_nat aLength) with 0%nat by lia. reflexivity.
Qed.

(** Without a local display a pass issues no call. *)
Lemma bulkPass_remote (aLength : Z) (l : BulkLocals) :
  LOCAL_DISPLAY_EXISTS K = false -> bulkOut (pass aLength l) = bulkOut l.
Proof.
  intros Hlocal. unfold bulkPass.
  match goal with
  | |- context [bulkColumns _ _ _ _ _ _ _ _ _ _ _ _ ?l0] => set (start := l0)
  end.
  refine (bulkColumns_invariant (fun _ l' => bulkOut l' = bulkOut l)
            _ (Z.to_nat aLength) 0 start _); [|reflexivity].
  intros i l' Hout. unfold bulkColumn.
  destruct (if isRegular aDrawMode then _ else _) as [[v p] c].
  unfold triggerStateLine. rewrite Hlocal. cbn [andb].
  destruct (showTriggerInfoLine dc); [destruct (v >? tTriggerValue)|];
    simpl; now rewrite app_nil_r.
Qed.

(** With the trigger info line off a pass leaves [DisplayBuffer2] alone. *)
Lemma bulkPass_triggerStateBuffer (aLength : Z) (l : BulkLocals) :
  showTriggerInfoLine dc = false ->
  triggerStateBuffer (pass aLength l) = triggerStateBuffer l.
Proof.
  intros Hline. unfold bulkPass.
  match goal with
  | |- context [bulkColumns _ _ _ _ _ _ _ _ _ _ _ _ ?l0] => set (start := l0)
  end.
  refine (bulkColumns_invariant (fun _ l' => triggerStateBuffer l' = triggerStateBuffer l)
            _ (Z.to_nat aLength) 0 start _); [|reflexivity].
  intros i l' Hout. unfold bulkColumn.
  destruct (if isRegular aDrawMode then _ else _) as [[v p] c].
  unfold triggerStateLine. rewrite Hline.
  destruct (if LOCAL_DISPLAY_EXISTS K then _ else _) as [[[gc rp] lc] dr].
  simpl. exact Hout.
Qed.

Lemma localColumn_readPointer (i tValue : Z) (l : BulkLocals) :
  aClearBeforeColor <= 0 \/ drawPixelMode dc = true ->
  (localColumn K dc aColor aClearBeforeColor aDrawMode i tValue l).1.1.2
  = ScreenBufferReadPointer l.
Proof.
  intros Hno. unfold localColumn.
  destruct (drawPixelMode dc) eqn:Hpixel; cbn [orb negb].
  - destruct (negb (isRegular aDrawMode) && _); [reflexivity|].
    destruct (aClearBeforeColor >? 0); reflexivity.
  - destruct (i =? 0).
    + destruct (negb (isRegular aDrawMode) && _); [reflexivity|].
      destruct (Z.gtb_spec aClearBeforeColor 0); [|reflexivity].
      destruct Hno; [lia|discriminate].
    + destruct (_ && _); reflexivity.
Qed.

(** An erase pass stores back what it reads. *)
Lemma bulkPass_erase (aLength : Z) (l : BulkLocals) :
  isRegular aDrawMode = false ->
  LOCAL_DISPLAY_EXISTS K = false \/ aClearBeforeColor <= 0 \/ drawPixelMode dc = true ->
  ScreenBufferReadPointer l = 0 ->
  ScreenBufferWritePointer1 l = 0 ->
  Forall isByte (trackBuffer l) ->
  trackBuffer (pass aLength l) = trackBuffer l.
Proof.
  intros Hmode Hno Hrp Hwp Hbytes. unfold bulkPass.
  match goal with
  | |- context [bulkColumns _ _ _ _ _ _ _ _ _ _ _ _ ?l0] => set (start := l0)
  end.
  destruct (bulkColumns_invariant
              (fun i l' => ScreenBufferWritePointer1 l' = i
                           /\ ScreenBufferReadPointer l' = i
                           /\ trackBuffer l' = trackBuffer l))
    with (n := Z.to_nat aLength) (i := 0) (l := start) as (_ & _ & Hsame).
  - intros i l' (Hw & Hr & Hb). unfold bulkColumn. rewrite Hmode.
    destruct (triggerStateLine K dc aClearBeforeColor tTriggerValue i
                (readAt (trackBuffer l') (ScreenBufferReadPointer l')) l') as [[b2 p2] o].
    pose proof (localColumn_readPointer i
                  (readAt (trackBuffer l') (ScreenBufferReadPointer l')) l') as Hlocal.
    destruct (LOCAL_DISPLAY_EXISTS K) eqn:HK.
    + destruct (localColumn K dc aColor aClearBeforeColor aDrawMode i _ l')
        as [[[gc rp] lc] dr]. simpl in Hlocal |- *.
      rewrite Hlocal by (destruct Hno as [?|[?|?]]; [discriminate|auto|auto]).
      rewrite Hr, Hw, Hb. repeat split; try lia.
      apply storeAt_readAt, Hbytes.
    + simpl. rewrite Hr, Hw, Hb. repeat split; try lia.
      apply storeAt_readAt, Hbytes.
  - subst start. simpl. auto.
  - exact Hsame.
Qed.

End BulkFrame.

(** X9.  An erase pass ([DRAW_MODE_CLEAR_OLD], [DRAW_MODE_CLEAR_OLD_MIN])
    takes its values from the track buffers and stores them back: without a
    local display, without a clear colour or in pixel mode both tracks are
    the same after the call as before it. *)
Theorem drawDataBuffer_erase_keeps_tracks
    (K : DSOConstants) (table : Z -> Z) (g : Globals) (data : Z -> Z)
    (aDataBufferPointer aLength : Z) (aColor aClearBeforeColor : Color_t)
    (aDrawMode : DrawMode) (aDrawAlsoMin : bool) :
  let g' := (drawDataBuffer K table g data aDataBufferPointer aLength aColor
               aClearBeforeColor aDrawMode aDrawAlsoMin).1 in
  aDrawMode <> DRAW_MODE_REGULAR ->
  LOCAL_DISPLAY_EXISTS K = false \/ aClearBeforeColor <= 0
  \/ drawPixelMode (DisplayControl g) = true ->
  Forall isByte (DisplayBuffer g) ->
  Forall isByte (DisplayBufferMin g) ->
  DisplayBuffer g' = DisplayBuffer g /\ DisplayBufferMin g' = DisplayBufferMin g.
Proof.
  intros g' Hmode Hno Hmain Hmin. subst g'. unfold drawDataBuffer.
  destruct aDrawMode; [contradiction| |]; cbn match.
  - destruct aDrawAlsoMin; cbn [fst DisplayBuffer DisplayBufferMin set_bulkBuffers].
    + split; apply bulkPass_erase; auto.
    + split; [|reflexivity]. apply bulkPass_erase; auto.
  - cbn [fst DisplayBuffer DisplayBufferMin set_bulkBuffers].
    split; [reflexivity|]. apply bulkPass_erase; auto.
Qed.

Lemma drawDataBuffer_erase_keeps_tracks_witness :
  let g := gSample (mcSample false false 0) 0 (memoryOf []) 0 0 0
             [229; 219; 209] [230; 220; 210] in
  let g' := (drawDataBuffer (K320 true) identityScale g (memoryOf []) 0 3 65535 0
               DRAW_MODE_CLEAR_OLD true).1 in
  DisplayBuffer g' = [229; 219; 209] /\ DisplayBufferMin g' = [230; 220; 210].
Proof.
  intros g g'.
  apply (drawDataBuffer_erase_keeps_tracks (K320 true) identityScale g (memoryOf []) 0 3
           65535 0 DRAW_MODE_CLEAR_OLD true).
  - discriminate.
  - right. left. lia.
  - repeat constructor; unfold isByte; lia.
  - repeat constructor; unfold isByte; lia.
Defined.

(** X10.  Whatever the mode and the ratio, [drawDataBuffer] keeps the length
    of both tracks and their columns from [aLength] on, leaves byte values in
    them, leaves [DisplayBuffer2] alone when the trigger info line is off, and
    leaves alone the track it does not process: the maximum track in
    [DRAW_MODE_CLEAR_OLD_MIN], the minimum track in the other modes when it
    is not requested. *)
Theorem drawDataBuffer_frame
    (K : DSOConstants) (table : Z -> Z) (g : Globals) (data : Z -> Z)
    (aDataBufferPointer aLength : Z) (aColor aClearBeforeColor : Color_t)
    (aDrawMode : DrawMode) (aDrawAlsoMin : bool) :
  let g' := (drawDataBuffer K table g data aDataBufferPointer aLength aColor
               aClearBeforeColor aDrawMode aDrawAlsoMin).1 in
  (length (DisplayBuffer g') = length (DisplayBuffer g)
   /\ length (DisplayBufferMin g') = length (DisplayBufferMin g))
  /\ (forall j, aLength <= j ->
        readAt (DisplayBuffer g') j = readAt (DisplayBuffer g) j
        /\ readAt (DisplayBufferMin g') j = readAt (DisplayBufferMin g) j)
  /\ (Forall isByte (DisplayBuffer g) -> Forall isByte (DisplayBuffer g'))
  /\ (Forall isByte (DisplayBufferMin g) -> Forall isByte (DisplayBufferMin g'))
  /\ (showTriggerInfoLine (DisplayControl g) = false -> DisplayBuffer2 g' = DisplayBuffer2 g)
  /\ (aDrawMode = DRAW_MODE_CLEAR_OLD_MIN -> DisplayBuffer g' = DisplayBuffer g)
  /\ (aDrawMode <> DRAW_MODE_CLEAR_OLD_MIN -> aDrawAlsoMin = false ->
      DisplayBufferMin g' = DisplayBufferMin g).
Proof.
  intros g'. subst g'. unfold drawDataBuffer.
  set (mc := MeasurementControl g). set (dc := DisplayControl g).
  set (trigger := getDisplayFrowRawInputValue K table mc (RawTriggerLevel mc)).
  assert (Hframe : forall l, ScreenBufferWritePointer1 l = 0 ->
            let l' := bulkPass K table mc dc data aColor aClearBeforeColor aDrawMode
                        (XScale dc) trigger aLength l in
            length (trackBuffer l') = length (trackBuffer l)
            /\ (forall j, aLength <= j -> readAt (trackBuffer l') j = readAt (trackBuffer l) j)
            /\ (Forall isByte (trackBuffer l) -> Forall isByte (trackBuffer l'))).
  { intros l Hl. apply bulkPass_frame, Hl. }
  assert (Hstate : forall l, showTriggerInfoLine dc = false ->
            triggerStateBuffer
              (bulkPass K table mc dc data aColor aClearBeforeColor aDrawMode
                 (XScale dc) trigger aLength l) = triggerStateBuffer l).
  { intros l Hl. now apply bulkPass_triggerStateBuffer. }
  destruct aDrawMode; cbn match; destruct aDrawAlsoMin;
    cbn [fst DisplayBuffer DisplayBufferMin DisplayBuffer2 set_bulkBuffers];
    try match goal with
        | |- context [bulkPass _ _ _ _ _ _ _ _ _ _ _ (startTrack ?a ?b ?c ?d)] =>
            pose proof (Hframe (startTrack a b c d) eq_refl) as Hsecond;
            pose proof (Hstate (startTrack a b c d)) as Hstate2;
            cbv zeta in Hsecond;
            cbn [startTrack trackBuffer triggerStateBuffer] in Hsecond, Hstate2
        end;
    match goal with
    | |- context [bulkPass _ _ _ _ _ _ _ _ _ _ _
                    {| tDataBufferPointer := ?p; tXScaleCounter := ?c;
                       ScreenBufferReadPointer := ?r; ScreenBufferWritePointer1 := ?w;
                       ScreenBufferWritePointer2 := ?w2;
                       tCounterForTimingGridRestore := ?t; tLastValue := ?lv;
                       tLastValueClear := ?lc; trackBuffer := ?b;
                       triggerStateBuffer := ?b2; bulkOut := ?o |}] =>
        pose proof (Hframe (Build_BulkLocals p c r w w2 t lv lc b b2 o) eq_refl) as Hfirst;
        pose proof (Hstate (Build_BulkLocals p c r w w2 t lv lc b b2 o)) as Hstate1;
        cbv zeta in Hfirst; cbn [trackBuffer triggerStateBuffer] in Hfirst, Hstate1
    end;
    intuition (try congruence; auto).
Qed.

Lemma drawDataBuffer_frame_witness :
  let g := gSample (mcSample false false 0) 0 (memoryOf []) 0 0 0
             [1; 2; 3; 4] [5; 6; 7; 8] in
  let g' := (drawDataBuffer (K320 true) identityScale g (memoryOf [10; 20]) 0 2 9 0
               DRAW_MODE_REGULAR false).1 in
  DisplayBuffer g' = [229; 219; 3; 4]
  /\ readAt (DisplayBuffer g') 3 = 4
  /\ DisplayBuffer2 g' = replicate 320 255
  /\ DisplayBufferMin g' = [5; 6; 7; 8].
Proof.
  intros g g'.
  destruct (drawDataBuffer_frame (K320 true) identityScale g (memoryOf [10; 20]) 0 2 9 0
              DRAW_MODE_REGULAR false) as (_ & Hhigh & _ & _ & Hstate & _ & Hmin).
  split; [reflexivity|]. split; [|split].
  - exact (proj1 (Hhigh 3 ltac:(lia))).
  - exact (Hstate eq_refl).
  - apply Hmin; [discriminate|reflexivity].
Defined.

(** X11.  Without a local display [drawDataBuffer] draws nothing column by
    column: its only calls are the chart transfers, one per processed track,
    each carrying the track as the call leaves it; the first one is rendered
    directly only when no minimum track follows. *)
Theorem drawDataBuffer_remote_chart_only
    (K : DSOConstants) (table : Z -> Z) (g : Globals) (data : Z -> Z)
    (aDataBufferPointer aLength : Z) (aColor aClearBeforeColor : Color_t)
    (aDrawMode : DrawMode) (aDrawAlsoMin : bool) :
  let r := drawDataBuffer K table g data aDataBufferPointer aLength aColor
             aClearBeforeColor aDrawMode aDrawAlsoMin in
  let chartMin :=
    drawChartByteBuffer 0 0 aColor aClearBeforeColor 1 true (DisplayBufferMin r.1) aLength in
  LOCAL_DISPLAY_EXISTS K = false ->
  r.2 = match aDrawMode with
        | DRAW_MODE_CLEAR_OLD_MIN => [chartMin]
        | _ =>
          drawChartByteBuffer 0 0 aColor aClearBeforeColor 0 (negb aDrawAlsoMin)
            (DisplayBuffer r.1) aLength
          :: (if aDrawAlsoMin then [chartMin] else [])
        end.
Proof.
  intros r chartMin Hlocal. subst r chartMin. unfold drawDataBuffer.
  destruct aDrawMode; cbn match; destruct aDrawAlsoMin;
    cbn [fst snd DisplayBuffer DisplayBufferMin set_bulkBuffers];
    rewrite ?bulkPass_remote by exact Hlocal; cbn [startTrack bulkOut];
    rewrite ?bulkPass_remote by exact Hlocal; reflexivity.
Qed.

Lemma drawDataBuffer_remote_chart_only_witness :
  let g := gSample (mcSample false false 0) 0 (memoryOf []) 0 0 0 [1; 2; 3] [5; 6; 7] in
  (drawDataBuffer (K320 false) identityScale g (memoryOf [10; 20]) 0 2 9 0
     DRAW_MODE_REGULAR false).2
  = [drawChartByteBuffer 0 0 9 0 0 true [229; 219; 3] 2].
Proof.
  intros g.
  exact (drawDataBuffer_remote_chart_only (K320 false) identityScale g (memoryOf [10; 20])
           0 2 9 0 DRAW_MODE_REGULAR false eq_refl).
Defined.

(** ** The incremental renderer, run without interference *)

Lemma to_uint8_to_uint32 (v : Z) : to_uint8 (to_uint32 v) = to_uint8 v.
Proof.
  unfold to_uint8, to_uint32. apply Z.mod_mod_divide.
  exists (2 ^ 24). reflexivity.
Qed.

Lemma next_column (W c j : Z) :
  0 < W -> ((c + 1) mod W + j) mod W = (c + (j + 1)) mod W.
Proof.
  intros HW. rewrite Z.add_mod_idemp_l by lia. f_equal. lia.
Qed.

Lemma later_column_differs (W c d : Z) :
  0 <= c < W -> 1 <= d < W -> (c + d) mod W <> c.
Proof.
  intros Hc Hd E.
  destruct (Z.lt_ge_cases (c + d) W).
  - rewrite Z.mod_small in E by lia. lia.
  - replace (c + d) with (c + d - W + 1 * W) in E by lia.
    rewrite Z_mod_plus_full, Z.mod_small in E by lia. lia.
Qed.

Lemma bothTracks_no_fill (g : Globals) (main minimum c : DrawCall) :
  isFill main = false -> isFill minimum = false ->
  c ∈ bothTracks g main minimum -> isFill c = false.
Proof.
  intros Hmain Hmin Hc. unfold bothTracks in Hc.
  apply elem_of_cons in Hc as [->|Hc]; [exact Hmain|].
  destruct (isEffectiveMinMaxMode (MeasurementControl g)).
  - apply list_elem_of_singleton in Hc as ->. exact Hmin.
  - now apply elem_of_nil in Hc.
Qed.

Lemma clearOldValue_no_fill (K : DSOConstants) (g : Globals) (x : Z) (c : DrawCall) :
  c ∈ clearOldValue K g x -> isFill c = false.
Proof.
  unfold clearOldValue.
  repeat match goal with
         | |- context [if ?b then _ else _] => destruct b
         end;
    first [intros Hc; now apply elem_of_nil in Hc
          | apply bothTracks_no_fill; reflexivity].
Qed.

Lemma drawNewValue_no_fill (K : DSOConstants) (aDrawColor : Color_t) (g : Globals)
    (x tValue tValueMin : Z) (c : DrawCall) :
  c ∈ drawNewValue K aDrawColor g x tValue tValueMin -> isFill c = false.
Proof.
  unfold drawNewValue.
  repeat match goal with
         | |- context [if ?b then _ else _] => destruct b
         end;
    first [intros Hc; now apply elem_of_nil in Hc
          | apply bothTracks_no_fill; reflexivity].
Qed.

Section SequentialRun.

Variable K : DSOConstants.
Variable table : Z -> Z.
Variable fv : DataBufferControlStruct -> Z -> Z.
Variable fuel : nat.
Variable aDrawColor : Color_t.
Hypothesis HK : constants_ok K.
Hypothesis Hfuel : (Z.to_nat (DSO_DISPLAY_WIDTH K) < fuel)%nat.

Local Abbreviation W := (DSO_DISPLAY_WIDTH K).
Local Abbreviation toDisplay := (getDisplayFrowRawInputValue K table).
Local Abbreviation before :=
  (fun (k : nat) (s : Globals * list DrawCall) =>
     ((fun (_ : nat) (g : Globals) => g) k s.1, s.2)).
Local Abbreviation cond := (fun s : Globals * list DrawCall => moreToDraw K s.1).
Local Abbreviation body := (drawRemainingColumn K table fv fuel aDrawColor).

Lemma draw128FFTValuesFast_result (aColor : Color_t) (g : Globals) :
  exists buffer calls,
    draw128FFTValuesFast K fv fuel aColor g = Some (set_DisplayBufferFFT g buffer, calls)
    /\ (ShowFFT (DisplayControl g) = false -> buffer = DisplayBufferFFT g /\ calls = []).
Proof.
  unfold draw128FFTValuesFast. destruct (ShowFFT (DisplayControl g)).
  - destruct (fftLoop_spec K fv aColor (DataBufferControl g) (DisplayBufferFFT g) fuel HK
                0 (DisplayBufferFFT g) [] ltac:(lia) ltac:(reflexivity) ltac:(lia))
      as (buffer' & out' & Hrun & _).
    change (3 * 0) with 0 in Hrun. rewrite Hrun. simpl.
    eexists _, _. split; [reflexivity|]. discriminate.
  - exists (DisplayBufferFFT g), []. split; [|auto]. now destruct g.
Qed.

(** What one run of the loop body leaves in the state. *)
Lemma drawRemainingColumn_buffers (g : Globals) (out : list DrawCall) :
  let mc := MeasurementControl g in
  let dbc := DataBufferControl g in
  let pointer := DataBufferNextDrawPointer dbc in
  exists g' new,
    body (g, out) = Some (g', out ++ new)
    /\ MeasurementControl g' = mc
    /\ DisplayControl g' = DisplayControl g
    /\ DataBuffer (DataBufferControl g') = DataBuffer dbc
    /\ DataBufferNextInPointer (DataBufferControl g') = DataBufferNextInPointer dbc
    /\ DataBufferPreTriggerAreaWrapAround (DataBufferControl g')
       = DataBufferPreTriggerAreaWrapAround dbc
    /\ DataBufferNextDrawPointer (DataBufferControl g') = pointer + 1
    /\ NextDrawXValue (DataBufferControl g') = wrap32 (columnOf K g + 1)
    /\ DisplayBuffer2 g' = DisplayBuffer2 g
    /\ DisplayBuffer g'
       = storeAt (DisplayBuffer g) (columnOf K g)
           (to_uint32 (toDisplay mc (DataBuffer dbc pointer)))
    /\ DisplayBufferMin g'
       = (if isEffectiveMinMaxMode mc
          then storeAt (DisplayBufferMin g) (columnOf K g)
                 (to_uint32 (toDisplay mc
                               (DataBuffer dbc (pointer + DATABUFFER_MIN_OFFSET K))))
          else DisplayBufferMin g)
    /\ (pointer <> fftSample K \/ ShowFFT (DisplayControl g) = false ->
        DisplayBufferFFT g' = DisplayBufferFFT g
        /\ forall c, c ∈ new -> isFill c = false).
Proof.
  intros mc dbc pointer. subst mc dbc pointer. unfold drawRemainingColumn.
  fold (fftSample K).
  assert (Hcalls : forall g0 g1 x tValue tValueMin c,
            c ∈ [] ++ clearOldValue K g0 x ++ drawNewValue K aDrawColor g1 x tValue tValueMin ->
            isFill c = false).
  { intros g0 g1 x tValue tValueMin c Hc. cbn [app] in Hc.
    apply elem_of_app in Hc as [Hc|Hc].
    - eapply clearOldValue_no_fill, Hc.
    - eapply drawNewValue_no_fill, Hc. }
  destruct (Z.eqb_spec (DataBufferNextDrawPointer (DataBufferControl g)) (fftSample K))
    as [Hp|Hp].
  - destruct (draw128FFTValuesFast_result (COLOR_FFT_DATA K) g)
      as (buffer & calls & Hrun & Hoff).
    rewrite Hrun. cbn [mbind option_bind fst snd].
    eexists _, _. split; [reflexivity|]. cbn.
    repeat split; try reflexivity.
    + destruct (isEffectiveMinMaxMode (MeasurementControl g)); reflexivity.
    + destruct H as [H|H]; [contradiction|]. now destruct (Hoff H).
    + destruct H as [H|H]; [contradiction|]. destruct (Hoff H) as [_ ->]. apply Hcalls.
  - cbn [mbind option_bind fst snd].
    eexists _, _. split; [reflexivity|]. cbn.
    repeat split; try reflexivity.
    + destruct (isEffectiveMinMaxMode (MeasurementControl g)); reflexivity.
    + apply Hcalls.
Qed.

(** Induction over the runs of the loop body. *)
Lemma sequential_run_ind
    (P : nat -> Globals * list DrawCall -> Globals * list DrawCall -> Prop) :
  (forall s, cond s = false -> P 0%nat s s) ->
  (forall n s s1 fin, cond s = true -> body s = Some s1 -> P n s1 fin -> P (S n) s fin) ->
  forall fuelW k s ran fin,
    whileLoop before cond body fuelW k s = Some (ran, fin) -> P (length ran) s fin.
Proof.
  intros Hstop Hstep. induction fuelW as [|fuelW IH]; intros k s ran fin Hrun; [discriminate|].
  apply whileLoop_step in Hrun as [(Hc & -> & ->) | (s1 & ran' & Hc & Hb & Hrun & ->)];
    cbv beta in *; replace (s.1, s.2) with s in * by (now destruct s).
  - now apply Hstop.
  - cbn [length]. eapply Hstep; eauto.
Qed.

Ltac body_step s Hb :=
  let g := fresh "g" in
  let out := fresh "out" in
  let E := fresh "E" in
  destruct s as [g out];
  destruct (drawRemainingColumn_buffers g out)
    as (?g' & ?new & E & ?Hmc & ?Hdc & ?Hdata & ?Hin & ?Hwrap & ?Hptr & ?Hcur & ?Hb2
        & ?Hmain & ?Hmin & ?Hfft);
  rewrite E in Hb; injection Hb as <-; clear E;
  unfold cursorOf, pointerOf in *; cbn [fst snd] in *.

Lemma sequential_run_state (fuelW k : nat) (s : Globals * list DrawCall) ran fin :
  whileLoop before cond body fuelW k s = Some (ran, fin) ->
  0 <= cursorOf s ->
  MeasurementControl fin.1 = MeasurementControl s.1
  /\ DisplayControl fin.1 = DisplayControl s.1
  /\ DataBuffer (DataBufferControl fin.1) = DataBuffer (DataBufferControl s.1)
  /\ DataBufferNextInPointer (DataBufferControl fin.1)
     = DataBufferNextInPointer (DataBufferControl s.1)
  /\ DisplayBuffer2 fin.1 = DisplayBuffer2 s.1
  /\ pointerOf fin = pointerOf s + Z.of_nat (length ran)
  /\ 0 <= cursorOf fin.
Proof.
  intros Hrun. pose proof HK as [_ _ _ HW _].
  apply (sequential_run_ind (fun n s fin =>
           0 <= cursorOf s ->
           MeasurementControl fin.1 = MeasurementControl s.1
           /\ DisplayControl fin.1 = DisplayControl s.1
           /\ DataBuffer (DataBufferControl fin.1) = DataBuffer (DataBufferControl s.1)
           /\ DataBufferNextInPointer (DataBufferControl fin.1)
              = DataBufferNextInPointer (DataBufferControl s.1)
           /\ DisplayBuffer2 fin.1 = DisplayBuffer2 s.1
           /\ pointerOf fin = pointerOf s + Z.of_nat n
           /\ 0 <= cursorOf fin)) with (fuelW := fuelW) (k := k); [| |exact Hrun].
  - intros s0 _ Hc. repeat split; try assumption. lia.
  - intros n s0 s1 fin0 _ Hb IH Hc.
    pose proof (columnOf_range K s0.1 HK Hc) as Hcol.
    body_step s0 Hb.
    destruct IH as (-> & -> & -> & -> & -> & -> & Hfin).
    { rewrite Hcur, wrap32_small by (unfold int_range; lia). lia. }
    repeat split; try assumption. lia.
Qed.

(** The draw pointer at the end of a run that starts with both flags clear. *)
Lemma sequential_run_stop (fuelW k : nat) (s : Globals * list DrawCall) ran fin :
  whileLoop before cond body fuelW k s = Some (ran, fin) ->
  TriggerPhaseJustEnded (MeasurementControl s.1) = false ->
  DataBufferPreTriggerAreaWrapAround (DataBufferControl s.1) = false ->
  pointerOf fin
  = Z.max (pointerOf s)
      (Z.min (DataBufferNextInPointer (DataBufferControl s.1)) (DATABUFFER_DISPLAY_END K + 1)).
Proof.
  intros Hrun.
  apply (sequential_run_ind (fun n s fin =>
           TriggerPhaseJustEnded (MeasurementControl s.1) = false ->
           DataBufferPreTriggerAreaWrapAround (DataBufferControl s.1) = false ->
           pointerOf fin
           = Z.max (pointerOf s)
               (Z.min (DataBufferNextInPointer (DataBufferControl s.1))
                  (DATABUFFER_DISPLAY_END K + 1))))
    with (fuelW := fuelW) (k := k) (ran := ran); [| |exact Hrun].
  - intros s0 Hc Hphase Hwrap. unfold moreToDraw in Hc. rewrite Hphase, Hwrap in Hc.
    cbn [negb] in Hc. rewrite !andb_true_r in Hc. apply andb_false_iff in Hc.
    unfold pointerOf. destruct Hc as [Hc|Hc]; [apply Z.ltb_ge in Hc|apply Z.leb_gt in Hc]; lia.
  - intros n s0 s1 fin0 Hc Hb IH Hphase Hwrap0.
    apply moreToDraw_true in Hc as (Hlt & Hle & _ & _).
    body_step s0 Hb.
    rewrite IH by congruence. rewrite Hin, Hptr. lia.
Qed.

(** Without the sample that refreshes the spectrum, or with the spectrum
    switched off, a run leaves [DisplayBufferFFT] alone and fills nothing. *)
Lemma sequential_run_spectrum (fuelW k : nat) (s : Globals * list DrawCall) ran fin :
  whileLoop before cond body fuelW k s = Some (ran, fin) ->
  (forall j, 0 <= j < Z.of_nat (length ran) -> pointerOf s + j <> fftSample K)
  \/ ShowFFT (DisplayControl s.1) = false ->
  DisplayBufferFFT fin.1 = DisplayBufferFFT s.1
  /\ forall c, c ∈ fin.2 -> isFill c = true -> c ∈ s.2.
Proof.
  intros Hrun.
  apply (sequential_run_ind (fun n s fin =>
           (forall j, 0 <= j < Z.of_nat n -> pointerOf s + j <> fftSample K)
           \/ ShowFFT (DisplayControl s.1) = false ->
           DisplayBufferFFT fin.1 = DisplayBufferFFT s.1
           /\ forall c, c ∈ fin.2 -> isFill c = true -> c ∈ s.2))
    with (fuelW := fuelW) (k := k) (ran := ran); [| |exact Hrun].
  - intros s0 _ _. auto.
  - intros n s0 s1 fin0 _ Hb IH Hno.
    body_step s0 Hb.
    destruct Hfft as [Hbuffer Hcalls].
    { destruct Hno as [Hno|Hno]; [left|now right].
      specialize (Hno 0 ltac:(lia)). now rewrite Z.add_0_r in Hno. }
    destruct IH as [-> Hfin].
    { destruct Hno as [Hno|Hno]; [left|right; congruence].
      intros j Hj. rewrite Hptr. specialize (Hno (j + 1) ltac:(lia)). lia. }
    split; [exact Hbuffer|]. intros c Hc Hfill.
    apply Hfin in Hc; [|exact Hfill]. apply elem_of_app in Hc as [Hc|Hc]; [exact Hc|].
    rewrite (Hcalls c Hc) in Hfill. discriminate.
Qed.

Lemma columnOf_next (g g' : Globals) :
  0 <= columnOf K g < W ->
  NextDrawXValue (DataBufferControl g') = wrap32 (columnOf K g + 1) ->
  NextDrawXValue (DataBufferControl g') = columnOf K g + 1
  /\ columnOf K g' = (columnOf K g + 1) mod W.
Proof.
  intros Hcol Hcur. pose proof HK as [_ _ _ HW _].
  rewrite wrap32_small in Hcur by (unfold int_range; lia). split; [exact Hcur|].
  unfold columnOf at 1. rewrite Hcur.
  destruct (Z.geb_spec (columnOf K g + 1) W).
  - replace (columnOf K g + 1) with W by lia. now rewrite Z_mod_same_full.
  - rewrite Z.mod_small; lia.
Qed.

Section Track.

(** A track: its display buffer, the distance of its samples from those of
    the main track, and the measurement modes in which the body stores into
    it. *)
Variable buf : Globals -> list Z.
Variable off : Z.
Variable active : MeasurementControlStruct -> Prop.
Hypothesis Hstore : forall g out g' out',
  active (MeasurementControl g) ->
  body (g, out) = Some (g', out') ->
  buf g'
  = storeAt (buf g) (columnOf K g)
      (to_uint32 (toDisplay (MeasurementControl g)
                    (DataBuffer (DataBufferControl g)
                       (DataBufferNextDrawPointer (DataBufferControl g) + off)))).

Lemma sequential_run_track (fuelW k : nat) (s : Globals * list DrawCall) ran fin :
  whileLoop before cond body fuelW k s = Some (ran, fin) ->
  0 <= cursorOf s ->
  active (MeasurementControl s.1) ->
  length (buf fin.1) = length (buf s.1)
  /\ (Forall isByte (buf s.1) -> Forall isByte (buf fin.1))
  /\ (forall x, 0 <= x ->
        (forall j, 0 <= j < Z.of_nat (length ran) -> x <> (columnOf K s.1 + j) mod W) ->
        readAt (buf fin.1) x = readAt (buf s.1) x)
  /\ (forall i, 0 <= i < Z.of_nat (length ran) -> Z.of_nat (length ran) - i <= W ->
        (Z.to_nat W <= length (buf s.1))%nat ->
        readAt (buf fin.1) ((columnOf K s.1 + i) mod W)
        = to_uint8 (toDisplay (MeasurementControl s.1)
                      (DataBuffer (DataBufferControl s.1) (pointerOf s + off + i)))).
Proof.
  intros Hrun. pose proof HK as [_ _ _ HW _].
  apply (sequential_run_ind (fun n s fin =>
           0 <= cursorOf s ->
           active (MeasurementControl s.1) ->
           length (buf fin.1) = length (buf s.1)
           /\ (Forall isByte (buf s.1) -> Forall isByte (buf fin.1))
           /\ (forall x, 0 <= x ->
                 (forall j, 0 <= j < Z.of_nat n -> x <> (columnOf K s.1 + j) mod W) ->
                 readAt (buf fin.1) x = readAt (buf s.1) x)
           /\ (forall i, 0 <= i < Z.of_nat n -> Z.of_nat n - i <= W ->
                 (Z.to_nat W <= length (buf s.1))%nat ->
                 readAt (buf fin.1) ((columnOf K s.1 + i) mod W)
                 = to_uint8 (toDisplay (MeasurementControl s.1)
                               (DataBuffer (DataBufferControl s.1) (pointerOf s + off + i))))))
    with (fuelW := fuelW) (k := k) (ran := ran); [| |exact Hrun].
  - intros s0 _ _ _. repeat split; auto. intros i Hi. simpl in Hi. lia.
  - intros n s0 s1 fin0 _ Hb IH Hc Hact.
    pose proof (columnOf_range K s0.1 HK Hc) as Hcol.
    destruct s0 as [g out]. destruct s1 as [g1 out1].
    pose proof (Hstore g out g1 out1 Hact Hb) as Hst.
    destruct (drawRemainingColumn_buffers g out)
      as (g' & new & E & Hmc & _ & Hdata & _ & _ & Hptr & Hcur & _).
    rewrite E in Hb. injection Hb as <- <-. clear E.
    unfold cursorOf, pointerOf in *. cbn [fst snd] in *.
    destruct (columnOf_next g g' Hcol Hcur) as [Hcur' Hcol'].
    destruct IH as (Hlen & Hbytes & Hframe & Hcont); [lia|now rewrite Hmc|].
    rewrite Hst, length_storeAt in Hlen.
    split; [exact Hlen|]. split; [|split].
    + intros Hall. apply Hbytes. rewrite Hst. now apply Forall_isByte_storeAt.
    + intros x Hx Hother. rewrite Hframe; [|exact Hx|].
      * rewrite Hst. apply readAt_storeAt_ne; [lia|lia|].
        specialize (Hother 0 ltac:(lia)).
        rewrite Z.add_0_r, Z.mod_small in Hother by lia. congruence.
      * intros j Hj. rewrite Hcol', next_column by lia. apply Hother. lia.
    + intros i Hi Hlast Hwide. destruct (Z.eq_dec i 0) as [->|Hi0].
      * rewrite !Z.add_0_r, Z.mod_small by lia.
        rewrite Hframe; [|lia|].
        -- rewrite Hst, readAt_storeAt_eq by lia. apply to_uint8_to_uint32.
        -- intros j Hj. rewrite Hcol', next_column by lia.
           intros Heq. symmetry in Heq. revert Heq.
           apply later_column_differs; lia.
      * specialize (Hcont (i - 1) ltac:(lia) ltac:(lia)).
        rewrite Hst, length_storeAt, Hcol', next_column, Hmc, Hdata, Hptr in Hcont by lia.
        replace (i - 1 + 1) with i in Hcont by lia.
        rewrite Hcont by exact Hwide. do 3 f_equal. lia.
Qed.

End Track.

Lemma drawRemainingColumn_main_store (g : Globals) (out : list DrawCall) g' out' :
  True ->
  body (g, out) = Some (g', out') ->
  DisplayBuffer g'
  = storeAt (DisplayBuffer g) (columnOf K g)
      (to_uint32 (toDisplay (MeasurementControl g)
                    (DataBuffer (DataBufferControl g)
                       (DataBufferNextDrawPointer (DataBufferControl g) + 0)))).
Proof.
  intros _ Hb.
  destruct (drawRemainingColumn_buffers g out)
    as (g1 & new & E & _ & _ & _ & _ & _ & _ & _ & _ & Hmain & _).
  rewrite E in Hb. injection Hb as <- <-. now rewrite Z.add_0_r.
Qed.

Lemma drawRemainingColumn_min_store (g : Globals) (out : list DrawCall) g' out' :
  isEffectiveMinMaxMode (MeasurementControl g) = true ->
  body (g, out) = Some (g', out') ->
  DisplayBufferMin g'
  = storeAt (DisplayBufferMin g) (columnOf K g)
      (to_uint32 (toDisplay (MeasurementControl g)
                    (DataBuffer (DataBufferControl g)
                       (DataBufferNextDrawPointer (DataBufferControl g)
                        + DATABUFFER_MIN_OFFSET K)))).
Proof.
  intros Hmode Hb.
  destruct (drawRemainingColumn_buffers g out)
    as (g1 & new & E & _ & _ & _ & _ & _ & _ & _ & _ & _ & Hmin & _).
  rewrite E in Hb. injection Hb as <- <-. now rewrite Hmode in Hmin.
Qed.

(** Outside the min / max mode a run leaves the minimum track alone. *)
Lemma sequential_run_single_track (fuelW k : nat) (s : Globals * list DrawCall) ran fin :
  whileLoop before cond body fuelW k s = Some (ran, fin) ->
  isEffectiveMinMaxMode (MeasurementControl s.1) = false ->
  DisplayBufferMin fin.1 = DisplayBufferMin s.1.
Proof.
  intros Hrun.
  apply (sequential_run_ind (fun n s fin =>
           isEffectiveMinMaxMode (MeasurementControl s.1) = false ->
           DisplayBufferMin fin.1 = DisplayBufferMin s.1))
    with (fuelW := fuelW) (k := k) (ran := ran); [| |exact Hrun].
  - reflexivity.
  - intros n s0 s1 fin0 _ Hb IH Hmode.
    body_step s0 Hb. rewrite IH by congruence. now rewrite Hmode in Hmin.
Qed.

End SequentialRun.

(** X12.  Called with both flags clear and nothing interfering,
    [drawRemainingDataBufferValues] processes the samples from the draw
    pointer up to the next-in pointer, but not beyond the display end, and
    leaves the draw pointer there.  Every one of the last [DSO_DISPLAY_WIDTH]
    samples it processed is then on screen: sample [i] of the run is, mapped
    and as a byte, in the column [i] places right of the start column,
    counted round the screen, and in min / max mode the sample
    [DATABUFFER_MIN_OFFSET] further on is in the same column of the minimum
    track. *)
Theorem drawRemainingDataBufferValues_shows_samples
    (K : DSOConstants) (table : Z -> Z) (fv : DataBufferControlStruct -> Z -> Z)
    (fuel : nat) (aDrawColor : Color_t) (g : Globals) :
  let dbc := DataBufferControl g in
  let mc := MeasurementControl g in
  let p := DataBufferNextDrawPointer dbc in
  let stop := Z.max p (Z.min (DataBufferNextInPointer dbc) (DATABUFFER_DISPLAY_END K + 1)) in
  let column i := (columnOf K g + i) mod DSO_DISPLAY_WIDTH K in
  constants_ok K ->
  (Z.to_nat (DSO_DISPLAY_WIDTH K) + Z.to_nat (DATABUFFER_DISPLAY_END K + 1 - p) < fuel)%nat ->
  0 <= NextDrawXValue dbc ->
  TriggerPhaseJustEnded mc = false ->
  DataBufferPreTriggerAreaWrapAround dbc = false ->
  exists g' calls,
    drawRemainingDataBufferValues K table fv fuel aDrawColor g = Some (g', calls)
    /\ DataBufferNextDrawPointer (DataBufferControl g') = stop
    /\ forall i, 0 <= i < stop - p -> stop - p - i <= DSO_DISPLAY_WIDTH K ->
         ((Z.to_nat (DSO_DISPLAY_WIDTH K) <= length (DisplayBuffer g))%nat ->
          readAt (DisplayBuffer g') (column i)
          = to_uint8 (getDisplayFrowRawInputValue K table mc (DataBuffer dbc (p + i))))
         /\ (isEffectiveMinMaxMode mc = true ->
             (Z.to_nat (DSO_DISPLAY_WIDTH K) <= length (DisplayBufferMin g))%nat ->
             readAt (DisplayBufferMin g') (column i)
             = to_uint8 (getDisplayFrowRawInputValue K table mc
                           (DataBuffer dbc (p + DATABUFFER_MIN_OFFSET K + i)))).
Proof.
  intros dbc mc p stop column HK Hfuel Hcursor Hphase Hwrap.
  assert (HfuelW : (Z.to_nat (DSO_DISPLAY_WIDTH K) < fuel)%nat) by lia.
  unfold drawRemainingDataBufferValues, drawRemainingDuringAcquisition.
  destruct (run_total K table fv (fun _ g => g) fuel aDrawColor HK
              sequential_acquisitionOnly HfuelW fuel 0%nat (g, []))
    as [[ran fin] Hrun]; [unfold pointerOf; simpl; subst p dbc; lia|].
  rewrite Hrun. exists fin.1, fin.2. split; [now destruct fin|].
  pose proof (sequential_run_stop K table fv fuel aDrawColor HK HfuelW
                _ _ _ _ _ Hrun Hphase Hwrap) as Hstop.
  destruct (sequential_run_state K table fv fuel aDrawColor HK HfuelW
              _ _ _ _ _ Hrun Hcursor) as (_ & _ & _ & _ & _ & Hcount & _).
  unfold pointerOf in Hstop, Hcount. cbn [fst] in Hstop, Hcount.
  fold dbc in Hstop, Hcount. fold p in Hstop, Hcount. fold stop in Hstop.
  split; [exact Hstop|]. intros i Hi Hlast. split.
  - intros Hwide.
    destruct (sequential_run_track K table fv fuel aDrawColor HK HfuelW
                DisplayBuffer 0 (fun _ => True)
                (drawRemainingColumn_main_store K table fv fuel aDrawColor HK HfuelW)
                _ _ _ _ _ Hrun Hcursor I) as (_ & _ & _ & Hcont).
    specialize (Hcont i ltac:(lia) ltac:(lia) Hwide).
    unfold pointerOf in Hcont. cbn [fst] in Hcont. rewrite Z.add_0_r in Hcont. exact Hcont.
  - intros Hmode Hwide.
    destruct (sequential_run_track K table fv fuel aDrawColor HK HfuelW
                DisplayBufferMin (DATABUFFER_MIN_OFFSET K)
                (fun mc => isEffectiveMinMaxMode mc = true)
                (drawRemainingColumn_min_store K table fv fuel aDrawColor HK HfuelW)
                _ _ _ _ _ Hrun Hcursor Hmode) as (_ & _ & _ & Hcont).
    exact (Hcont i ltac:(lia) ltac:(lia) Hwide).
Qed.

Lemma drawRemainingDataBufferValues_shows_samples_witness :
  exists g' calls,
    drawRemainingDataBufferValues (K320 false) identityScale noFFT 1000 9
      (gAtLastColumn true markerInMinimum) = Some (g', calls)
    /\ DataBufferNextDrawPointer (DataBufferControl g') = 2
    /\ readAt (DisplayBuffer g') 319 = 229 /\ readAt (DisplayBuffer g') 0 = 229
    /\ readAt (DisplayBufferMin g') 319 = 255 /\ readAt (DisplayBufferMin g') 0 = 229.
Proof.
  destruct (drawRemainingDataBufferValues_shows_samples (K320 false) identityScale noFFT
              1000 9 (gAtLastColumn true markerInMinimum) (K320_ok false)
              ltac:(simpl; lia) ltac:(simpl; lia) eq_refl eq_refl)
    as (g' & calls & Hrun & Hptr & Hcont).
  exists g', calls. split; [exact Hrun|]. split; [exact Hptr|].
  destruct (Hcont 0 ltac:(simpl; lia) ltac:(simpl; lia)) as [H0 H0min].
  destruct (Hcont 1 ltac:(simpl; lia) ltac:(simpl; lia)) as [H1 H1min].
  repeat split.
  - exact (H0 ltac:(simpl; lia)).
  - exact (H1 ltac:(simpl; lia)).
  - exact (H0min eq_refl ltac:(simpl; lia)).
  - exact (H1min eq_refl ltac:(simpl; lia)).
Defined.

(** X13.  A call of [drawRemainingDataBufferValues] with nothing interfering
    changes the two tracks only in the columns of the samples it processed,
    which are those from the start column on, counted round the screen: every
    other column, the length of both tracks and the byte range of their
    entries are kept, the minimum track is not written at all outside the
    min / max mode, and the display settings and [DisplayBuffer2] stay as
    they were. *)
Theorem drawRemainingDataBufferValues_frame
    (K : DSOConstants) (table : Z -> Z) (fv : DataBufferControlStruct -> Z -> Z)
    (fuel : nat) (aDrawColor : Color_t) (g : Globals) :
  let p := DataBufferNextDrawPointer (DataBufferControl g) in
  constants_ok K ->
  (Z.to_nat (DSO_DISPLAY_WIDTH K) + Z.to_nat (DATABUFFER_DISPLAY_END K + 1 - p) < fuel)%nat ->
  0 <= NextDrawXValue (DataBufferControl g) ->
  exists g' calls,
    drawRemainingDataBufferValues K table fv fuel aDrawColor g = Some (g', calls)
    /\ (DisplayControl g' = DisplayControl g
        /\ DisplayBuffer2 g' = DisplayBuffer2 g)
    /\ (length (DisplayBuffer g') = length (DisplayBuffer g)
        /\ length (DisplayBufferMin g') = length (DisplayBufferMin g))
    /\ (Forall isByte (DisplayBuffer g) -> Forall isByte (DisplayBuffer g'))
    /\ (Forall isByte (DisplayBufferMin g) -> Forall isByte (DisplayBufferMin g'))
    /\ (forall x, 0 <= x ->
          (forall j, 0 <= j < DataBufferNextDrawPointer (DataBufferControl g') - p ->
             x <> (columnOf K g + j) mod DSO_DISPLAY_WIDTH K) ->
          readAt (DisplayBuffer g') x = readAt (DisplayBuffer g) x
          /\ readAt (DisplayBufferMin g') x = readAt (DisplayBufferMin g) x)
    /\ (isEffectiveMinMaxMode (MeasurementControl g) = false ->
        DisplayBufferMin g' = DisplayBufferMin g).
Proof.
  intros p HK Hfuel Hcursor.
  assert (HfuelW : (Z.to_nat (DSO_DISPLAY_WIDTH K) < fuel)%nat) by lia.
  unfold drawRemainingDataBufferValues, drawRemainingDuringAcquisition.
  destruct (run_total K table fv (fun _ g => g) fuel aDrawColor HK
              sequential_acquisitionOnly HfuelW fuel 0%nat (g, []))
    as [[ran fin] Hrun]; [unfold pointerOf; simpl; subst p; lia|].
  rewrite Hrun. exists fin.1, fin.2. split; [now destruct fin|].
  destruct (sequential_run_state K table fv fuel aDrawColor HK HfuelW
              _ _ _ _ _ Hrun Hcursor) as (Hmc & Hdc & _ & _ & Hb2 & Hcount & _).
  unfold pointerOf in Hcount. cbn [fst] in Hcount, Hmc, Hdc, Hb2. fold p in Hcount.
  destruct (sequential_run_track K table fv fuel aDrawColor HK HfuelW
              DisplayBuffer 0 (fun _ => True)
              (drawRemainingColumn_main_store K table fv fuel aDrawColor HK HfuelW)
              _ _ _ _ _ Hrun Hcursor I) as (Hlen & Hbytes & Hframe & _).
  pose proof (sequential_run_single_track K table fv fuel aDrawColor HK HfuelW
                _ _ _ _ _ Hrun) as Hsingle.
  pose proof (sequential_run_track K table fv fuel aDrawColor HK HfuelW
                DisplayBufferMin (DATABUFFER_MIN_OFFSET K)
                (fun mc => isEffectiveMinMaxMode mc = true)
                (drawRemainingColumn_min_store K table fv fuel aDrawColor HK HfuelW)
                _ _ _ _ _ Hrun Hcursor) as Hboth.
  cbn [fst] in Hlen, Hbytes, Hframe, Hsingle, Hboth.
  rewrite Hcount.
  replace (p + Z.of_nat (length ran) - p) with (Z.of_nat (length ran)) by lia.
  destruct (isEffectiveMinMaxMode (MeasurementControl g)) eqn:Hmode.
  - destruct (Hboth eq_refl) as (Hlen' & Hbytes' & Hframe' & _).
    repeat split; auto.
  - rewrite (Hsingle eq_refl). repeat split; auto.
Qed.

Lemma drawRemainingDataBufferValues_frame_witness :
  exists g' calls,
    drawRemainingDataBufferValues (K320 false) identityScale noFFT 1000 9
      (gAtLastColumn false (memoryOf [10; 20])) = Some (g', calls)
    /\ readAt (DisplayBuffer g') 1 = 100
    /\ DisplayBufferMin g' = replicate 320 110.
Proof.
  destruct (drawRemainingDataBufferValues_frame (K320 false) identityScale noFFT
              1000 9 (gAtLastColumn false (memoryOf [10; 20])) (K320_ok false)
              ltac:(simpl; lia) ltac:(simpl; lia))
    as (g' & calls & Hrun & _ & _ & _ & _ & Hframe & Hmin).
  exists g', calls. split; [exact Hrun|]. split.
  - assert (Hptr : DataBufferNextDrawPointer (DataBufferControl g') = 2).
    { vm_compute in Hrun. injection Hrun as <- _. reflexivity. }
    rewrite Hptr in Hframe.
    apply (Hframe 1 ltac:(lia)). intros j Hj.
    assert (Hj2 : j = 0 \/ j = 1) by (simpl in Hj; lia).
    destruct Hj2 as [-> | ->]; vm_compute; discriminate.
  - exact (Hmin eq_refl).
Defined.

(** X14.  A call of [drawRemainingDataBufferValues] with nothing interfering
    refreshes the spectrum only when the spectrum is switched on and the run
    processes the sample at [DATABUFFER_PRE_TRIGGER_SIZE + FFT_SIZE - 1]:
    otherwise [DisplayBufferFFT] is unchanged and no call of the run fills a
    rectangle. *)
Theorem drawRemainingDataBufferValues_spectrum_untouched
    (K : DSOConstants) (table : Z -> Z) (fv : DataBufferControlStruct -> Z -> Z)
    (fuel : nat) (aDrawColor : Color_t) (g : Globals) :
  let p := DataBufferNextDrawPointer (DataBufferControl g) in
  constants_ok K ->
  (Z.to_nat (DSO_DISPLAY_WIDTH K) + Z.to_nat (DATABUFFER_DISPLAY_END K + 1 - p) < fuel)%nat ->
  0 <= NextDrawXValue (DataBufferControl g) ->
  exists g' calls,
    drawRemainingDataBufferValues K table fv fuel aDrawColor g = Some (g', calls)
    /\ (ShowFFT (DisplayControl g) = false
        \/ fftSample K < p
        \/ DataBufferNextDrawPointer (DataBufferControl g') <= fftSample K ->
        DisplayBufferFFT g' = DisplayBufferFFT g
        /\ forall c, c ∈ calls -> isFill c = false).
Proof.
  intros p HK Hfuel Hcursor.
  assert (HfuelW : (Z.to_nat (DSO_DISPLAY_WIDTH K) < fuel)%nat) by lia.
  unfold drawRemainingDataBufferValues, drawRemainingDuringAcquisition.
  destruct (run_total K table fv (fun _ g => g) fuel aDrawColor HK
              sequential_acquisitionOnly HfuelW fuel 0%nat (g, []))
    as [[ran fin] Hrun]; [unfold pointerOf; simpl; subst p; lia|].
  rewrite Hrun. exists fin.1, fin.2. split; [now destruct fin|].
  destruct (sequential_run_state K table fv fuel aDrawColor HK HfuelW
              _ _ _ _ _ Hrun Hcursor) as (_ & _ & _ & _ & _ & Hcount & _).
  unfold pointerOf in Hcount. cbn [fst] in Hcount. fold p in Hcount.
  intros Hno.
  destruct (sequential_run_spectrum K table fv fuel aDrawColor HK HfuelW
              _ _ _ _ _ Hrun) as [Hbuffer Hcalls].
  { unfold pointerOf. cbn [fst]. fold p.
    destruct Hno as [Hno|Hno]; [now right|left]. intros j Hj. lia. }
  split; [exact Hbuffer|]. intros c Hc.
  destruct (isFill c) eqn:Hfill; [|reflexivity].
  apply Hcalls in Hc; [|exact Hfill]. now apply elem_of_nil in Hc.
Qed.

Lemma drawRemainingDataBufferValues_spectrum_untouched_witness :
  exists g' calls,
    drawRemainingDataBufferValues (K320 false) identityScale peakAtBin0 1000 9
      (gAtLastColumn false (memoryOf [10; 20])) = Some (g', calls)
    /\ DisplayBufferFFT g' = replicate 128 240
    /\ forall c, c ∈ calls -> isFill c = false.
Proof.
  destruct (drawRemainingDataBufferValues_spectrum_untouched (K320 false) identityScale
              peakAtBin0 1000 9 (gAtLastColumn false (memoryOf [10; 20])) (K320_ok false)
              ltac:(simpl; lia) ltac:(simpl; lia))
    as (g' & calls & Hrun & Hno).
  exists g', calls. split; [exact Hrun|].
  apply Hno. left. reflexivity.
Defined.

(** ** The spectrum bars, stored *)

Lemma fftLoop_buffer (K : DSOConstants) (fv : DataBufferControlStruct -> Z -> Z)
    (aColor : Color_t) (dbc : DataBufferControlStruct) (fuel : nat) :
  constants_ok K ->
  forall (k : Z) (buffer : list Z) (out : list DrawCall),
    0 <= k ->
    (Z.to_nat (DSO_DISPLAY_WIDTH K - 3 * k) < fuel)%nat ->
    exists buffer' out',
      fftLoop K fv fuel aColor dbc (3 * k) k buffer out = Some (buffer', out')
      /\ length buffer' = length buffer
      /\ (forall j, k <= j -> 3 * j < DSO_DISPLAY_WIDTH K -> (Z.to_nat j < length buffer)%nat ->
            readAt buffer' j = to_uint8 (fftBarTop K fv dbc j))
      /\ (forall j, 0 <= j -> j < k \/ DSO_DISPLAY_WIDTH K <= 3 * j ->
            readAt buffer' j = readAt buffer j)
      /\ ((forall j, k <= j -> 3 * j < DSO_DISPLAY_WIDTH K ->
             readAt buffer j = fftBarTop K fv dbc j) -> out' = out).
Proof.
  intros HK. pose proof HK as [_ _ _ HW _].
  induction fuel as [|fuel IH]; intros k buffer out Hk Hfuel; [lia|].
  simpl. destruct (Z.ltb_spec (3 * k) (DSO_DISPLAY_WIDTH K)) as [Hlt|Hge].
  - rewrite wrap32_small by (unfold int_range; lia).
    replace (3 * k + 3) with (3 * (k + 1)) by lia.
    edestruct (IH (k + 1) (storeAt buffer k (fftBarTop K fv dbc k))
                 (out ++ fftBar K aColor (3 * k) (fftBarTop K fv dbc k) (readAt buffer k)))
      as (buffer' & out' & -> & Hlen & Hnew & Hold & Hsame); [lia|lia|].
    exists buffer', out'. split; [reflexivity|].
    rewrite length_storeAt in Hlen, Hnew. split; [exact Hlen|]. split; [|split].
    + intros j Hj Hjw Hjlen. destruct (Z.eq_dec j k) as [->|Hjk].
      * rewrite Hold by lia. now apply readAt_storeAt_eq.
      * apply Hnew; [lia|assumption|assumption].
    + intros j Hj Hout. rewrite Hold by lia. apply readAt_storeAt_ne; lia.
    + intros Hstored. rewrite Hsame.
      * rewrite (Hstored k) by lia. rewrite fftBar_same. apply app_nil_r.
      * intros j Hj Hjw. rewrite readAt_storeAt_ne by lia. apply Hstored; lia.
  - exists buffer, out. split; [reflexivity|]. split; [reflexivity|].
    split; [|split]; auto. intros j Hj Hjw. lia.
Qed.

(** X15.  With the spectrum switched on [draw128FFTValuesFast] stores the
    top of every bar, as a byte, in [DisplayBufferFFT] and leaves the length
    and the entries beyond the last bar alone.  When the buffer has an entry
    for every bar and all tops fit a byte, drawing the same spectrum again,
    in any colour, fills nothing. *)
Theorem draw128FFTValuesFast_stores_tops
    (K : DSOConstants) (fv : DataBufferControlStruct -> Z -> Z)
    (fuel : nat) (aColor : Color_t) (g : Globals) :
  let top := fftBarTop K fv (DataBufferControl g) in
  constants_ok K ->
  (Z.to_nat (DSO_DISPLAY_WIDTH K) < fuel)%nat ->
  ShowFFT (DisplayControl g) = true ->
  exists g' calls,
    draw128FFTValuesFast K fv fuel aColor g = Some (g', calls)
    /\ length (DisplayBufferFFT g') = length (DisplayBufferFFT g)
    /\ (forall k, 0 <= k -> 3 * k < DSO_DISPLAY_WIDTH K ->
          (Z.to_nat k < length (DisplayBufferFFT g))%nat ->
          readAt (DisplayBufferFFT g') k = to_uint8 (top k))
    /\ (forall k, 0 <= k -> DSO_DISPLAY_WIDTH K <= 3 * k ->
          readAt (DisplayBufferFFT g') k = readAt (DisplayBufferFFT g) k)
    /\ ((forall k, 0 <= k -> 3 * k < DSO_DISPLAY_WIDTH K ->
           top k < 2 ^ 8 /\ (Z.to_nat k < length (DisplayBufferFFT g))%nat) ->
        forall aColor', exists g'',
          draw128FFTValuesFast K fv fuel aColor' g' = Some (g'', [])).
Proof.
  intros top HK Hfuel Hshow. unfold draw128FFTValuesFast at 1. rewrite Hshow.
  destruct (fftLoop_buffer K fv aColor (DataBufferControl g) fuel HK
              0 (DisplayBufferFFT g) [] ltac:(lia) ltac:(lia))
    as (buffer' & out' & Hrun & Hlen & Hnew & Hold & _).
  change (3 * 0) with 0 in Hrun. rewrite Hrun. cbn [mbind option_bind fst snd].
  eexists _, _. split; [reflexivity|]. cbn [DisplayBufferFFT set_DisplayBufferFFT].
  split; [exact Hlen|]. split; [|split].
  - intros k Hk Hkw Hklen. now apply Hnew.
  - intros k Hk Hkw. apply Hold; [lia|now right].
  - intros Hbytes aColor'. unfold draw128FFTValuesFast.
    cbn [DisplayControl DataBufferControl DisplayBufferFFT set_DisplayBufferFFT].
    rewrite Hshow.
    destruct (fftLoop_buffer K fv aColor' (DataBufferControl g) fuel HK
                0 buffer' [] ltac:(lia) ltac:(lia))
      as (buffer'' & out'' & Hrun' & _ & _ & _ & Hsame).
    change (3 * 0) with 0 in Hrun'. rewrite Hrun'. cbn [mbind option_bind fst snd].
    rewrite Hsame; [eexists; reflexivity|].
    intros j Hj Hjw. destruct (Hbytes j Hj Hjw) as [Hbyte Hjlen].
    rewrite Hnew by assumption. apply to_uint8_small.
    split; [|exact Hbyte]. unfold fftBarTop, to_uint16.
    apply Z.mod_pos_bound. lia.
Qed.

Lemma draw128FFTValuesFast_stores_tops_witness :
  exists g' calls,
    draw128FFTValuesFast (K320 false) peakAtBin0 400 7 gShowFFT = Some (g', calls)
    /\ readAt (DisplayBufferFFT g') 0 = 208
    /\ readAt (DisplayBufferFFT g') 1 = 240
    /\ exists g'', draw128FFTValuesFast (K320 false) peakAtBin0 400 3 g' = Some (g'', []).
Proof.
  destruct (draw128FFTValuesFast_stores_tops (K320 false) peakAtBin0 400 7 gShowFFT
              (K320_ok false) ltac:(simpl; lia) eq_refl)
    as (g' & calls & Hrun & _ & Hnew & _ & Hagain).
  exists g', calls. split; [exact Hrun|]. split; [|split].
  - exact (Hnew 0 ltac:(lia) ltac:(simpl; lia) ltac:(simpl; lia)).
  - exact (Hnew 1 ltac:(lia) ltac:(simpl; lia) ltac:(simpl; lia)).
  - apply Hagain. intros k Hk Hkw. simpl in Hkw. split; [|simpl; lia].
    unfold fftBarTop, peakAtBin0. destruct (k =? 0); vm_compute; reflexivity.
Defined.

(** ** What clearing the trigger line draws *)

Lemma restoreGrid_only (K : DSOConstants) (y : Z) (fuel : nat) :
  constants_ok K ->
  forall (x : Z) (calls : list DrawCall),
    - 2 ^ 30 <= x ->
    restoreGrid K fuel x y = Some calls ->
    forall c, c ∈ calls ->
      exists j, 0 <= j /\ x + j * TIMING_GRID_WIDTH K < DSO_DISPLAY_WIDTH K - 1
        /\ c = drawPixel BlueDisplay1 (x + j * TIMING_GRID_WIDTH K) y (COLOR_GRID_LINES K).
Proof.
  intros HK. destruct HK as [_ _ _ HW HG].
  induction fuel as [|fuel IH]; intros x calls Hx Hrun c Hc; [discriminate|].
  simpl in Hrun. destruct (Z.ltb_spec x (DSO_DISPLAY_WIDTH K - 1)) as [Hlt|Hge].
  - rewrite wrap32_small in Hrun by (unfold int_range; lia).
    destruct (restoreGrid K fuel (x + TIMING_GRID_WIDTH K) y) as [rest|] eqn:Hrest;
      [|discriminate].
    simpl in Hrun. injection Hrun as <-.
    apply elem_of_cons in Hc as [->|Hc].
    + exists 0. split; [lia|]. split; [lia|]. f_equal. lia.
    + destruct (IH (x + TIMING_GRID_WIDTH K) rest ltac:(lia) Hrest c Hc)
        as (j & Hj & Hbound & ->).
      exists (j + 1). split; [lia|]. split; [lia|]. f_equal. lia.
  - injection Hrun as <-. now apply elem_of_nil in Hc.
Qed.

Lemma restoreGraph_only (K : DSOConstants) (buffer : list Z) (y : Z) (n : nat) :
  forall (i0 : Z) (c : DrawCall),
    c ∈ restoreGraph K n i0 buffer y ->
    exists i, i0 <= i < i0 + Z.of_nat n /\ readAt buffer i = y
      /\ c = drawPixel BlueDisplay1 i y (COLOR_DATA_HOLD K).
Proof.
  induction n as [|n IH]; intros i0 c Hc; [now apply elem_of_nil in Hc|].
  simpl in Hc. apply elem_of_app in Hc as [Hc|Hc].
  - destruct (Z.eqb_spec (readAt buffer i0) y) as [E|E]; [|now apply elem_of_nil in Hc].
    apply list_elem_of_singleton in Hc as ->.
    exists i0. split; [lia|]. split; [exact E|]. now rewrite E.
  - destruct (IH _ _ Hc) as (i & Hi & Hy & ->).
    exists i. split; [lia|]. auto.
Qed.

(** X16.  [clearTriggerLine] draws on the row of the old line only: after
    the erasing line every call is a pixel of that row, either a grid pixel
    in a grid column below [DSO_DISPLAY_WIDTH - 1] or, with the acquisition
    stopped, a pixel in the hold colour at a column whose stored main track
    value is that row.  While the acquisition runs no waveform pixel is
    redrawn. *)
Theorem clearTriggerLine_draws_on_row_only
    (K : DSOConstants) (g : Globals) (y : Z) (fuel : nat) :
  constants_ok K ->
  0 <= y < 2 ^ 8 ->
  (Z.to_nat (DSO_DISPLAY_WIDTH K) < fuel)%nat ->
  exists restored,
    clearTriggerLine K fuel g y
    = Some (drawLineRel BlueDisplay1 0 y (DSO_DISPLAY_WIDTH K) 0 (COLOR_BACKGROUND_DSO K)
            :: restored)
    /\ forall c, c ∈ restored ->
         (exists j, 0 <= j
            /\ (j + 1) * TIMING_GRID_WIDTH K - 1 < DSO_DISPLAY_WIDTH K - 1
            /\ c = drawPixel BlueDisplay1 ((j + 1) * TIMING_GRID_WIDTH K - 1) y
                     (COLOR_GRID_LINES K))
         \/ (isRunning (MeasurementControl g) = false
             /\ exists i, 0 <= i < DSO_DISPLAY_WIDTH K
                  /\ readAt (DisplayBuffer g) i = y
                  /\ c = drawPixel BlueDisplay1 i y (COLOR_DATA_HOLD K)).
Proof.
  intros HK Hy Hfuel. pose proof HK as [_ _ _ HW HG].
  destruct (restoreGrid_spec K y fuel HK (TIMING_GRID_WIDTH K - 1) ltac:(lia) ltac:(lia))
    as (grid & Hgrid & _).
  unfold clearTriggerLine. rewrite (to_uint8_small y Hy), Hgrid. simpl.
  eexists. split; [reflexivity|].
  intros c Hc. apply elem_of_app in Hc as [Hc|Hc].
  - left. destruct (restoreGrid_only K y fuel HK (TIMING_GRID_WIDTH K - 1) grid
                      ltac:(lia) Hgrid c Hc) as (j & Hj & Hbound & ->).
    exists j. split; [exact Hj|].
    replace ((j + 1) * TIMING_GRID_WIDTH K - 1)
      with (TIMING_GRID_WIDTH K - 1 + j * TIMING_GRID_WIDTH K) by lia.
    auto.
  - right. destruct (isRunning (MeasurementControl g)); [now apply elem_of_nil in Hc|].
    split; [reflexivity|].
    destruct (restoreGraph_only K _ _ _ _ _ Hc) as (i & Hi & Hrow & ->).
    exists i. split; [lia|]. auto.
Qed.

Lemma clearTriggerLine_draws_on_row_only_witness :
  exists restored,
    clearTriggerLine (K320 false) 400
      (gSample (mcSample true false 0) 0 (memoryOf []) 0 0 0
         (replicate 320 100) (replicate 320 255)) 100
    = Some (drawLineRel BlueDisplay1 0 100 320 0 65535 :: restored)
    /\ length restored = 9%nat
    /\ forall c, c ∈ restored -> rowsOf c = [100].
Proof.
  destruct (clearTriggerLine_draws_on_row_only (K320 false)
              (gSample (mcSample true false 0) 0 (memoryOf []) 0 0 0
                 (replicate 320 100) (replicate 320 255)) 100 400
              (K320_ok false) ltac:(lia) ltac:(simpl; lia))
    as (restored & Hrun & Honly).
  exists restored. split; [exact Hrun|]. split.
  - vm_compute in Hrun. injection Hrun as <-. reflexivity.
  - intros c Hc. destruct (Honly c Hc) as [(j & _ & _ & ->) | (Hstop & _)].
    + reflexivity.
    + discriminate Hstop.
Defined.

(** ** Voltages *)

Lemma wrap32_idem (z : Z) : wrap32 (wrap32 z) = wrap32 z.
Proof. apply wrap32_small, wrap32_range. Qed.

(** X17.  The voltage of a screen row does not depend on the channel mode:
    the AC zero reading that [getInputRawFromDisplayValue] adds in AC mode is
    taken off again by [getFloatFromRawValue], so two measurement states with
    the same volt factor, range and range offset give every row the same
    voltage, whatever their channel modes and AC zero readings.  For a row up
    to [DISPLAY_VALUE_FOR_ZERO], a positive scale factor and no wrap-around it
    is the volt factor times the row's distance from the zero row, scaled
    back, plus the range offset. *)
Theorem getFloatFromDisplayValue_mode_independent
    (Float : Type) (floatTimesInt : Float -> Z -> Float) (K : DSOConstants)
    (table : Z -> Z) (actualDSORawToVoltFactor : Float)
    (mc : MeasurementControlStruct) (aDisplayValue : Z) :
  let d := to_uint8 aDisplayValue in
  let factor := table (DisplayRangeIndex mc) in
  let offset := RawOffsetValueForDisplayRange mc in
  (forall mc',
     DisplayRangeIndex mc' = DisplayRangeIndex mc ->
     RawOffsetValueForDisplayRange mc' = offset ->
     getFloatFromDisplayValue Float floatTimesInt K table actualDSORawToVoltFactor mc'
       aDisplayValue
     = getFloatFromDisplayValue Float floatTimesInt K table actualDSORawToVoltFactor mc
         aDisplayValue)
  /\ (constants_ok K ->
      0 < factor ->
      d <= DISPLAY_VALUE_FOR_ZERO K ->
      (DISPLAY_VALUE_FOR_ZERO K - d) * 2 ^ DSO_SCALE_FACTOR_SHIFT K < 2 ^ 31 ->
      int_range ((DISPLAY_VALUE_FOR_ZERO K - d) * 2 ^ DSO_SCALE_FACTOR_SHIFT K / factor
                 + offset) ->
      getFloatFromDisplayValue Float floatTimesInt K table actualDSORawToVoltFactor mc
        aDisplayValue
      = floatTimesInt actualDSORawToVoltFactor
          ((DISPLAY_VALUE_FOR_ZERO K - d) * 2 ^ DSO_SCALE_FACTOR_SHIFT K / factor + offset)).
Proof.
  intros d factor offset.
  assert (Hany : forall m,
            getFloatFromDisplayValue Float floatTimesInt K table actualDSORawToVoltFactor m
              aDisplayValue
            = floatTimesInt actualDSORawToVoltFactor
                (wrap32 (cdiv (wrap32 (Z.shiftl (wrap32 (DISPLAY_VALUE_FOR_ZERO K - d))
                                         (DSO_SCALE_FACTOR_SHIFT K)))
                           (table (DisplayRangeIndex m))
                         + RawOffsetValueForDisplayRange m))).
  { intros m. unfold getFloatFromDisplayValue, getFloatFromRawValue,
      getInputRawFromDisplayValue. fold d.
    destruct (ChannelIsACMode m); [|reflexivity].
    rewrite wrap32_sub_l. f_equal.
    match goal with
    | |- wrap32 (wrap32 ?a + ?z - ?z) = _ =>
        replace (wrap32 a + z - z) with (wrap32 a) by lia
    end.
    apply wrap32_idem. }
  split.
  - intros mc' Hindex Hoffset. rewrite !Hany, Hindex, Hoffset. reflexivity.
  - intros HK Hf Hd Hfit Hsum. rewrite Hany. fold factor offset. f_equal.
    pose proof HK as [_ _ Hshift _ _].
    assert (Hpow : 0 < 2 ^ DSO_SCALE_FACTOR_SHIFT K) by (apply Z.pow_pos_nonneg; lia).
    assert (Hrow : 0 <= DISPLAY_VALUE_FOR_ZERO K - d) by lia.
    assert (Hrow' : DISPLAY_VALUE_FOR_ZERO K - d < 2 ^ 31) by nia.
    rewrite (wrap32_small (DISPLAY_VALUE_FOR_ZERO K - d)) by (unfold int_range; lia).
    rewrite Z.shiftl_mul_pow2 by lia.
    rewrite (wrap32_small (_ * _)) by (unfold int_range; nia).
    unfold cdiv. rewrite Z.quot_div_nonneg by nia.
    assert (Hq : 0 <= (DISPLAY_VALUE_FOR_ZERO K - d) * 2 ^ DSO_SCALE_FACTOR_SHIFT K / factor
                 < 2 ^ 31).
    { split; [apply Z.div_pos; nia|].
      apply Z.div_lt_upper_bound; nia. }
    rewrite (wrap32_small (_ / _)) by (unfold int_range; lia).
    now apply wrap32_small.
Qed.

Lemma getFloatFromDisplayValue_mode_independent_witness :
  getFloatFromDisplayValue Z Z.mul (K320 false) range3Scale 3
    {| isRunning := false; ChannelIsACMode := true; isEffectiveMinMaxMode := false;
       TriggerPhaseJustEnded := false; TriggerMode := 0; RawDSOReadingACZero := 2048;
       RawOffsetValueForDisplayRange := 100; DisplayRangeIndex := 3;
       RawTriggerLevel := 0; RawValueMax := 0; RawValueMin := 0 |} 169
  = 3 * 397.
Proof.
  etransitivity.
  - apply (proj2 (getFloatFromDisplayValue_mode_independent Z Z.mul
                    (K320 false) range3Scale 3 _ 169) (K320_ok false));
      vm_compute; try split; congruence.
  - reflexivity.
Defined.

(** X18.  The peak to peak value of [printInfo] is the voltage of the
    difference of maximum and minimum in both channel modes: what [printInfo]
    adds to the difference in AC mode is what [getFloatFromRawValue] takes
    off. *)
Theorem printInfo_peak_to_peak
    (Float : Type) (floatTimesInt : Float -> Z -> Float)
    (actualDSORawToVoltFactor : Float) (mc : MeasurementControlStruct) :
  int_range (RawValueMax mc - RawValueMin mc) ->
  getFloatFromRawValue Float floatTimesInt actualDSORawToVoltFactor mc
    (printInfo_tValueDiff mc)
  = floatTimesInt actualDSORawToVoltFactor (RawValueMax mc - RawValueMin mc).
Proof.
  intros Hdiff. unfold getFloatFromRawValue, printInfo_tValueDiff.
  rewrite (wrap32_small _ Hdiff).
  destruct (ChannelIsACMode mc); [|reflexivity].
  rewrite wrap32_sub_l. f_equal.
  replace (RawValueMax mc - RawValueMin mc + RawDSOReadingACZero mc
           - RawDSOReadingACZero mc)
    with (RawValueMax mc - RawValueMin mc) by lia.
  now apply wrap32_small.
Qed.

Lemma printInfo_peak_to_peak_witness :
  getFloatFromRawValue Z Z.mul 3
    {| isRunning := false; ChannelIsACMode := true; isEffectiveMinMaxMode := false;
       TriggerPhaseJustEnded := false; TriggerMode := 0; RawDSOReadingACZero := 2048;
       RawOffsetValueForDisplayRange := 100; DisplayRangeIndex := 3;
       RawTriggerLevel := 0; RawValueMax := 2500; RawValueMin := 1900 |}
    (printInfo_tValueDiff
       {| isRunning := false; ChannelIsACMode := true; isEffectiveMinMaxMode := false;
          TriggerPhaseJustEnded := false; TriggerMode := 0; RawDSOReadingACZero := 2048;
          RawOffsetValueForDisplayRange := 100; DisplayRangeIndex := 3;
          RawTriggerLevel := 0; RawValueMax := 2500; RawValueMin := 1900 |})
  = 3 * 600.
Proof.
  etransitivity.
  - apply (printInfo_peak_to_peak Z Z.mul 3). vm_compute. split; congruence.
  - reflexivity.
Defined.

(** X19.  [printTriggerInfo] prints the trigger level with 2, 1 or 0 digits
    after the decimal point, never more for a higher range index and never
    more in AC than in DC mode, and these are the digits [printInfo] prints
    the trigger level with on its third line (one less than for the voltages
    of its first line) when both look at the same range index. *)
Theorem printTriggerInfo_precision (ac : bool) (index index' : Z) :
  0 <= printTriggerInfo_tPrecision ac index <= 2
  /\ printTriggerInfo_tPrecision ac index = printInfo_tPrecision ac index - 1
  /\ printTriggerInfo_tPrecision true index <= printTriggerInfo_tPrecision false index
  /\ (index <= index' ->
      printTriggerInfo_tPrecision ac index' <= printTriggerInfo_tPrecision ac index).
Proof.
  unfold printTriggerInfo_tPrecision, printInfo_tPrecision.
  destruct ac; cbn [andb orb];
    destruct (Z.geb_spec index 8), (Z.geb_spec index 10), (Z.geb_spec index 11),
      (Z.geb_spec index' 8), (Z.geb_spec index' 10), (Z.geb_spec index' 11);
    cbn [andb orb]; lia.
Qed.

Lemma printTriggerInfo_precision_witness :
  printTriggerInfo_tPrecision true 11 <= printTriggerInfo_tPrecision true 8
  /\ printTriggerInfo_tPrecision true 11 = 0 /\ printTriggerInfo_tPrecision true 8 = 1.
Proof.
  split; [|split; reflexivity].
  apply (printTriggerInfo_precision true 8 11). lia.
Defined.

(** ** The grid *)

Section GridFacts.

Variable K : DSOConstants.
Variable T : GridConstants.
Variable gridLabel : GridMeasurement -> nat -> GridLabel.
Hypothesis HK : constants_ok K.
Hypothesis HG : 0 < HORIZONTAL_GRID_HEIGHT K < 2 ^ 30.

Local Abbreviation W := (DSO_DISPLAY_WIDTH K).

Lemma gridColumns_spec (aColor : Color_t) (fuel : nat) :
  forall x : Z,
    - 2 ^ 30 <= x ->
    (Z.to_nat (W - x) < fuel)%nat ->
    exists calls,
      gridColumns K fuel x aColor = Some calls
      /\ (forall j, 0 <= j -> x + j * TIMING_GRID_WIDTH K < W ->
            graphic (drawLineRel BlueDisplay1 (x + j * TIMING_GRID_WIDTH K) 0 0
                       (DSO_DISPLAY_HEIGHT K) aColor) ∈ calls)
      /\ (forall c, c ∈ calls -> isLabelClear c = false).
Proof.
  pose proof HK as [_ _ _ HW HT].
  induction fuel as [|fuel IH]; intros x Hx Hfuel; [lia|].
  simpl. destruct (Z.ltb_spec x W) as [Hlt|Hge].
  - rewrite wrap32_small by (unfold int_range; lia).
    destruct (IH (x + TIMING_GRID_WIDTH K) ltac:(lia) ltac:(lia)) as (calls & -> & Hin & Hno).
    eexists. split; [reflexivity|]. split.
    + intros j Hj Hbound. apply elem_of_cons.
      destruct (Z.eq_dec j 0) as [->|Hj0].
      * left. do 2 f_equal. lia.
      * right.
        replace (x + j * TIMING_GRID_WIDTH K)
          with (x + TIMING_GRID_WIDTH K + (j - 1) * TIMING_GRID_WIDTH K) by lia.
        apply Hin; lia.
    + intros c Hc. apply elem_of_cons in Hc as [->|Hc]; [reflexivity|auto].
  - exists []. split; [reflexivity|]. split.
    + intros j Hj Hbound. nia.
    + intros c Hc. now apply elem_of_nil in Hc.
Qed.

Lemma lineWithLabel_no_clear (aColor : Color_t) (m : GridMeasurement) (y off : Z) (n : nat)
    (c : ScreenCall) :
  c ∈ lineWithLabel K T gridLabel aColor m y off n -> isLabelClear c = false.
Proof.
  unfold lineWithLabel. intros Hc.
  apply elem_of_cons in Hc as [->|Hc]; [reflexivity|].
  apply list_elem_of_singleton in Hc as ->. reflexivity.
Qed.

Lemma gridRows_spec (changed : bool) (aColor : Color_t) (m : GridMeasurement) (fuel : nat) :
  forall (y off : Z) (n : nat),
    - 2 ^ 30 <= y < 2 ^ 30 ->
    (Z.to_nat y < fuel)%nat ->
    exists calls,
      gridRows K T gridLabel fuel changed aColor m y off n = Some calls
      /\ (changed = false -> forall c, c ∈ calls -> isLabelClear c = false)
      /\ (forall k : nat, y - Z.of_nat k * HORIZONTAL_GRID_HEIGHT K > 0 ->
            (forall c,
               c ∈ lineWithLabel K T gridLabel aColor m
                     (y - Z.of_nat k * HORIZONTAL_GRID_HEIGHT K) (captionOffset T off k)
                     (n + k) ->
               c ∈ calls)
            /\ (changed = true ->
                forall c,
                  c ∈ clearLabel K T aColor (y - Z.of_nat k * HORIZONTAL_GRID_HEIGHT K)
                        (captionOffset T off k) ->
                  c ∈ calls)).
Proof.
  induction fuel as [|fuel IH]; intros y off n Hy Hfuel; [lia|].
  cbn [gridRows]. destruct (Z.gtb_spec y 0) as [Hpos|Hnot].
  - rewrite (wrap32_small (y - HORIZONTAL_GRID_HEIGHT K)) by (unfold int_range; lia).
    destruct (IH (y - HORIZONTAL_GRID_HEIGHT K) (wrap32 (- cdiv (TEXT_SIZE_11_ASCEND T) 2))
                (S n) ltac:(lia) ltac:(lia)) as (rest & -> & Hno & Hin).
    cbn [mbind option_bind]. eexists. split; [reflexivity|]. split.
    + intros -> c Hc. cbn [app] in Hc. apply elem_of_app in Hc as [Hc|Hc].
      * eapply lineWithLabel_no_clear, Hc.
      * now apply Hno.
    + intros [|k] Hk.
      * rewrite Z.mul_0_l, Z.sub_0_r, Nat.add_0_r. simpl captionOffset. split.
        -- intros c Hc. apply elem_of_app. right. apply elem_of_app. now left.
        -- intros -> c Hc. apply elem_of_app. now left.
      * destruct (Hin k) as [Hline Hclear].
        { lia. }
        replace (y - Z.of_nat (S k) * HORIZONTAL_GRID_HEIGHT K)
          with (y - HORIZONTAL_GRID_HEIGHT K - Z.of_nat k * HORIZONTAL_GRID_HEIGHT K)
          by lia.
        replace (n + S k)%nat with (S n + k)%nat by lia.
        assert (Hoff : captionOffset T off (S k)
                       = captionOffset T (wrap32 (- cdiv (TEXT_SIZE_11_ASCEND T) 2)) k)
          by (now destruct k).
        rewrite Hoff. split.
        -- intros c Hc. apply elem_of_app. right. apply elem_of_app. right. now apply Hline.
        -- intros Hch c Hc. apply elem_of_app. right. apply elem_of_app. right.
           now apply Hclear.
  - exists []. split; [reflexivity|]. split.
    + intros _ c Hc. now apply elem_of_nil in Hc.
    + intros k Hk. nia.
Qed.

Lemma labelChanged_same (m : GridMeasurement) :
  labelChanged {| LastDisplayRangeIndex := DisplayRangeIndexForPrint m;
                  LastOffsetGridCount := OffsetGridCount m |} m = false.
Proof. unfold labelChanged. simpl. now rewrite !Z.eqb_refl. Qed.

Lemma labelChanged_false (st : GridLabelState) (m : GridMeasurement) :
  labelChanged st m = false ->
  st = {| LastDisplayRangeIndex := DisplayRangeIndexForPrint m;
          LastOffsetGridCount := OffsetGridCount m |}.
Proof.
  unfold labelChanged. intros H. apply orb_false_iff in H as [H1 H2].
  apply negb_false_iff, Z.eqb_eq in H1, H2. destruct st. simpl in *. congruence.
Qed.

Lemma drawTriggerLine_no_clear (g : Globals) (c : ScreenCall) :
  c ∈ graphic <$> drawTriggerLine K g -> isLabelClear c = false.
Proof.
  unfold drawTriggerLine. destruct (_ && _); simpl; intros Hc.
  - apply list_elem_of_singleton in Hc as ->. reflexivity.
  - now apply elem_of_nil in Hc.
Qed.

End GridFacts.

(** X20.  [drawGridLinesWithHorizLabelsAndTriggerLine] remembers the range
    and the offset count of the labels it drew: after a call the two
    remembered values are the current ones, and the call clears the old
    labels (one fill per horizontal line, followed by the restored piece of
    the vertical line) exactly when one of them differed.  So a second call
    for the same range and offset, in any colour, clears no label and leaves
    the remembered values as they are. *)
Theorem drawGrid_clears_labels_on_change
    (K : DSOConstants) (T : GridConstants) (gridLabel : GridMeasurement -> nat -> GridLabel)
    (fuel : nat) (aColor : Color_t) (st : GridLabelState) (m : GridMeasurement)
    (g : Globals) :
  constants_ok K ->
  0 < HORIZONTAL_GRID_HEIGHT K < 2 ^ 30 ->
  (Z.to_nat (DSO_DISPLAY_WIDTH K) < fuel)%nat ->
  (Z.to_nat (DISPLAY_VALUE_FOR_ZERO K) < fuel)%nat ->
  exists st' calls,
    drawGridLinesWithHorizLabelsAndTriggerLine K T gridLabel fuel aColor st m g
    = Some (st', calls)
    /\ LastDisplayRangeIndex st' = DisplayRangeIndexForPrint m
    /\ LastOffsetGridCount st' = OffsetGridCount m
    /\ (labelChanged st m = false ->
        st' = st /\ forall c, c ∈ calls -> isLabelClear c = false)
    /\ (labelChanged st m = true ->
        forall k : nat,
          DISPLAY_VALUE_FOR_ZERO K - Z.of_nat k * HORIZONTAL_GRID_HEIGHT K > 0 ->
          forall c,
            c ∈ clearLabel K T aColor
                  (DISPLAY_VALUE_FOR_ZERO K - Z.of_nat k * HORIZONTAL_GRID_HEIGHT K)
                  (captionOffset T 1 k) ->
            c ∈ calls)
    /\ (forall aColor' g', exists calls',
          drawGridLinesWithHorizLabelsAndTriggerLine K T gridLabel fuel aColor' st' m g'
          = Some (st', calls')
          /\ forall c, c ∈ calls' -> isLabelClear c = false).
Proof.
  intros HK HG HfuelW HfuelZ. pose proof HK as [HZ Hbyte _ HW HT].
  assert (Hrun : forall aColor0 st0 g0, exists columns rows,
            drawGridLinesWithHorizLabelsAndTriggerLine K T gridLabel fuel aColor0 st0 m g0
            = Some ((if labelChanged st0 m
                     then {| LastDisplayRangeIndex := DisplayRangeIndexForPrint m;
                             LastOffsetGridCount := OffsetGridCount m |}
                     else st0),
                    columns ++ rows ++ (graphic <$> drawTriggerLine K g0))
            /\ (forall c, c ∈ columns -> isLabelClear c = false)
            /\ (labelChanged st0 m = false -> forall c, c ∈ rows -> isLabelClear c = false)
            /\ (labelChanged st0 m = true ->
                forall k : nat,
                  DISPLAY_VALUE_FOR_ZERO K - Z.of_nat k * HORIZONTAL_GRID_HEIGHT K > 0 ->
                  forall c,
                    c ∈ clearLabel K T aColor0
                          (DISPLAY_VALUE_FOR_ZERO K - Z.of_nat k * HORIZONTAL_GRID_HEIGHT K)
                          (captionOffset T 1 k) ->
                    c ∈ rows)).
  { intros aColor0 st0 g0. unfold drawGridLinesWithHorizLabelsAndTriggerLine.
    destruct (gridColumns_spec K HK aColor0 fuel (TIMING_GRID_WIDTH K - 1)
                ltac:(lia) ltac:(lia)) as (columns & -> & _ & Hcolumns).
    destruct (gridRows_spec K T gridLabel HG (labelChanged st0 m) aColor0 m fuel
                (DISPLAY_VALUE_FOR_ZERO K) 1 0%nat ltac:(lia) ltac:(lia))
      as (rows & -> & Hno & Hin).
    simpl. exists columns, rows. split; [reflexivity|]. split; [exact Hcolumns|].
    split; [exact Hno|]. intros Hch k Hk. now apply (Hin k Hk). }
  assert (Hquiet : forall columns rows g0 c,
            (forall c, c ∈ columns -> isLabelClear c = false) ->
            (forall c, c ∈ rows -> isLabelClear c = false) ->
            c ∈ columns ++ rows ++ (graphic <$> drawTriggerLine K g0) ->
            isLabelClear c = false).
  { intros columns rows g0 c Hcolumns Hrows Hc.
    apply elem_of_app in Hc as [Hc|Hc]; [auto|].
    apply elem_of_app in Hc as [Hc|Hc]; [auto|].
    eapply drawTriggerLine_no_clear, Hc. }
  destruct (Hrun aColor st g) as (columns & rows & E & Hcolumns & Hno & Hin).
  eexists _, _. split; [exact E|].
  split; [|split; [|split; [|split]]].
  - destruct (labelChanged st m) eqn:Hch; [reflexivity|].
    now rewrite (labelChanged_false st m Hch).
  - destruct (labelChanged st m) eqn:Hch; [reflexivity|].
    now rewrite (labelChanged_false st m Hch).
  - intros Hch. rewrite Hch. split; [reflexivity|].
    intros c. apply Hquiet; auto.
  - intros Hch k Hk c Hc. apply elem_of_app. right. apply elem_of_app. left.
    now apply (Hin Hch k Hk).
  - intros aColor' g'.
    assert (Hsame : labelChanged
                      (if labelChanged st m
                       then {| LastDisplayRangeIndex := DisplayRangeIndexForPrint m;
                               LastOffsetGridCount := OffsetGridCount m |}
                       else st) m = false).
    { destruct (labelChanged st m) eqn:Hch; [apply labelChanged_same|exact Hch]. }
    destruct (Hrun aColor'
                (if labelChanged st m
                 then {| LastDisplayRangeIndex := DisplayRangeIndexForPrint m;
                         LastOffsetGridCount := OffsetGridCount m |}
                 else st) g') as (columns' & rows' & E' & Hcolumns' & Hno' & _).
    rewrite Hsame in E'. eexists. split; [exact E'|].
    intros c. apply Hquiet; auto.
Qed.

Lemma drawGrid_clears_labels_on_change_witness :
  let m := {| DisplayRangeIndexForPrint := 3; OffsetGridCount := 1 |} in
  exists st' calls,
    drawGridLinesWithHorizLabelsAndTriggerLine (K320 false) T11 sampleLabel 400 1
      {| LastDisplayRangeIndex := 0; LastOffsetGridCount := 0 |} m gShowFFT
    = Some (st', calls)
    /\ LastDisplayRangeIndex st' = 3 /\ LastOffsetGridCount st' = 1
    /\ graphic (fillRect BlueDisplay1 283 229 319 241 65535) ∈ calls
    /\ exists calls',
         drawGridLinesWithHorizLabelsAndTriggerLine (K320 false) T11 sampleLabel 400 1
           st' m gShowFFT = Some (st', calls')
         /\ forall c, c ∈ calls' -> isLabelClear c = false.
Proof.
  intros m.
  destruct (drawGrid_clears_labels_on_change (K320 false) T11 sampleLabel 400 1
              {| LastDisplayRangeIndex := 0; LastOffsetGridCount := 0 |} m gShowFFT
              (K320_ok false) ltac:(simpl; lia) ltac:(simpl; lia) ltac:(simpl; lia))
    as (st' & calls & Hrun & Hindex & Hcount & _ & Hclear & Hagain).
  exists st', calls. split; [exact Hrun|]. split; [exact Hindex|]. split; [exact Hcount|].
  split.
  - apply (Hclear eq_refl 0%nat ltac:(simpl; lia)). apply elem_of_cons. now left.
  - apply Hagain.
Defined.

(** X21.  [drawGridLinesWithHorizLabelsAndTriggerLine] draws a vertical line
    over the full height in every grid column below [DSO_DISPLAY_WIDTH], a
    horizontal line over the full width in every row that is a whole number
    of grid heights above [DISPLAY_VALUE_FOR_ZERO] and below row 0 on the
    screen, and over each horizontal line its label, which, when nothing
    wraps, ends [PIXEL_AFTER_LABEL] pixels before the right border; the
    trigger line, if visible, comes last. *)
Theorem drawGrid_lines_and_labels
    (K : DSOConstants) (T : GridConstants) (gridLabel : GridMeasurement -> nat -> GridLabel)
    (fuel : nat) (aColor : Color_t) (st : GridLabelState) (m : GridMeasurement)
    (g : Globals) :
  constants_ok K ->
  0 < HORIZONTAL_GRID_HEIGHT K < 2 ^ 30 ->
  (Z.to_nat (DSO_DISPLAY_WIDTH K) < fuel)%nat ->
  (Z.to_nat (DISPLAY_VALUE_FOR_ZERO K) < fuel)%nat ->
  exists st' calls,
    drawGridLinesWithHorizLabelsAndTriggerLine K T gridLabel fuel aColor st m g
    = Some (st', calls)
    /\ (forall j, 0 <= j -> (j + 1) * TIMING_GRID_WIDTH K - 1 < DSO_DISPLAY_WIDTH K ->
          graphic (drawLineRel BlueDisplay1 ((j + 1) * TIMING_GRID_WIDTH K - 1) 0 0
                     (DSO_DISPLAY_HEIGHT K) aColor) ∈ calls)
    /\ (forall k : nat,
          let y := DISPLAY_VALUE_FOR_ZERO K - Z.of_nat k * HORIZONTAL_GRID_HEIGHT K in
          let label := gridLabel m k in
          let width := labelCount label * TEXT_SIZE_11_WIDTH T in
          y > 0 ->
          graphic (drawLineRel BlueDisplay1 0 y (DSO_DISPLAY_WIDTH K) 0 aColor) ∈ calls
          /\ exists x,
               drawText x (wrap32 (y - captionOffset T 1 k)) (labelText label)
                 (TEXT_SIZE_11 T)
                 (if labelNonNegative label
                  then COLOR_HOR_GRID_LINE_LABEL T
                  else COLOR_HOR_GRID_LINE_LABEL_NEGATIVE T)
                 (COLOR_BACKGROUND_DSO K) ∈ calls
               /\ (0 <= width < 2 ^ 31 ->
                   int_range (DSO_DISPLAY_WIDTH K - width - PIXEL_AFTER_LABEL T) ->
                   x + width + PIXEL_AFTER_LABEL T = DSO_DISPLAY_WIDTH K))
    /\ exists before, calls = before ++ (graphic <$> drawTriggerLine K g).
Proof.
  intros HK HG HfuelW HfuelZ. pose proof HK as [HZ Hbyte _ HW HT].
  unfold drawGridLinesWithHorizLabelsAndTriggerLine.
  destruct (gridColumns_spec K HK aColor fuel (TIMING_GRID_WIDTH K - 1)
              ltac:(lia) ltac:(lia)) as (columns & -> & Hcolumns & _).
  destruct (gridRows_spec K T gridLabel HG (labelChanged st m) aColor m fuel
              (DISPLAY_VALUE_FOR_ZERO K) 1 0%nat ltac:(lia) ltac:(lia))
    as (rows & -> & _ & Hrows).
  cbn [mbind option_bind]. eexists _, _. split; [reflexivity|]. split; [|split].
  - intros j Hj Hbound. apply elem_of_app. left.
    replace ((j + 1) * TIMING_GRID_WIDTH K - 1)
      with (TIMING_GRID_WIDTH K - 1 + j * TIMING_GRID_WIDTH K) by lia.
    apply Hcolumns; lia.
  - intros k Hy. destruct (Hrows k Hy) as [Hline _].
    cbn [Nat.add] in Hline. split.
    + apply elem_of_app. right. apply elem_of_app. left. apply Hline.
      apply elem_of_cons. now left.
    + eexists. split.
      * apply elem_of_app. right. apply elem_of_app. left. apply Hline.
        apply elem_of_cons. right. apply elem_of_cons. left. reflexivity.
      * intros Hwidth Hx.
        rewrite (wrap32_small (_ * _)) by (unfold int_range; lia).
        rewrite (wrap32_small (DSO_DISPLAY_WIDTH K - _)) by (unfold int_range; lia).
        rewrite (wrap32_small _ Hx). lia.
  - eexists (_ ++ _). now rewrite app_assoc.
Qed.

Lemma drawGrid_lines_and_labels_witness :
  exists st' calls,
    drawGridLinesWithHorizLabelsAndTriggerLine (K320 false) T11 sampleLabel 400 1
      {| LastDisplayRangeIndex := 0; LastOffsetGridCount := 0 |}
      {| DisplayRangeIndexForPrint := 3; OffsetGridCount := 1 |} gShowFFT
    = Some (st', calls)
    /\ graphic (drawLineRel BlueDisplay1 319 0 0 240 1) ∈ calls
    /\ graphic (drawLineRel BlueDisplay1 0 207 320 0 1) ∈ calls
    /\ drawText 290 211 "0.00" 11 9 65535 ∈ calls.
Proof.
  destruct (drawGrid_lines_and_labels (K320 false) T11 sampleLabel 400 1
              {| LastDisplayRangeIndex := 0; LastOffsetGridCount := 0 |}
              {| DisplayRangeIndexForPrint := 3; OffsetGridCount := 1 |} gShowFFT
              (K320_ok false) ltac:(simpl; lia) ltac:(simpl; lia) ltac:(simpl; lia))
    as (st' & calls & Hrun & Hcolumns & Hrows & _).
  exists st', calls. split; [exact Hrun|]. split; [|split].
  - exact (Hcolumns 9 ltac:(lia) ltac:(simpl; lia)).
  - exact (proj1 (Hrows 1%nat ltac:(simpl; lia))).
  - destruct (Hrows 1%nat ltac:(simpl; lia)) as (_ & x & Hin & Hx).
    assert (E : x = 290).
    { specialize (Hx ltac:(vm_compute; split; congruence)
                     ltac:(vm_compute; split; congruence)).
      simpl in Hx. lia. }
    rewrite E in Hin. exact Hin.
Defined.

(** ** The bulk renderer on the local display *)

Lemma seqZ_next (i : Z) : 0 <= i -> seqZ 0 (i + 1) = seqZ 0 i ++ [i].
Proof.
  intros Hi. rewrite seqZ_app by lia.
  f_equal; try (rewrite seqZ_cons by lia; now rewrite seqZ_nil by lia).
Qed.

Lemma seqZ_to_nat (n : Z) : seqZ 0 (0 + Z.of_nat (Z.to_nat n)) = seqZ 0 n.
Proof.
  destruct (Z.le_gt_cases 0 n).
  - f_equal. lia.
  - rewrite !seqZ_nil by lia. reflexivity.
Qed.

Section BulkLocal.

Variable K : DSOConstants.
Variable table : Z -> Z.
Variable mc : MeasurementControlStruct.
Variable dc : DisplayControlStruct.
Variable data : Z -> Z.
Variables (aColor aClearBeforeColor : Color_t).
Hypothesis Hlocal : LOCAL_DISPLAY_EXISTS K = true.
Hypothesis Hline : showTriggerInfoLine dc = false.

Local Abbreviation toDisplay := (getDisplayFrowRawInputValue K table mc).
Local Abbreviation pass :=
  (bulkPass K table mc dc data aColor aClearBeforeColor DRAW_MODE_REGULAR).
Local Abbreviation column :=
  (bulkColumn K table mc dc data aColor aClearBeforeColor DRAW_MODE_REGULAR).

Lemma bulkColumn_pixel (tTriggerValue i : Z) (l : BulkLocals) :
  drawPixelMode dc = true ->
  let tValue := toDisplay (data (tDataBufferPointer l)) in
  tDataBufferPointer (column 0 tTriggerValue i l) = tDataBufferPointer l + 1
  /\ ScreenBufferReadPointer (column 0 tTriggerValue i l) = ScreenBufferReadPointer l + 1
  /\ ScreenBufferWritePointer1 (column 0 tTriggerValue i l) = ScreenBufferWritePointer1 l + 1
  /\ trackBuffer (column 0 tTriggerValue i l)
     = storeAt (trackBuffer l) (ScreenBufferWritePointer1 l) tValue
  /\ bulkOut (column 0 tTriggerValue i l)
     = bulkOut l
       ++ (if aClearBeforeColor >? 0
           then pixelIfVisible K i (readAt (trackBuffer l) (ScreenBufferReadPointer l))
                  aClearBeforeColor
           else [])
       ++ pixelIfVisible K i tValue aColor.
Proof.
  intros Hpixel tValue. subst tValue.
  unfold bulkColumn, triggerStateLine, localColumn, scaledColumnValue, pixelIfVisible.
  cbn [isRegular negb andb]. change (0 =? 0) with true. cbv iota.
  rewrite Hline, Hlocal, Hpixel. cbn [orb negb andb].
  destruct (aClearBeforeColor >? 0); cbn; repeat split; now rewrite ?app_nil_r.
Qed.

Lemma bulkPass_pixel (tTriggerValue aLength : Z) (l : BulkLocals) :
  drawPixelMode dc = true ->
  ScreenBufferReadPointer l = 0 ->
  ScreenBufferWritePointer1 l = 0 ->
  bulkOut (pass 0 tTriggerValue aLength l)
  = bulkOut l
    ++ concat (pixelColumn K aColor aClearBeforeColor (readAt (trackBuffer l))
                 (fun i => toDisplay (data (tDataBufferPointer l + i)))
               <$> seqZ 0 aLength).
Proof.
  intros Hpixel Hrp Hwp. unfold bulkPass. change (0 <=? 0) with true. cbv iota.
  match goal with
  | |- context [bulkColumns _ _ _ _ _ _ _ _ _ _ _ _ ?l0] => set (start := l0)
  end.
  rewrite <- (seqZ_to_nat aLength).
  refine (proj2 (proj2 (proj2 (proj2 (proj2
            (bulkColumns_invariant K table mc dc data aColor aClearBeforeColor
               DRAW_MODE_REGULAR 0 tTriggerValue
               (fun i l' =>
                  0 <= i
                  /\ ScreenBufferWritePointer1 l' = i
                  /\ ScreenBufferReadPointer l' = i
                  /\ tDataBufferPointer l' = tDataBufferPointer l + i
                  /\ (forall j, i <= j -> readAt (trackBuffer l') j = readAt (trackBuffer l) j)
                  /\ bulkOut l'
                     = bulkOut l
                       ++ concat (pixelColumn K aColor aClearBeforeColor
                                    (readAt (trackBuffer l))
                                    (fun i => toDisplay (data (tDataBufferPointer l + i)))
                                  <$> seqZ 0 i))
               _ (Z.to_nat aLength) 0 start _)))))).
  - intros i l' (Hi & Hw & Hr & Hp & Hbuf & Hout).
    destruct (bulkColumn_pixel tTriggerValue i l' Hpixel) as (Ep & Er & Ew & Eb & Eo).
    rewrite Ep, Er, Ew, Eb, Eo, Hw, Hr, Hp, Hout.
    split; [lia|]. split; [lia|]. split; [lia|]. split; [lia|]. split.
    + intros j Hj. rewrite readAt_storeAt_ne by lia. apply Hbuf. lia.
    + rewrite seqZ_next, fmap_app, concat_app by lia. cbn [fmap list_fmap concat].
      rewrite app_nil_r, <- app_assoc. unfold pixelColumn at 3.
      rewrite (Hbuf i) by lia. reflexivity.
  - subst start. cbn. rewrite app_nil_r. repeat split; auto; lia.
Qed.

Lemma bulkColumn_joined (tTriggerValue i : Z) (l : BulkLocals) :
  drawPixelMode dc = false ->
  aClearBeforeColor <= 0 ->
  let tValue := toDisplay (data (tDataBufferPointer l)) in
  tDataBufferPointer (column 0 tTriggerValue i l) = tDataBufferPointer l + 1
  /\ tLastValue (column 0 tTriggerValue i l) = tValue
  /\ bulkOut (column 0 tTriggerValue i l)
     = bulkOut l
       ++ (if i =? 0 then pixelIfVisible K i tValue aColor
           else if tValue =? DISPLAYBUFFER_INVISIBLE_VALUE K then []
           else if tLastValue l =? DISPLAYBUFFER_INVISIBLE_VALUE K
           then [drawPixel LocalDisplay i tValue aColor]
           else [drawLineFastOneX LocalDisplay (i - 1) (tLastValue l) tValue
                   (if (tLastValue l =? tValue)
                       && ((tValue =? DISPLAY_VALUE_FOR_ZERO K) || (tValue =? 0))
                    then COLOR_DATA_RUN_CLIPPING K else aColor)]).
Proof.
  intros Hpixel Hclear tValue. subst tValue.
  unfold bulkColumn, triggerStateLine, localColumn, scaledColumnValue, pixelIfVisible.
  cbn [isRegular negb andb]. change (0 =? 0) with true. cbv iota.
  rewrite Hline, Hlocal, Hpixel. cbn [orb negb andb].
  destruct (Z.gtb_spec aClearBeforeColor 0); [lia|]. cbn [andb].
  destruct (i =? 0); cbn [fst snd tDataBufferPointer tLastValue bulkOut app].
  - repeat split.
  - repeat split. f_equal.
    destruct (toDisplay (data (tDataBufferPointer l)) =? DISPLAYBUFFER_INVISIBLE_VALUE K);
      cbn [negb]; [reflexivity|].
    destruct (tLastValue l =? DISPLAYBUFFER_INVISIBLE_VALUE K); cbn [negb]; [reflexivity|].
    destruct ((tLastValue l =? toDisplay (data (tDataBufferPointer l))) && _); reflexivity.
Qed.

Lemma bulkPass_joined (tTriggerValue aLength : Z) (l : BulkLocals) :
  drawPixelMode dc = false ->
  aClearBeforeColor <= 0 ->
  bulkOut (pass 0 tTriggerValue aLength l)
  = bulkOut l
    ++ concat (joinedColumn K aColor (fun i => toDisplay (data (tDataBufferPointer l + i)))
               <$> seqZ 0 aLength).
Proof.
  intros Hpixel Hclear. unfold bulkPass. change (0 <=? 0) with true. cbv iota.
  match goal with
  | |- context [bulkColumns _ _ _ _ _ _ _ _ _ _ _ _ ?l0] => set (start := l0)
  end.
  rewrite <- (seqZ_to_nat aLength).
  refine (proj2 (proj2 (proj2
            (bulkColumns_invariant K table mc dc data aColor aClearBeforeColor
               DRAW_MODE_REGULAR 0 tTriggerValue
               (fun i l' =>
                  0 <= i
                  /\ tDataBufferPointer l' = tDataBufferPointer l + i
                  /\ (0 < i ->
                      tLastValue l' = toDisplay (data (tDataBufferPointer l + (i - 1))))
                  /\ bulkOut l'
                     = bulkOut l
                       ++ concat (joinedColumn K aColor
                                    (fun i => toDisplay (data (tDataBufferPointer l + i)))
                                  <$> seqZ 0 i))
               _ (Z.to_nat aLength) 0 start _)))).
  - intros i l' (Hi & Hp & Hlast & Hout).
    destruct (bulkColumn_joined tTriggerValue i l' Hpixel Hclear) as (Ep & El & Eo).
    rewrite Ep, El, Eo, Hp, Hout.
    split; [lia|]. split; [lia|]. split.
    + intros _. do 3 f_equal. lia.
    + rewrite seqZ_next, fmap_app, concat_app by lia. cbn [fmap list_fmap concat].
      rewrite app_nil_r, <- app_assoc. f_equal. f_equal. unfold joinedColumn.
      destruct (Z.eqb_spec i 0); [reflexivity|]. now rewrite Hlast by lia.
  - subst start. cbn. rewrite app_nil_r. repeat split; auto; lia.
Qed.

End BulkLocal.

(** X22.  With a local display, in pixel mode, at the ratio 0 and with the
    trigger info line off, a regular [drawDataBuffer] goes through the columns
    from left to right and, in every column, first erases the pixel of the
    value the track buffer held there (when there is a clear colour and that
    value is not the sentinel) and then sets the pixel of the new value (when
    it is not the sentinel); the chart transfer of the track follows, and then
    the same for the minimum track when it is requested. *)
Theorem drawDataBuffer_local_pixels
    (K : DSOConstants) (table : Z -> Z) (g : Globals) (data : Z -> Z)
    (aDataBufferPointer aLength : Z) (aColor aClearBeforeColor : Color_t)
    (aDrawAlsoMin : bool) :
  let r := drawDataBuffer K table g data aDataBufferPointer aLength aColor
             aClearBeforeColor DRAW_MODE_REGULAR aDrawAlsoMin in
  let track old pointer :=
    concat (pixelColumn K aColor aClearBeforeColor (readAt old)
              (fun i => getDisplayFrowRawInputValue K table (MeasurementControl g)
                          (data (pointer + i)))
            <$> seqZ 0 aLength) in
  LOCAL_DISPLAY_EXISTS K = true ->
  showTriggerInfoLine (DisplayControl g) = false ->
  drawPixelMode (DisplayControl g) = true ->
  XScale (DisplayControl g) = 0 ->
  r.2 = track (DisplayBuffer g) aDataBufferPointer
        ++ [drawChartByteBuffer 0 0 aColor aClearBeforeColor 0 (negb aDrawAlsoMin)
              (DisplayBuffer r.1) aLength]
        ++ (if aDrawAlsoMin
            then track (DisplayBufferMin g) (aDataBufferPointer + DATABUFFER_MIN_OFFSET K)
                 ++ [drawChartByteBuffer 0 0 aColor aClearBeforeColor 1 true
                       (DisplayBufferMin r.1) aLength]
            else []).
Proof.
  intros r track Hlocal Hline Hpixel Hratio. subst r track. unfold drawDataBuffer.
  rewrite Hratio. cbn match.
  destruct aDrawAlsoMin; cbn [fst snd DisplayBuffer DisplayBufferMin set_bulkBuffers negb].
  - rewrite (bulkPass_pixel K table _ _ data aColor aClearBeforeColor Hlocal Hline)
      by (exact Hpixel || reflexivity).
    cbn [startTrack bulkOut trackBuffer tDataBufferPointer].
    rewrite (bulkPass_pixel K table _ _ data aColor aClearBeforeColor Hlocal Hline)
      by (exact Hpixel || reflexivity).
    cbn [bulkOut trackBuffer tDataBufferPointer app].
    now rewrite <- !app_assoc.
  - rewrite (bulkPass_pixel K table _ _ data aColor aClearBeforeColor Hlocal Hline)
      by (exact Hpixel || reflexivity).
    cbn [bulkOut trackBuffer tDataBufferPointer app]. reflexivity.
Qed.

Lemma drawDataBuffer_local_pixels_witness :
  let g := gTriggerInfoLine in
  let gPixel := {| MeasurementControl := MeasurementControl g;
                   DisplayControl :=
                     {| TriggerLevelDisplayValue := 100; XScale := 0;
                        showTriggerInfoLine := false; drawPixelMode := true;
                        EraseColor := 65535; ShowFFT := false |};
                   DataBufferControl := DataBufferControl g;
                   DisplayBuffer := [100; 255; 120]; DisplayBufferMin := DisplayBufferMin g;
                   DisplayBuffer2 := DisplayBuffer2 g;
                   DisplayBufferFFT := DisplayBufferFFT g |} in
  (drawDataBuffer (K320 true) identityScale gPixel (memoryOf [10; 20; 4096]) 0 3 9 8
     DRAW_MODE_REGULAR false).2
  = [drawPixel LocalDisplay 0 100 8; drawPixel LocalDisplay 0 229 9;
     drawPixel LocalDisplay 1 219 9;
     drawPixel LocalDisplay 2 120 8;
     drawChartByteBuffer 0 0 9 8 0 true [229; 219; 255] 3].
Proof.
  intros g gPixel.
  etransitivity.
  - apply (drawDataBuffer_local_pixels (K320 true) identityScale gPixel
             (memoryOf [10; 20; 4096]) 0 3 9 8 false); reflexivity.
  - reflexivity.
Defined.

(** X23.  With a local display, in line mode without clear colour, at the
    ratio 0 and with the trigger info line off, a regular [drawDataBuffer]
    draws the track as a polyline: column 0 is a pixel, and every further
    column whose value is not the sentinel is joined to its left neighbour by
    a line, or set as a pixel when the neighbour is the sentinel; a line
    between two equal values on the zero row or on row 0 has the clipping
    colour.  The chart transfer follows, and then the same for the minimum
    track when it is requested. *)
Theorem drawDataBuffer_local_polyline
    (K : DSOConstants) (table : Z -> Z) (g : Globals) (data : Z -> Z)
    (aDataBufferPointer aLength : Z) (aColor aClearBeforeColor : Color_t)
    (aDrawAlsoMin : bool) :
  let r := drawDataBuffer K table g data aDataBufferPointer aLength aColor
             aClearBeforeColor DRAW_MODE_REGULAR aDrawAlsoMin in
  let track pointer :=
    concat (joinedColumn K aColor
              (fun i => getDisplayFrowRawInputValue K table (MeasurementControl g)
                          (data (pointer + i)))
            <$> seqZ 0 aLength) in
  LOCAL_DISPLAY_EXISTS K = true ->
  showTriggerInfoLine (DisplayControl g) = false ->
  drawPixelMode (DisplayControl g) = false ->
  aClearBeforeColor <= 0 ->
  XScale (DisplayControl g) = 0 ->
  r.2 = track aDataBufferPointer
        ++ [drawChartByteBuffer 0 0 aColor aClearBeforeColor 0 (negb aDrawAlsoMin)
              (DisplayBuffer r.1) aLength]
        ++ (if aDrawAlsoMin
            then track (aDataBufferPointer + DATABUFFER_MIN_OFFSET K)
                 ++ [drawChartByteBuffer 0 0 aColor aClearBeforeColor 1 true
                       (DisplayBufferMin r.1) aLength]
            else []).
Proof.
  intros r track Hlocal Hline Hpixel Hclear Hratio. subst r track. unfold drawDataBuffer.
  rewrite Hratio. cbn match.
  destruct aDrawAlsoMin; cbn [fst snd DisplayBuffer DisplayBufferMin set_bulkBuffers negb].
  - rewrite (bulkPass_joined K table _ _ data aColor aClearBeforeColor Hlocal Hline)
      by assumption.
    cbn [startTrack bulkOut trackBuffer tDataBufferPointer].
    rewrite (bulkPass_joined K table _ _ data aColor aClearBeforeColor Hlocal Hline)
      by assumption.
    cbn [bulkOut trackBuffer tDataBufferPointer app].
    now rewrite <- !app_assoc.
  - rewrite (bulkPass_joined K table _ _ data aColor aClearBeforeColor Hlocal Hline)
      by assumption.
    cbn [bulkOut trackBuffer tDataBufferPointer app]. reflexivity.
Qed.

Lemma drawDataBuffer_local_polyline_witness :
  let g := gSample (mcSample false false 0) 0 (memoryOf []) 0 0 0
             (replicate 320 255) (replicate 320 255) in
  (drawDataBuffer (K320 true) identityScale g (memoryOf [10; 20; 4096; 0; 0]) 0 5 9 0
     DRAW_MODE_REGULAR false).2
  = [drawPixel LocalDisplay 0 229 9;
     drawLineFastOneX LocalDisplay 0 229 219 9;
     drawPixel LocalDisplay 3 239 9;
     drawLineFastOneX LocalDisplay 3 239 239 6;
     drawChartByteBuffer 0 0 9 0 0 true
       ([229; 219; 255; 239; 239] ++ replicate 315 255) 5].
Proof.
  intros g.
  etransitivity.
  - apply (drawDataBuffer_local_polyline (K320 true) identityScale g
             (memoryOf [10; 20; 4096; 0; 0]) 0 5 9 0 false); (reflexivity || lia).
  - reflexivity.
Defined.

Section BulkErase.

Variable K : DSOConstants.
Variable table : Z -> Z.
Variable mc : MeasurementControlStruct.
Variable dc : DisplayControlStruct.
Variable data : Z -> Z.
Variables (aColor aClearBeforeColor : Color_t).
Variable aDrawMode : DrawMode.
Variables (tXScale tTriggerValue : Z).
Hypothesis HK : constants_ok K.
Hypothesis Hlocal : LOCAL_DISPLAY_EXISTS K = true.
Hypothesis Hline : showTriggerInfoLine dc = false.
Hypothesis Hpixel : drawPixelMode dc = true.
Hypothesis Hclear : aClearBeforeColor <= 0.
Hypothesis Hmode : isRegular aDrawMode = false.

Local Abbreviation G := (TIMING_GRID_WIDTH K).
Local Abbreviation pass :=
  (bulkPass K table mc dc data aColor aClearBeforeColor aDrawMode tXScale tTriggerValue).
Local Abbreviation column :=
  (bulkColumn K table mc dc data aColor aClearBeforeColor aDrawMode tXScale tTriggerValue).

Lemma bulkColumn_erase (i : Z) (l : BulkLocals) :
  let tValue := readAt (trackBuffer l) (ScreenBufferReadPointer l) in
  let restore := tCounterForTimingGridRestore l =? G in
  ScreenBufferReadPointer (column i l) = ScreenBufferReadPointer l + 1
  /\ ScreenBufferWritePointer1 (column i l) = ScreenBufferWritePointer1 l + 1
  /\ trackBuffer (column i l) = storeAt (trackBuffer l) (ScreenBufferWritePointer1 l) tValue
  /\ tCounterForTimingGridRestore (column i l)
     = (if restore then 0 else wrap32 (tCounterForTimingGridRestore l + 1))
  /\ bulkOut (column i l)
     = bulkOut l
       ++ (if restore then [drawPixel LocalDisplay i tValue (COLOR_GRID_LINES K)]
           else pixelIfVisible K i tValue aColor).
Proof.
  intros tValue restore. subst tValue restore.
  unfold bulkColumn, triggerStateLine, localColumn, pixelIfVisible.
  rewrite Hmode, Hline, Hlocal, Hpixel. cbn [orb negb andb].
  destruct (tCounterForTimingGridRestore l =? G).
  - cbn. repeat split.
  - destruct (Z.gtb_spec aClearBeforeColor 0); [lia|]. cbn. repeat split.
Qed.

Lemma bulkPass_erase_local (aLength : Z) (l : BulkLocals) :
  ScreenBufferReadPointer l = 0 ->
  ScreenBufferWritePointer1 l = 0 ->
  tCounterForTimingGridRestore l = 0 ->
  bulkOut (pass aLength l)
  = bulkOut l ++ concat (erasedColumn K aColor (readAt (trackBuffer l)) <$> seqZ 0 aLength).
Proof.
  intros Hrp Hwp Hcount. pose proof HK as [_ _ _ _ HG]. unfold bulkPass.
  match goal with
  | |- context [bulkColumns _ _ _ _ _ _ _ _ _ _ _ _ ?l0] => set (start := l0)
  end.
  rewrite <- (seqZ_to_nat aLength).
  refine (proj2 (proj2 (proj2 (proj2 (proj2
            (bulkColumns_invariant K table mc dc data aColor aClearBeforeColor
               aDrawMode tXScale tTriggerValue
               (fun i l' =>
                  0 <= i
                  /\ ScreenBufferWritePointer1 l' = i
                  /\ ScreenBufferReadPointer l' = i
                  /\ tCounterForTimingGridRestore l' = i mod (G + 1)
                  /\ (forall j, i <= j -> readAt (trackBuffer l') j = readAt (trackBuffer l) j)
                  /\ bulkOut l'
                     = bulkOut l
                       ++ concat (erasedColumn K aColor (readAt (trackBuffer l))
                                  <$> seqZ 0 i))
               _ (Z.to_nat aLength) 0 start _)))))).
  - intros i l' (Hi & Hw & Hr & Hc & Hbuf & Hout).
    destruct (bulkColumn_erase i l') as (Er & Ew & Eb & Ec & Eo).
    rewrite Er, Ew, Eb, Ec, Eo, Hw, Hr, Hc, Hout, (Hbuf i) by lia.
    pose proof (Z.mod_pos_bound i (G + 1) ltac:(lia)) as Hbound.
    destruct (div_mod_succ i (G + 1) ltac:(lia) Hi) as [Hlast Hmid].
    replace (G + 1 - 1) with G in Hlast, Hmid by lia.
    split; [lia|]. split; [lia|]. split; [lia|]. split; [|split].
    + destruct (Z.eqb_spec (i mod (G + 1)) G) as [E|E].
      * now destruct (Hlast E) as [_ ->].
      * destruct (Hmid E) as [_ ->]. apply wrap32_small. unfold int_range. lia.
    + intros j Hj. rewrite readAt_storeAt_ne by lia. apply Hbuf. lia.
    + rewrite seqZ_next, fmap_app, concat_app by lia. cbn [fmap list_fmap concat].
      now rewrite app_nil_r, <- app_assoc.
  - subst start. cbn. rewrite app_nil_r, Hcount, Z.mod_0_l by lia.
    repeat split; auto; lia.
Qed.

End BulkErase.

(** X24.  With a local display, in pixel mode, without clear colour and with
    the trigger info line off, an erase pass over one track overdraws, column
    by column, the pixel of the value stored for the column: in [aColor] when
    the value is not the sentinel, except that every column whose number
    leaves the remainder [TIMING_GRID_WIDTH] on division by
    [TIMING_GRID_WIDTH + 1] gets a pixel in the grid colour at the stored
    value, sentinel or not.  The chart transfer of the track follows. *)
Theorem drawDataBuffer_erase_local_pixels
    (K : DSOConstants) (table : Z -> Z) (g : Globals) (data : Z -> Z)
    (aDataBufferPointer aLength : Z) (aColor aClearBeforeColor : Color_t)
    (aDrawMode : DrawMode) :
  let r := drawDataBuffer K table g data aDataBufferPointer aLength aColor
             aClearBeforeColor aDrawMode false in
  let erased track := concat (erasedColumn K aColor (readAt track) <$> seqZ 0 aLength) in
  constants_ok K ->
  LOCAL_DISPLAY_EXISTS K = true ->
  showTriggerInfoLine (DisplayControl g) = false ->
  drawPixelMode (DisplayControl g) = true ->
  aClearBeforeColor <= 0 ->
  aDrawMode <> DRAW_MODE_REGULAR ->
  r.2 = match aDrawMode with
        | DRAW_MODE_CLEAR_OLD_MIN =>
          erased (DisplayBufferMin g)
          ++ [drawChartByteBuffer 0 0 aColor aClearBeforeColor 1 true
                (DisplayBufferMin r.1) aLength]
        | _ =>
          erased (DisplayBuffer g)
          ++ [drawChartByteBuffer 0 0 aColor aClearBeforeColor 0 true
                (DisplayBuffer r.1) aLength]
        end.
Proof.
  intros r erased HK Hlocal Hline Hpixel Hclear Hmode. subst r erased.
  unfold drawDataBuffer.
  destruct aDrawMode; [contradiction| |]; cbn match;
    cbn [fst snd DisplayBuffer DisplayBufferMin set_bulkBuffers negb].
  - rewrite (bulkPass_erase_local K table _ _ data aColor aClearBeforeColor
               DRAW_MODE_CLEAR_OLD _ _ HK Hlocal Hline Hpixel Hclear eq_refl)
      by reflexivity.
    reflexivity.
  - rewrite (bulkPass_erase_local K table _ _ data aColor aClearBeforeColor
               DRAW_MODE_CLEAR_OLD_MIN _ _ HK Hlocal Hline Hpixel Hclear eq_refl)
      by reflexivity.
    reflexivity.
Qed.

Lemma drawDataBuffer_erase_local_pixels_witness :
  let g := gTriggerInfoLine in
  let gPixel := {| MeasurementControl := MeasurementControl g;
                   DisplayControl :=
                     {| TriggerLevelDisplayValue := 100; XScale := 0;
                        showTriggerInfoLine := false; drawPixelMode := true;
                        EraseColor := 65535; ShowFFT := false |};
                   DataBufferControl := DataBufferControl g;
                   DisplayBuffer := replicate 31 255 ++ [100; 110; 120];
                   DisplayBufferMin := DisplayBufferMin g;
                   DisplayBuffer2 := DisplayBuffer2 g;
                   DisplayBufferFFT := DisplayBufferFFT g |} in
  (drawDataBuffer (K320 true) identityScale gPixel (memoryOf []) 0 34 65535 0
     DRAW_MODE_CLEAR_OLD false).2
  = [drawPixel LocalDisplay 31 100 65535; drawPixel LocalDisplay 32 110 1;
     drawPixel LocalDisplay 33 120 65535;
     drawChartByteBuffer 0 0 65535 0 0 true (replicate 31 255 ++ [100; 110; 120]) 34].
Proof.
  intros g gPixel.
  etransitivity.
  - apply (drawDataBuffer_erase_local_pixels (K320 true) identityScale gPixel
             (memoryOf []) 0 34 65535 0 DRAW_MODE_CLEAR_OLD (K320_ok true));
      (reflexivity || lia || discriminate).
  - reflexivity.
Defined.

(** ** The incremental renderer: the lines between samples *)

Section SequentialTrace.

Variable K : DSOConstants.
Variable table : Z -> Z.
Variable fv : DataBufferControlStruct -> Z -> Z.
Variable fuel : nat.
Variable aDrawColor : Color_t.
Hypothesis HK : constants_ok K.
Hypothesis Hfuel : (Z.to_nat (DSO_DISPLAY_WIDTH K) < fuel)%nat.

Local Abbreviation W := (DSO_DISPLAY_WIDTH K).
Local Abbreviation INVISIBLE := (DISPLAYBUFFER_INVISIBLE_VALUE K).
Local Abbreviation toDisplay := (getDisplayFrowRawInputValue K table).
Local Abbreviation before :=
  (fun (k : nat) (s : Globals * list DrawCall) =>
     ((fun (_ : nat) (g : Globals) => g) k s.1, s.2)).
Local Abbreviation cond := (fun s : Globals * list DrawCall => moreToDraw K s.1).
Local Abbreviation body := (drawRemainingColumn K table fv fuel aDrawColor).

(** In line mode the body joins a visible new value to a visible left
    neighbour. *)
Lemma drawRemainingColumn_joins (g : Globals) (out : list DrawCall) s1 :
  let pointer := DataBufferNextDrawPointer (DataBufferControl g) in
  let tValue :=
    to_uint32 (toDisplay (MeasurementControl g) (DataBuffer (DataBufferControl g) pointer)) in
  let tLastValue := readAt (DisplayBuffer g) (columnOf K g - 1) in
  body (g, out) = Some s1 ->
  LOCAL_DISPLAY_EXISTS K && drawPixelMode (DisplayControl g) = false ->
  0 < columnOf K g < W ->
  tValue <> INVISIBLE ->
  tLastValue <> INVISIBLE ->
  drawLineFastOneX BlueDisplay1 (columnOf K g - 1) tLastValue tValue aDrawColor ∈ s1.2.
Proof.
  intros pointer tValue tLastValue Hb Hmode Hcol Hv Hlast.
  subst pointer tValue tLastValue. unfold drawRemainingColumn in Hb.
  assert (Hdrawn : forall g0,
            DisplayControl g0 = DisplayControl g ->
            MeasurementControl g0 = MeasurementControl g ->
            DataBufferControl g0 = DataBufferControl g ->
            DisplayBuffer g0 = DisplayBuffer g ->
            forall tValueMin bufferMin,
              drawLineFastOneX BlueDisplay1 (columnOf K g - 1)
                (readAt (DisplayBuffer g) (columnOf K g - 1))
                (to_uint32 (toDisplay (MeasurementControl g)
                              (DataBuffer (DataBufferControl g)
                                 (DataBufferNextDrawPointer (DataBufferControl g)))))
                aDrawColor
              ∈ drawNewValue K aDrawColor
                  (set_DisplayBuffers g0
                     (storeAt (DisplayBuffer g0) (columnOf K g)
                        (to_uint32 (toDisplay (MeasurementControl g)
                                      (DataBuffer (DataBufferControl g)
                                         (DataBufferNextDrawPointer
                                            (DataBufferControl g))))))
                     bufferMin)
                  (columnOf K g)
                  (to_uint32 (toDisplay (MeasurementControl g)
                                (DataBuffer (DataBufferControl g)
                                   (DataBufferNextDrawPointer (DataBufferControl g)))))
                  tValueMin).
  { intros g0 Hdc Hmc Hdbc Hbuf tValueMin bufferMin. unfold drawNewValue.
    cbn [DisplayControl DisplayBuffer DisplayBufferMin MeasurementControl set_DisplayBuffers].
    rewrite Hdc, Hmode, Hbuf.
    destruct (Z.eqb_spec (columnOf K g) 0); [lia|].
    destruct (Z.leb_spec (columnOf K g) (W - 1)); [|lia]. cbn [negb andb].
    match goal with
    | |- context [negb (?v =? INVISIBLE)] =>
        destruct (Z.eqb_spec v INVISIBLE); [contradiction|]
    end.
    cbn [negb]. rewrite readAt_storeAt_ne by lia.
    destruct (Z.eqb_spec (readAt (DisplayBuffer g) (columnOf K g - 1)) INVISIBLE);
      [contradiction|].
    cbn [negb]. unfold bothTracks. apply elem_of_cons. now left. }
  destruct (DataBufferNextDrawPointer (DataBufferControl g)
            =? DATABUFFER_PRE_TRIGGER_SIZE K + FFT_SIZE K - 1).
  - destruct (draw128FFTValuesFast_result K fv fuel HK Hfuel (COLOR_FFT_DATA K) g)
      as (buffer & calls & Hrun & _).
    rewrite Hrun in Hb. cbn [mbind option_bind fst snd] in Hb. injection Hb as <-.
    cbn [snd]. repeat (apply elem_of_app; right).
    unfold columnOf at 1 2 3.
    cbn [DataBufferControl MeasurementControl DisplayBuffer set_DisplayBufferFFT].
    fold (columnOf K g). apply (Hdrawn (set_DisplayBufferFFT g buffer)); reflexivity.
  - cbn [mbind option_bind fst snd] in Hb. injection Hb as <-.
    cbn [snd]. repeat (apply elem_of_app; right).
    apply (Hdrawn g); reflexivity.
Qed.

Lemma sequential_run_joined (fuelW k : nat) (s : Globals * list DrawCall) ran fin :
  whileLoop before cond body fuelW k s = Some (ran, fin) ->
  (forall c, c ∈ s.2 -> c ∈ fin.2)
  /\ ((1 <= length ran)%nat ->
      forall s1, body s = Some s1 -> forall c, c ∈ s1.2 -> c ∈ fin.2)
  /\ (0 <= cursorOf s ->
      LOCAL_DISPLAY_EXISTS K && drawPixelMode (DisplayControl s.1) = false ->
      (Z.to_nat W <= length (DisplayBuffer s.1))%nat ->
      forall i, 1 <= i < Z.of_nat (length ran) ->
        let column := (columnOf K s.1 + i) mod W in
        let value j :=
          toDisplay (MeasurementControl s.1)
            (DataBuffer (DataBufferControl s.1) (pointerOf s + j)) in
        column <> 0 ->
        to_uint32 (value i) <> INVISIBLE ->
        to_uint8 (value (i - 1)) <> INVISIBLE ->
        drawLineFastOneX BlueDisplay1 (column - 1) (to_uint8 (value (i - 1)))
          (to_uint32 (value i)) aDrawColor ∈ fin.2).
Proof.
  intros Hrun. pose proof HK as [_ _ _ HW _].
  apply (sequential_run_ind K table fv fuel aDrawColor (fun n s fin =>
           (forall c, c ∈ s.2 -> c ∈ fin.2)
           /\ ((1 <= n)%nat ->
               forall s1, body s = Some s1 -> forall c, c ∈ s1.2 -> c ∈ fin.2)
           /\ (0 <= cursorOf s ->
               LOCAL_DISPLAY_EXISTS K && drawPixelMode (DisplayControl s.1) = false ->
               (Z.to_nat W <= length (DisplayBuffer s.1))%nat ->
               forall i, 1 <= i < Z.of_nat n ->
                 let column := (columnOf K s.1 + i) mod W in
                 let value j :=
                   toDisplay (MeasurementControl s.1)
                     (DataBuffer (DataBufferControl s.1) (pointerOf s + j)) in
                 column <> 0 ->
                 to_uint32 (value i) <> INVISIBLE ->
                 to_uint8 (value (i - 1)) <> INVISIBLE ->
                 drawLineFastOneX BlueDisplay1 (column - 1) (to_uint8 (value (i - 1)))
                   (to_uint32 (value i)) aDrawColor ∈ fin.2)))
    with (fuelW := fuelW) (k := k) (ran := ran); [| |exact Hrun].
  - intros s0 _. split; [auto|]. split; [lia|]. intros _ _ _ i Hi. simpl in Hi. lia.
  - intros n s0 s1 fin0 Hc Hb (Hgrow & Hfirst & Hjoin).
    destruct s0 as [g out].
    destruct (drawRemainingColumn_buffers K table fv fuel aDrawColor HK Hfuel g out)
      as (g' & new & E & Hmc & Hdc & Hdata & _ & _ & Hptr & Hcur & _ & Hmain & _).
    pose proof Hb as Hb'. rewrite E in Hb'. injection Hb' as <-.
    cbn [fst snd] in *.
    split; [|split].
    + intros c Hin. apply Hgrow. apply elem_of_app. now left.
    + intros _ s1 Hs1 c Hin. rewrite Hb in Hs1. injection Hs1 as <-. now apply Hgrow.
    + intros Hcursor Hmode Hwide i Hi Hcolumn Hv Hlast.
      unfold cursorOf, pointerOf in *. cbn [fst snd] in *.
      pose proof (columnOf_range K g HK Hcursor) as Hcol.
      destruct (columnOf_next K fuel HK Hfuel g g' Hcol Hcur) as [Hcur' Hcol'].
      destruct (Z.eq_dec i 1) as [->|Hi1].
      * destruct n as [|n]; [lia|].
        assert (Hnext : columnOf K g + 1 < W).
        { destruct (Z.lt_ge_cases (columnOf K g + 1) W) as [?|Hge]; [assumption|].
          exfalso. apply Hcolumn. replace (columnOf K g + 1) with W by lia.
          apply Z_mod_same_full. }
        rewrite Z.mod_small in Hcolumn |- * by lia.
        destruct (drawRemainingColumn_buffers K table fv fuel aDrawColor HK Hfuel g'
                    (out ++ new)) as (g'' & new' & E' & _).
        apply (Hfirst ltac:(lia) _ E').
        pose proof (drawRemainingColumn_joins g' (out ++ new) _ E') as Hline.
        cbv zeta in Hline. rewrite Hdc, Hmc, Hdata, Hptr, Hcol', Hmain in Hline.
        rewrite Z.mod_small in Hline by lia.
        replace (columnOf K g + 1 - 1) with (columnOf K g) in * by lia.
        rewrite readAt_storeAt_eq, to_uint8_to_uint32 in Hline by lia.
        replace (DataBufferNextDrawPointer (DataBufferControl g) + (1 - 1))
          with (DataBufferNextDrawPointer (DataBufferControl g)) in * by lia.
        apply Hline; try assumption. lia.
      * specialize (Hjoin ltac:(lia) ltac:(now rewrite Hdc)
                      ltac:(now rewrite Hmain, length_storeAt) (i - 1) ltac:(lia)).
        cbv zeta in Hjoin. rewrite Hmc, Hdata, Hptr, Hcol', next_column in Hjoin by lia.
        replace (i - 1 + 1) with i in Hjoin by lia.
        replace (DataBufferNextDrawPointer (DataBufferControl g) + 1 + (i - 1))
          with (DataBufferNextDrawPointer (DataBufferControl g) + i) in Hjoin by lia.
        replace (DataBufferNextDrawPointer (DataBufferControl g) + 1 + (i - 1 - 1))
          with (DataBufferNextDrawPointer (DataBufferControl g) + (i - 1)) in Hjoin by lia.
        now apply Hjoin.
Qed.

End SequentialTrace.

(** X25.  In line mode (no local display, or pixel mode off) a call of
    [drawRemainingDataBufferValues] with nothing interfering draws the new
    samples as a polyline: every processed sample after the first whose column
    is not column 0 is joined to the sample before it by a line from the
    previous column, at the stored byte of the previous display value, to the
    new display value, in the draw colour, unless one of the two is the
    sentinel. *)
Theorem drawRemainingDataBufferValues_joins_samples
    (K : DSOConstants) (table : Z -> Z) (fv : DataBufferControlStruct -> Z -> Z)
    (fuel : nat) (aDrawColor : Color_t) (g : Globals) :
  let dbc := DataBufferControl g in
  let p := DataBufferNextDrawPointer dbc in
  let value j :=
    getDisplayFrowRawInputValue K table (MeasurementControl g) (DataBuffer dbc (p + j)) in
  constants_ok K ->
  (Z.to_nat (DSO_DISPLAY_WIDTH K) + Z.to_nat (DATABUFFER_DISPLAY_END K + 1 - p) < fuel)%nat ->
  0 <= NextDrawXValue dbc ->
  LOCAL_DISPLAY_EXISTS K && drawPixelMode (DisplayControl g) = false ->
  (Z.to_nat (DSO_DISPLAY_WIDTH K) <= length (DisplayBuffer g))%nat ->
  exists g' calls,
    drawRemainingDataBufferValues K table fv fuel aDrawColor g = Some (g', calls)
    /\ forall i, 1 <= i < DataBufferNextDrawPointer (DataBufferControl g') - p ->
         let column := (columnOf K g + i) mod DSO_DISPLAY_WIDTH K in
         column <> 0 ->
         to_uint32 (value i) <> DISPLAYBUFFER_INVISIBLE_VALUE K ->
         to_uint8 (value (i - 1)) <> DISPLAYBUFFER_INVISIBLE_VALUE K ->
         drawLineFastOneX BlueDisplay1 (column - 1) (to_uint8 (value (i - 1)))
           (to_uint32 (value i)) aDrawColor ∈ calls.
Proof.
  intros dbc p value HK Hfuel Hcursor Hmode Hwide.
  assert (HfuelW : (Z.to_nat (DSO_DISPLAY_WIDTH K) < fuel)%nat) by lia.
  unfold drawRemainingDataBufferValues, drawRemainingDuringAcquisition.
  destruct (run_total K table fv (fun _ g => g) fuel aDrawColor HK
              sequential_acquisitionOnly HfuelW fuel 0%nat (g, []))
    as [[ran fin] Hrun]; [unfold pointerOf; simpl; subst p dbc; lia|].
  rewrite Hrun. exists fin.1, fin.2. split; [now destruct fin|].
  destruct (sequential_run_state K table fv fuel aDrawColor HK HfuelW
              _ _ _ _ _ Hrun Hcursor) as (_ & _ & _ & _ & _ & Hcount & _).
  unfold pointerOf in Hcount. cbn [fst] in Hcount. fold dbc in Hcount. fold p in Hcount.
  destruct (sequential_run_joined K table fv fuel aDrawColor HK HfuelW _ _ _ _ _ Hrun)
    as (_ & _ & Hjoin).
  cbn [fst snd] in Hjoin |- *. intros i Hi Hcolumn Hv Hlast.
  apply (Hjoin Hcursor Hmode Hwide i ltac:(lia)); assumption.
Qed.

Lemma drawRemainingDataBufferValues_joins_samples_witness :
  exists g' calls,
    drawRemainingDataBufferValues (K320 false) identityScale noFFT 1000 9
      (gSample (mcSample true false 0) 0 (memoryOf [10; 20]) 0 2 5
         (replicate 320 255) (replicate 320 255)) = Some (g', calls)
    /\ drawLineFastOneX BlueDisplay1 5 229 219 9 ∈ calls.
Proof.
  destruct (drawRemainingDataBufferValues_joins_samples (K320 false) identityScale noFFT
              1000 9
              (gSample (mcSample true false 0) 0 (memoryOf [10; 20]) 0 2 5
                 (replicate 320 255) (replicate 320 255))
              (K320_ok false) ltac:(simpl; lia) ltac:(simpl; lia) eq_refl
              ltac:(simpl; lia))
    as (g' & calls & Hrun & Hjoin).
  exists g', calls. split; [exact Hrun|].
  assert (Hptr : DataBufferNextDrawPointer (DataBufferControl g') = 2).
  { vm_compute in Hrun. injection Hrun as <- _. reflexivity. }
  apply (Hjoin 1); [rewrite Hptr; simpl; lia| | |]; vm_compute; discriminate.
Defined.

(** ** The trigger state line *)

Section TriggerState.

Variable K : DSOConstants.
Variable table : Z -> Z.
Variable mc : MeasurementControlStruct.
Variable dc : DisplayControlStruct.
Variable data : Z -> Z.
Variables (aColor aClearBeforeColor : Color_t).
Hypothesis Hline : showTriggerInfoLine dc = true.

Local Abbreviation toDisplay := (getDisplayFrowRawInputValue K table mc).
Local Abbreviation pass :=
  (bulkPass K table mc dc data aColor aClearBeforeColor DRAW_MODE_REGULAR).
Local Abbreviation column :=
  (bulkColumn K table mc dc data aColor aClearBeforeColor DRAW_MODE_REGULAR).

Lemma bulkColumn_triggerState (tTriggerValue i : Z) (l : BulkLocals) :
  let above := toDisplay (data (tDataBufferPointer l)) >? tTriggerValue in
  tDataBufferPointer (column 0 tTriggerValue i l) = tDataBufferPointer l + 1
  /\ ScreenBufferWritePointer2 (column 0 tTriggerValue i l)
     = (if above then ScreenBufferWritePointer2 l + 1 else ScreenBufferWritePointer2 l)
  /\ triggerStateBuffer (column 0 tTriggerValue i l)
     = (if above
        then storeAt (triggerStateBuffer l) (ScreenBufferWritePointer2 l)
               (wrap32 (tTriggerValue - TRIGGER_HIGH_DISPLAY_OFFSET K))
        else triggerStateBuffer l).
Proof.
  intros above. subst above.
  unfold bulkColumn, triggerStateLine, scaledColumnValue.
  cbn [isRegular]. change (0 =? 0) with true. cbv iota. rewrite Hline.
  destruct (toDisplay (data (tDataBufferPointer l)) >? tTriggerValue);
    destruct (if LOCAL_DISPLAY_EXISTS K then _ else _) as [[[gc rp] lc] dr];
    cbn; repeat split.
Qed.

Lemma bulkPass_triggerState (tTriggerValue aLength : Z) (l : BulkLocals) :
  ScreenBufferWritePointer2 l = 0 ->
  let value i := toDisplay (data (tDataBufferPointer l + i)) in
  let m := triggeredColumns value tTriggerValue (Z.to_nat aLength) in
  ScreenBufferWritePointer2 (pass 0 tTriggerValue aLength l) = m
  /\ length (triggerStateBuffer (pass 0 tTriggerValue aLength l))
     = length (triggerStateBuffer l)
  /\ (forall j, 0 <= j < m -> (Z.to_nat j < length (triggerStateBuffer l))%nat ->
        readAt (triggerStateBuffer (pass 0 tTriggerValue aLength l)) j
        = to_uint8 (wrap32 (tTriggerValue - TRIGGER_HIGH_DISPLAY_OFFSET K)))
  /\ (forall j, m <= j ->
        readAt (triggerStateBuffer (pass 0 tTriggerValue aLength l)) j
        = readAt (triggerStateBuffer l) j).
Proof.
  intros Hp2 value m. subst m. unfold bulkPass. change (0 <=? 0) with true. cbv iota.
  match goal with
  | |- context [bulkColumns _ _ _ _ _ _ _ _ _ _ _ _ ?l0] => set (start := l0)
  end.
  destruct (bulkColumns_invariant K table mc dc data aColor aClearBeforeColor
              DRAW_MODE_REGULAR 0 tTriggerValue
              (fun i l' =>
                 0 <= i
                 /\ tDataBufferPointer l' = tDataBufferPointer l + i
                 /\ ScreenBufferWritePointer2 l'
                    = triggeredColumns value tTriggerValue (Z.to_nat i)
                 /\ length (triggerStateBuffer l') = length (triggerStateBuffer l)
                 /\ (forall j,
                       0 <= j < triggeredColumns value tTriggerValue (Z.to_nat i) ->
                       (Z.to_nat j < length (triggerStateBuffer l))%nat ->
                       readAt (triggerStateBuffer l') j
                       = to_uint8 (wrap32 (tTriggerValue - TRIGGER_HIGH_DISPLAY_OFFSET K)))
                 /\ (forall j, triggeredColumns value tTriggerValue (Z.to_nat i) <= j ->
                       readAt (triggerStateBuffer l') j = readAt (triggerStateBuffer l) j)))
    with (n := Z.to_nat aLength) (i := 0) (l := start)
    as (_ & _ & Hm & Hlen & Hnew & Hold);
    [| |rewrite Z.add_0_l, Nat2Z.id in Hm, Hnew, Hold; auto].
  - intros i l' (Hi & Hp & Hm & Hlen & Hnew & Hold).
    destruct (bulkColumn_triggerState tTriggerValue i l') as (Ep & Em & Eb).
    rewrite Ep, Em, Eb, Hp, Hm.
    replace (Z.to_nat (i + 1)) with (S (Z.to_nat i)) by lia.
    cbn [triggeredColumns]. rewrite Z2Nat.id by lia. fold (value i).
    assert (Hcount : 0 <= triggeredColumns value tTriggerValue (Z.to_nat i)).
    { clear. induction (Z.to_nat i) as [|n IH]; cbn [triggeredColumns]; [lia|].
      destruct (value (Z.of_nat n) >? tTriggerValue); lia. }
    split; [lia|]. split; [lia|].
    destruct (value i >? tTriggerValue).
    + split; [reflexivity|]. rewrite length_storeAt. split; [exact Hlen|]. split.
      * intros j Hj Hjlen.
        destruct (Z.eq_dec j (triggeredColumns value tTriggerValue (Z.to_nat i)))
          as [->|Hne].
        -- apply readAt_storeAt_eq; [lia|]. now rewrite Hlen.
        -- rewrite readAt_storeAt_ne by lia. apply Hnew; [lia|assumption].
      * intros j Hj. rewrite readAt_storeAt_ne by lia. apply Hold. lia.
    + rewrite Z.add_0_r. auto.
  - subst start. cbn. repeat split; auto; try lia.
    intros j Hj. change (Z.to_nat 0) with 0%nat in Hj. cbn in Hj. lia.
Qed.

End TriggerState.

(** X26.  With the trigger info line on, a regular [drawDataBuffer] of one
    track at the ratio 0 fills [DisplayBuffer2] from its start, not by column:
    for every column whose display value is greater than the display value of
    the trigger level it appends one entry, the byte of that trigger row less
    [TRIGGER_HIGH_DISPLAY_OFFSET]; so the first [m] entries hold that byte,
    [m] being the number of such columns, and all further entries and the
    length are unchanged. *)
Theorem drawDataBuffer_trigger_state_packed
    (K : DSOConstants) (table : Z -> Z) (g : Globals) (data : Z -> Z)
    (aDataBufferPointer aLength : Z) (aColor aClearBeforeColor : Color_t) :
  let mc := MeasurementControl g in
  let tTriggerValue := getDisplayFrowRawInputValue K table mc (RawTriggerLevel mc) in
  let value i := getDisplayFrowRawInputValue K table mc (data (aDataBufferPointer + i)) in
  let m := triggeredColumns value tTriggerValue (Z.to_nat aLength) in
  let g' := (drawDataBuffer K table g data aDataBufferPointer aLength aColor
               aClearBeforeColor DRAW_MODE_REGULAR false).1 in
  showTriggerInfoLine (DisplayControl g) = true ->
  XScale (DisplayControl g) = 0 ->
  length (DisplayBuffer2 g') = length (DisplayBuffer2 g)
  /\ (forall j, 0 <= j < m -> (Z.to_nat j < length (DisplayBuffer2 g))%nat ->
        readAt (DisplayBuffer2 g') j
        = to_uint8 (wrap32 (tTriggerValue - TRIGGER_HIGH_DISPLAY_OFFSET K)))
  /\ (forall j, m <= j -> readAt (DisplayBuffer2 g') j = readAt (DisplayBuffer2 g) j).
Proof.
  intros mc tTriggerValue value m g' Hline Hratio. subst g' m value.
  unfold drawDataBuffer. rewrite Hratio. fold mc. fold tTriggerValue. cbn match.
  cbn [fst DisplayBuffer2 set_bulkBuffers].
  match goal with
  | |- context [bulkPass _ _ _ _ _ _ _ _ _ _ _ ?l0] =>
      destruct (bulkPass_triggerState K table mc (DisplayControl g) data aColor
                  aClearBeforeColor Hline tTriggerValue aLength l0 eq_refl)
        as (_ & Hlen & Hnew & Hold)
  end.
  cbn [tDataBufferPointer triggerStateBuffer] in Hlen, Hnew, Hold. auto.
Qed.

Lemma drawDataBuffer_trigger_state_packed_witness :
  let g' := (drawDataBuffer (K320 false) identityScale gTriggerInfoLine
               (memoryOf [10; 4096; 20; 4096]) 0 4 9 0 DRAW_MODE_REGULAR false).1 in
  triggeredColumns
    (fun i => getDisplayFrowRawInputValue (K320 false) identityScale
                (mcSample false false 0) (memoryOf [10; 4096; 20; 4096] (0 + i)))
    239 4 = 2
  /\ readAt (DisplayBuffer2 g') 0 = 232 /\ readAt (DisplayBuffer2 g') 1 = 232
  /\ readAt (DisplayBuffer2 g') 2 = 255.
Proof.
  intros g'.
  destruct (drawDataBuffer_trigger_state_packed (K320 false) identityScale
              gTriggerInfoLine (memoryOf [10; 4096; 20; 4096]) 0 4 9 0 eq_refl eq_refl)
    as (_ & Hnew & Hold).
  split; [reflexivity|]. split; [|split].
  - exact (Hnew 0 ltac:(vm_compute; split; congruence) ltac:(simpl; lia)).
  - exact (Hnew 1 ltac:(vm_compute; split; congruence) ltac:(simpl; lia)).
  - exact (Hold 2 ltac:(vm_compute; congruence)).
Defined.
